(** * ChaosSec: the iteration state machine and its decision / validation logic

    A shallow embedding of [src/chaossec/orchestrator.py],
    [src/chaossec/agent_brain.py] and the mutating entry point of
    [src/chaossec/aws_handler.py], with the properties the specification
    states about them.

    Conventions.
    - Python [str] is modelled by [string]; [lower()] and [strip()] act on
      the ASCII range.
    - A Python [dict] is an insertion-ordered association list with unique
      keys ([dict_set] overwrites in place or appends, as CPython does).
    - Values whose shape the code does not fix (the decision-maker's JSON)
      are [pyval]; objects the code builds with a fixed set of keys are
      records, an absent key being [None].
    - Effects (the clock, the logger, AWS, the file system, the decision
      maker) act on an abstract environment; exceptions are explicit. *)

From Stdlib Require Import String Ascii List ZArith QArith Bool Arith Lia.
From Stdlib Require Import Permutation Sorted DecimalString.
Import ListNotations.

Open Scope string_scope.
Open Scope nat_scope.

Set Warnings "-register-all".

(* ================================================================== *)
(** ** Python values *)
(* ================================================================== *)

Module Py.

(** What [json.loads] can return, which is also all the code handles
    dynamically. *)
Inductive pyval : Type :=
| VNone
| VBool (b : bool)
| VInt (n : Z)
| VFloat (q : Q)
| VStr (s : string)
| VList (l : list pyval)
| VDict (d : list (string * pyval)).

Definition dict (V : Type) : Type := list (string * V).

Fixpoint dict_get {V} (d : dict V) (k : string) : option V :=
  match d with
  | [] => None
  | (k', v) :: d' => if String.eqb k k' then Some v else dict_get d' k
  end.

(** [d.get(k, default)] *)
Definition dict_get_default {V} (d : dict V) (k : string) (default : V) : V :=
  match dict_get d k with Some v => v | None => default end.

(** [k in d] *)
Definition dict_has {V} (d : dict V) (k : string) : bool :=
  match dict_get d k with Some _ => true | None => false end.

(** [d[k] = v]: an existing key keeps its position, a new key goes last. *)
Fixpoint dict_set {V} (d : dict V) (k : string) (v : V) : dict V :=
  match d with
  | [] => [(k, v)]
  | (k', v') :: d' =>
      if String.eqb k k' then (k', v) :: d' else (k', v') :: dict_set d' k v
  end.

Definition dict_keys {V} (d : dict V) : list string := map fst d.

(** [bool(v)] *)
Definition truthy (v : pyval) : bool :=
  match v with
  | VNone => false
  | VBool b => b
  | VInt n => negb (n =? 0)%Z
  | VFloat q => negb (Qeq_bool q 0)
  | VStr s => negb (String.eqb s EmptyString)
  | VList l => match l with [] => false | _ => true end
  | VDict d => match d with [] => false | _ => true end
  end.

(** [v == 'text'] for a string literal on the right. *)
Definition eq_str (v : pyval) (s : string) : bool :=
  match v with VStr s' => String.eqb s' s | _ => false end.

(** *** Strings *)

Definition lower_ascii (c : ascii) : ascii :=
  let n := nat_of_ascii c in
  if (65 <=? n) && (n <=? 90) then ascii_of_nat (n + 32) else c.

(** [s.lower()] *)
Fixpoint lower (s : string) : string :=
  match s with
  | EmptyString => EmptyString
  | String c s' => String (lower_ascii c) (lower s')
  end.

(** [s.startswith(p)] *)
Definition startswith (s p : string) : bool := String.prefix p s.

(** [sub in s] *)
Fixpoint contains (s sub : string) : bool :=
  if String.prefix sub s then true
  else match s with
       | EmptyString => false
       | String _ s' => contains s' sub
       end.

(** What [str.isspace] accepts in the ASCII range. *)
Definition is_space (c : ascii) : bool :=
  let n := nat_of_ascii c in
  ((9 <=? n) && (n <=? 13)) || ((28 <=? n) && (n <=? 32)).

Fixpoint lstrip (s : string) : string :=
  match s with
  | EmptyString => EmptyString
  | String c s' => if is_space c then lstrip s' else s
  end.

Fixpoint rstrip (s : string) : string :=
  match s with
  | EmptyString => EmptyString
  | String c s' =>
      match rstrip s' with
      | EmptyString => if is_space c then EmptyString else String c EmptyString
      | r => String c r
      end
  end.

(** [s.strip()] *)
Definition strip (s : string) : string := rstrip (lstrip s).

Definition newline : ascii := ascii_of_nat 10.
Definition nl : string := String newline EmptyString.

(** [s.split('\n')]: never empty, one more piece than there are newlines. *)
Fixpoint split_lines (s : string) : list string :=
  match s with
  | EmptyString => [EmptyString]
  | String c s' =>
      if Ascii.eqb c newline then EmptyString :: split_lines s'
      else match split_lines s' with
           | [] => [String c EmptyString]
           | l :: ls => String c l :: ls
           end
  end.

(** ['\n'.join(lines)] *)
Fixpoint join_lines (lines : list string) : string :=
  match lines with
  | [] => EmptyString
  | [l] => l
  | l :: ls => l ++ nl ++ join_lines ls
  end.

(** [lines[1:-1]] *)
Definition slice_1_m1 {A} (lines : list A) : list A := removelast (tl lines).

(** [xs[-n:]] *)
Definition last_n {A} (n : nat) (xs : list A) : list A :=
  skipn (length xs - n) xs.

(** [str(int)] *)
Definition str_of_Z (z : Z) : string := NilZero.string_of_int (Z.to_int z).

End Py.
Export Py.

(* ================================================================== *)
(** ** Exceptions and effects *)
(* ================================================================== *)

Module Eff.

(** The exception classes the code names in an [except] clause or can
    raise itself; all derive from [Exception]. *)
Inductive exn_class : Type :=
| ClientError
| JSONDecodeError
| TypeError
| AttributeError
| RuntimeError
| OtherError (name : string).

Record exn : Type := mk_exn { exn_cls : exn_class; exn_str : string }.

Definition is_ClientError (e : exn) : bool :=
  match exn_cls e with ClientError => true | _ => false end.

Definition is_JSONDecodeError (e : exn) : bool :=
  match exn_cls e with JSONDecodeError => true | _ => false end.

(** [except Exception] *)
Definition is_Exception (e : exn) : bool := true.

Inductive res (A : Type) : Type :=
| Ok (a : A)
| Raise (e : exn).
Arguments Ok {A} a.
Arguments Raise {A} e.

(** A computation over a mutable state [S] that returns or raises; the
    state reached when it raises is kept, as Python keeps the mutations
    made before the exception. *)
Definition M (S A : Type) : Type := S -> res A * S.

Definition ret {S A} (a : A) : M S A := fun s => (Ok a, s).

Definition raise {S A} (e : exn) : M S A := fun s => (Raise e, s).

Definition bind {S A B} (m : M S A) (k : A -> M S B) : M S B :=
  fun s => match m s with
           | (Ok a, s') => k a s'
           | (Raise e, s') => (Raise e, s')
           end.

Definition get {S} : M S S := fun s => (Ok s, s).

Definition modify {S} (f : S -> S) : M S unit := fun s => (Ok tt, f s).

(** [try: body  except <caught> as e: handler e] *)
Definition try_except {S A} (body : M S A) (caught : exn -> bool)
    (handler : exn -> M S A) : M S A :=
  fun s => match body s with
           | (Ok a, s') => (Ok a, s')
           | (Raise e, s') => if caught e then handler e s' else (Raise e, s')
           end.

(** Run [m], which works on the outer state, inside a computation that
    also holds a local object [L]. *)
Definition lift {S L A} (m : M S A) : M (S * L) A :=
  fun sl => match m (fst sl) with (r, s') => (r, (s', snd sl)) end.

(** Allocate a local object, run [body] with it, forget it afterwards. *)
Definition with_local {S L A} (init : L) (body : M (S * L) A) : M S A :=
  fun s => match body (s, init) with (r, (s', _)) => (r, s') end.

Definition get_local {S L} : M (S * L) L := fun sl => (Ok (snd sl), sl).

Definition modify_local {S L} (f : L -> L) : M (S * L) unit :=
  fun sl => (Ok tt, (fst sl, f (snd sl))).

(** [for x in xs: body x] *)
Fixpoint for_each {S A} (xs : list A) (body : A -> M S unit) : M S unit :=
  match xs with
  | [] => ret tt
  | x :: xs' => bind (body x) (fun _ => for_each xs' body)
  end.

Definition returns {S A} (m : M S A) (s : S) (a : A) (s' : S) : Prop :=
  m s = (Ok a, s').

Definition raises {S A} (m : M S A) (s : S) (e : exn) (s' : S) : Prop :=
  m s = (Raise e, s').

End Eff.
Export Eff.

Declare Scope py_scope.
Delimit Scope py_scope with py.
Notation "x <- c ;; k" := (bind c (fun x => k))
  (at level 61, c at next level, right associativity) : py_scope.
Notation "c ;; k" := (bind c (fun _ => k))
  (at level 61, right associativity) : py_scope.
Open Scope py_scope.

(* ================================================================== *)
(** ** Data model *)
(* ================================================================== *)

(** One entry of [execution_history], as [_step_learn] writes it.  The
    optional key [failure_type] is read by [analyze_history]; its values
    are the keys of a [Dict[str, int]]. *)
Record HistoryEntry : Type := {
  he_iteration_id : option string;
  he_timestamp : option string;
  he_target : pyval;
  he_chaos_type : pyval;
  he_outcome : option string;
  he_test_passed : option bool;
  he_findings_count : nat;
  he_failure_type : option string
}.

(** One element of [common_failures]: [{"type": ..., "count": ...}]. *)
Record FailureCount : Type := { fc_type : string; fc_count : nat }.

(** The dictionary [analyze_history] returns.  The empty-history branch
    has the keys [total_tests], [success_rate], [common_failures] and
    [recommendations]; the other branch has [successful_tests],
    [failed_tests] and [most_recent] instead of [recommendations].
    [success_rate] is the Python float [successful / total], kept as the
    exact quotient. *)
Record Analysis : Type := {
  total_tests : nat;
  successful_tests : option nat;
  failed_tests : option nat;
  success_rate : Q;
  common_failures : list FailureCount;
  recommendations : option (list string);
  most_recent : option HistoryEntry
}.

(** The context [_step_reason] hands to the decision maker. *)
Record Context : Type := {
  history_analysis : Analysis;
  semgrep_findings : list pyval;
  previous_tests : list HistoryEntry
}.

(** A result dictionary of the scanner; [findings] is always present and
    a list. *)
Record SemgrepScan : Type := {
  scan_findings : list pyval;
  scan_report : dict pyval
}.

(** One element of what [get_config_compliance] returns. *)
Record ComplianceRecord : Type := {
  compliance_type : pyval;
  compliance_details : dict pyval
}.

(** The package [create_evidence_package] builds. *)
Record EvidencePackage : Type := {
  package_id : string;
  package_body : dict pyval
}.

(** [_step_scan]'s dictionary. *)
Record ScanResults : Type := {
  self_scan : option SemgrepScan;
  iac_scan : option SemgrepScan;
  combined_findings : list pyval;
  total_findings : nat
}.

(* ================================================================== *)
(** ** External collaborators *)
(* ================================================================== *)

(** Everything outside the core: each call acts on the environment and
    returns or raises.  The logger swallows its own failures
    ([logger.py]), so a logging call only changes the environment.
    [_build_reasoning_prompt] only formats its argument into text, and
    [_call_bedrock] wraps the request to the model: the first is a pure
    function here, the second an arbitrary call, as are [json.loads] and
    the clients of the other services. *)
Class Externals (Env : Type) : Type := {
  (* logger *)
  logger_emit : string -> Env -> Env;
  (* clock *)
  utcnow_isoformat : Env -> string * Env;
  time_time : Env -> Z * Env;
  time_sleep : Z -> Env -> Env;
  (* decision maker: [_call_bedrock] on the rendered prompt, [json.loads] *)
  render_reasoning_prompt : Context -> string;
  call_bedrock : string -> Env -> res string * Env;
  json_loads : string -> res pyval;
  (* S3 client *)
  s3_delete_public_access_block : pyval -> Env -> res unit * Env;
  s3_put_bucket_acl : pyval -> string -> Env -> res unit * Env;
  s3_put_public_access_block : pyval -> Env -> res unit * Env;
  (* monitoring reads of the AWS handler *)
  get_cloudwatch_metrics : pyval -> Env -> res (list pyval) * Env;
  get_config_compliance : pyval -> Env -> res (list ComplianceRecord) * Env;
  get_cloudtrail_events : pyval -> Env -> res (list pyval) * Env;
  (* digital twin provider: the HTTP request of [create_digital_twin] *)
  si_workspace_id : pyval;
  si_post_twins : Env -> res pyval * Env;
  (* scanner *)
  scan_self : string -> Env -> res SemgrepScan * Env;
  scan_iac_directory : string -> Env -> res SemgrepScan * Env;
  iac_path_exists : string -> Env -> bool;
  (* evidence sink *)
  create_evidence_package :
    ScanResults -> list pyval -> string -> Env -> res EvidencePackage * Env;
  upload_evidence_package : EvidencePackage -> Env -> res (list pyval) * Env;
  (* history file *)
  history_file_path : Env -> string;
  write_history_file : string -> list HistoryEntry -> Env -> res unit * Env
}.

Section Calls.
Context {Env : Type} `{Externals Env}.

Definition log (level : string) : M Env unit := modify (logger_emit level).
Definition log_info : M Env unit := log "INFO".
Definition log_debug : M Env unit := log "DEBUG".
Definition log_warning : M Env unit := log "WARNING".
Definition log_error : M Env unit := log "ERROR".
Definition log_audit : M Env unit := log "INFO".

Definition utcnow : M Env string :=
  fun e => let (t, e') := utcnow_isoformat e in (Ok t, e').

Definition lift_res {S A} (r : res A) : M S A := fun s => (r, s).

End Calls.

(* ================================================================== *)
(** ** agent_brain.py *)
(* ================================================================== *)

Module AgentBrain.
Section AgentBrain.
Context {Env : Type} `{Externals Env}.

(** [r.get('outcome') == s] *)
Definition outcome_is (s : string) (r : HistoryEntry) : bool :=
  match he_outcome r with Some o => String.eqb o s | None => false end.

(** [sum(1 for r in past_results if p r)] *)
Definition sum_ones {A} (p : A -> bool) (xs : list A) : nat :=
  list_sum (map (fun _ => 1) (filter p xs)).

(** [result.get('failure_type', 'unknown')] *)
Definition failure_type_of (result : HistoryEntry) : string :=
  match he_failure_type result with Some t => t | None => "unknown" end.

(** Body of the loop over [past_results] that fills [failure_types]. *)
Definition count_failure (failure_types : dict nat) (result : HistoryEntry)
    : dict nat :=
  if outcome_is "failure" result then
    let failure_type := failure_type_of result in
    dict_set failure_types failure_type
      (dict_get_default failure_types failure_type 0 + 1)
  else failure_types.

(** [sorted(items, key=lambda x: x[1], reverse=True)].  Python's sort is
    stable, also with [reverse=True]: items with equal counts keep their
    order.  An insertion sort that places an item before the first one
    whose count is not larger computes the same list. *)
Fixpoint insert_desc (x : string * nat) (l : list (string * nat))
    : list (string * nat) :=
  match l with
  | [] => [x]
  | y :: l' => if snd x <? snd y then y :: insert_desc x l' else x :: l
  end.

Definition sorted_by_count_desc (items : list (string * nat))
    : list (string * nat) :=
  fold_right insert_desc [] items.

Definition placeholder_recommendation : string :=
  "No historical data available - start with basic S3 tests".

Definition analyze_history (past_results : list HistoryEntry)
    : M Env Analysis :=
  log_info ;;
  match past_results with
  | [] =>
      ret {| total_tests := 0;
             successful_tests := None;
             failed_tests := None;
             success_rate := 0;
             common_failures := [];
             recommendations := Some [placeholder_recommendation];
             most_recent := None |}
  | _ :: _ =>
      let total := length past_results in
      let successful := sum_ones (outcome_is "success") past_results in
      let failed := sum_ones (outcome_is "failure") past_results in
      let failure_types := fold_left count_failure past_results [] in
      let common_failures := firstn 3 (sorted_by_count_desc failure_types) in
      let analysis :=
        {| total_tests := total;
           successful_tests := Some successful;
           failed_tests := Some failed;
           success_rate :=
             if 0 <? total then Z.of_nat successful # Pos.of_nat total
             else 0;
           common_failures :=
             map (fun f => {| fc_type := fst f; fc_count := snd f |})
                 common_failures;
           recommendations := None;
           most_recent := nth_error past_results (length past_results - 1) |}
      in
      log_debug ;;
      ret analysis
  end.

Definition type_name (v : pyval) : string :=
  match v with
  | VNone => "NoneType"
  | VBool _ => "bool"
  | VInt _ => "int"
  | VFloat _ => "float"
  | VStr _ => "str"
  | VList _ => "list"
  | VDict _ => "dict"
  end.

(** [field in v] for a string [field] *)
Definition py_in (field : string) (v : pyval) : res bool :=
  match v with
  | VDict d => Ok (dict_has d field)
  | VList l => Ok (existsb (fun x => eq_str x field) l)
  | VStr s => Ok (contains s field)
  | _ => Raise (mk_exn TypeError
                  ("argument of type '" ++ type_name v ++ "' is not iterable"))
  end.

(** [v[field] = x] for a string [field] *)
Definition py_setitem (v : pyval) (field : string) (x : pyval) : res pyval :=
  match v with
  | VDict d => Ok (VDict (dict_set d field x))
  | VList _ => Raise (mk_exn TypeError
                        "list indices must be integers or slices, not str")
  | _ => Raise (mk_exn TypeError
                  ("'" ++ type_name v ++
                   "' object does not support item assignment"))
  end.

(** [v.get(...)] needs [v] to be a dictionary. *)
Definition as_dict (v : pyval) : res (dict pyval) :=
  match v with
  | VDict d => Ok d
  | _ => Raise (mk_exn AttributeError
                  ("'" ++ type_name v ++ "' object has no attribute 'get'"))
  end.

Definition required_fields : list string :=
  ["target_resource"; "chaos_type"; "expected_outcome";
   "validation_criteria"; "compliance_control"].

(** The loop [for field in required_fields] of [_parse_bedrock_response]. *)
Fixpoint fill_required (fields : list string) (recommendation : pyval)
    : M Env pyval :=
  match fields with
  | [] => ret recommendation
  | field :: fields' =>
      present <- lift_res (py_in field recommendation) ;;
      if negb present then
        log_warning ;;
        recommendation' <-
          lift_res (py_setitem recommendation field (VStr "Not specified")) ;;
        fill_required fields' recommendation'
      else fill_required fields' recommendation
  end.

(** The text handed to [json.loads]: the stripped response, without its
    first and last line when it opens with a code fence and has more than
    two lines. *)
Definition unfence (response : string) : string :=
  let response := strip response in
  if startswith response "```" then
    let lines := split_lines response in
    if 2 <? length lines then join_lines (slice_1_m1 lines) else response
  else response.

Definition parse_error_fallback (e : exn) : dict pyval :=
  [("target_resource", VStr "s3-bucket-default");
   ("chaos_type", VStr "make_s3_public");
   ("expected_outcome", VStr "Detection by security controls");
   ("validation_criteria", VStr "Config compliance check fails");
   ("compliance_control", VStr "SOC2:CC6.6");
   ("reasoning", VStr "Fallback due to parse error");
   ("error", VStr (exn_str e))].

Definition _parse_bedrock_response (response : string) : M Env pyval :=
  try_except
    (let response := unfence response in
     recommendation <- lift_res (json_loads response) ;;
     fill_required required_fields recommendation)
    is_JSONDecodeError
    (fun e => log_error ;; log_debug ;; ret (VDict (parse_error_fallback e))).

Definition _fallback_recommendation (context : Context) : M Env (dict pyval) :=
  log_warning ;;
  ret [("target_resource", VStr "s3-chaossec-test-bucket");
       ("chaos_type", VStr "make_s3_public");
       ("expected_outcome",
        VStr "AWS Config should detect non-compliance, security alerts should fire");
       ("validation_criteria",
        VStr "Config rule violation detected, CloudWatch alarm triggered");
       ("compliance_control", VStr "SOC2:CC6.6 - Logical Access Controls");
       ("reasoning",
        VStr "Starting with fundamental S3 security test (fallback logic)");
       ("fallback", VBool true)].

Definition reason_next_chaos (context : Context) : M Env (dict pyval) :=
  log_info ;;
  let prompt := render_reasoning_prompt context in
  try_except
    (response <- call_bedrock prompt ;;
     recommendation <- _parse_bedrock_response response ;;
     (* the audit record reads recommendation.get('target_resource') *)
     recommendation <- lift_res (as_dict recommendation) ;;
     log_audit ;;
     ret recommendation)
    is_Exception
    (fun e => log_error ;; _fallback_recommendation context).

End AgentBrain.
End AgentBrain.

(* ================================================================== *)
(** ** aws_handler.py, system_initiative.py *)
(* ================================================================== *)

Module AWSHandler.
Section AWSHandler.
Context {Env : Type} `{Externals Env}.

(** The single mutating entry point. *)
Definition simulate_s3_bucket_misconfiguration
    (bucket_name : pyval) (make_public : bool) (safety_mode : bool)
    : M Env (dict pyval) :=
  log_info ;;
  if safety_mode then
    log_warning ;;
    ret [("bucket", bucket_name);
         ("action", VStr (if make_public then "make_public" else "fix_public"));
         ("applied", VBool false);
         ("safety_mode", VBool true);
         ("simulated_outcome", VStr "success")]
  else
    try_except
      (action <-
         (if make_public then
            s3_delete_public_access_block bucket_name ;;
            s3_put_bucket_acl bucket_name "public-read" ;;
            ret "made_public"
          else
            s3_put_public_access_block bucket_name ;;
            s3_put_bucket_acl bucket_name "private" ;;
            ret "fixed_public") ;;
       log_audit ;;
       ret [("bucket", bucket_name);
            ("action", VStr action);
            ("applied", VBool true);
            ("safety_mode", VBool false);
            ("outcome", VStr "success")])
      is_ClientError
      (fun e =>
         log_error ;;
         ret [("bucket", bucket_name);
              ("action",
               VStr (if make_public then "make_public" else "fix_public"));
              ("applied", VBool false);
              ("error", VStr (exn_str e));
              ("outcome", VStr "failure")]).

End AWSHandler.
End AWSHandler.

Module SystemInitiative.
Section SystemInitiative.
Context {Env : Type} `{Externals Env}.

(** [a or b] *)
Definition py_or (a b : pyval) : pyval := if truthy a then a else b.

Definition option_val (o : option pyval) : pyval :=
  match o with Some v => v | None => VNone end.

Definition create_digital_twin (aws_resources : list pyval)
    : M Env (dict pyval) :=
  log_info ;;
  try_except
    (result <- si_post_twins ;;
     result <- lift_res (AgentBrain.as_dict result) ;;
     let twin_id := py_or (option_val (dict_get result "twin_id"))
                          (option_val (dict_get result "id")) in
     log_audit ;;
     ret [("twin_id", twin_id);
          ("status", dict_get_default result "status" (VStr "created"));
          ("resource_count", VInt (Z.of_nat (length aws_resources)));
          ("workspace_id", si_workspace_id)])
    is_Exception
    (fun e =>
       log_error ;;
       ret [("twin_id", VNone);
            ("status", VStr "error");
            ("error", VStr (exn_str e))]).

End SystemInitiative.
End SystemInitiative.

(* ================================================================== *)
(** ** orchestrator.py *)
(* ================================================================== *)

Module Orchestrator.

(** The fields of [ChaosSecOrchestrator] the pipeline reads or writes,
    with the environment its collaborators act on. *)
Record State (Env : Type) : Type := mk_State {
  config_safety_mode : bool;
  correlation_id : string;
  current_twin_id : pyval;
  execution_history : list HistoryEntry;
  env : Env
}.
Arguments mk_State {Env}.
Arguments config_safety_mode {Env}.
Arguments correlation_id {Env}.
Arguments current_twin_id {Env}.
Arguments execution_history {Env}.
Arguments env {Env}.

Record MonitoringResult : Type := {
  target : pyval;
  metrics : list pyval;
  compliance : list ComplianceRecord;
  events : list pyval;
  monitored_at : string
}.

Record ValidationResult : Type := {
  outcome : string;
  test_passed : bool;
  expected_outcome : pyval;
  validation_criteria : pyval;
  non_compliant_detected : bool;
  compliance_count : nat;
  validated_at : string
}.

Record ReportResult : Type := {
  report_package_id : string;
  evidence_count : nat;
  upload_results : list pyval;
  reported_at : string
}.

Record LearnResult : Type := {
  stored : bool;
  history_length : nat;
  history_file : string
}.

(** The type of each stage's result.  The sequencer does not look inside
    them; the tests replace the stage methods by arbitrary ones. *)
Record StageTypes : Type := {
  T_simulate : Type;
  T_scan : Type;
  T_reason : Type;
  T_chaos : Type;
  T_monitor : Type;
  T_validate : Type;
  T_report : Type;
  T_learn : Type
}.

(** An entry of [iteration_result["steps"]]: the key and the value stored
    under it. *)
Inductive StageResult (T : StageTypes) : Type :=
| R_simulate (r : T_simulate T)
| R_scan (r : T_scan T)
| R_reason (r : T_reason T)
| R_chaos (r : T_chaos T)
| R_monitor (r : T_monitor T)
| R_validate (r : T_validate T)
| R_report (r : T_report T)
| R_learn (r : T_learn T).
Arguments R_simulate {T} r.
Arguments R_scan {T} r.
Arguments R_reason {T} r.
Arguments R_chaos {T} r.
Arguments R_monitor {T} r.
Arguments R_validate {T} r.
Arguments R_report {T} r.
Arguments R_learn {T} r.

Definition stage_key {T} (r : StageResult T) : string :=
  match r with
  | R_simulate _ => "simulate"
  | R_scan _ => "scan"
  | R_reason _ => "reason"
  | R_chaos _ => "chaos"
  | R_monitor _ => "monitor"
  | R_validate _ => "validate"
  | R_report _ => "report"
  | R_learn _ => "learn"
  end.

(** The keys of a complete [steps] dictionary, in pipeline order. *)
Definition stage_names : list string :=
  ["simulate"; "scan"; "reason"; "chaos"; "monitor"; "validate"; "report";
   "learn"].

(** [steps[key] = r] *)
Fixpoint set_step {T} (steps : list (StageResult T)) (r : StageResult T)
    : list (StageResult T) :=
  match steps with
  | [] => [r]
  | r' :: steps' =>
      if String.eqb (stage_key r) (stage_key r') then r :: steps'
      else r' :: set_step steps' r
  end.

Definition steps_keys {T} (steps : list (StageResult T)) : list string :=
  map stage_key steps.

(** [steps.get('scan')], [steps.get('reason')], [steps.get('validate')] *)
Fixpoint steps_scan {T} (steps : list (StageResult T)) : option (T_scan T) :=
  match steps with
  | [] => None
  | R_scan r :: _ => Some r
  | _ :: steps' => steps_scan steps'
  end.

Fixpoint steps_reason {T} (steps : list (StageResult T))
    : option (T_reason T) :=
  match steps with
  | [] => None
  | R_reason r :: _ => Some r
  | _ :: steps' => steps_reason steps'
  end.

Fixpoint steps_validate {T} (steps : list (StageResult T))
    : option (T_validate T) :=
  match steps with
  | [] => None
  | R_validate r :: _ => Some r
  | _ :: steps' => steps_validate steps'
  end.

(** The dictionary [_run_single_iteration] builds; [status], [error] and
    [completed_at] are absent until they are assigned. *)
Record IterationResult (T : StageTypes) : Type := mk_IterationResult {
  iteration_id : string;
  started_at : string;
  steps : list (StageResult T);
  status : option string;
  error : option string;
  completed_at : option string
}.
Arguments mk_IterationResult {T}.
Arguments iteration_id {T}.
Arguments started_at {T}.
Arguments steps {T}.
Arguments status {T}.
Arguments error {T}.
Arguments completed_at {T}.

Definition attach_step {T} (r : StageResult T) (ir : IterationResult T)
    : IterationResult T :=
  mk_IterationResult (iteration_id ir) (started_at ir) (set_step (steps ir) r)
    (status ir) (error ir) (completed_at ir).

Definition set_status {T} (s : string) (ir : IterationResult T)
    : IterationResult T :=
  mk_IterationResult (iteration_id ir) (started_at ir) (steps ir)
    (Some s) (error ir) (completed_at ir).

Definition set_error {T} (s : string) (ir : IterationResult T)
    : IterationResult T :=
  mk_IterationResult (iteration_id ir) (started_at ir) (steps ir)
    (status ir) (Some s) (completed_at ir).

Definition set_completed_at {T} (s : string) (ir : IterationResult T)
    : IterationResult T :=
  mk_IterationResult (iteration_id ir) (started_at ir) (steps ir)
    (status ir) (error ir) (Some s).

(** The dictionary [run_chaossec_loop] builds. *)
Record RunSummary (T : StageTypes) : Type := mk_RunSummary {
  loop_started_at : string;
  loop_correlation_id : string;
  iterations : list (IterationResult T);
  loop_safety_mode : bool;
  loop_completed_at : option string;
  loop_status : option string;
  total_iterations : option nat;
  summary : option string;
  loop_error : option string
}.
Arguments mk_RunSummary {T}.
Arguments loop_started_at {T}.
Arguments loop_correlation_id {T}.
Arguments iterations {T}.
Arguments loop_safety_mode {T}.
Arguments loop_completed_at {T}.
Arguments loop_status {T}.
Arguments total_iterations {T}.
Arguments summary {T}.
Arguments loop_error {T}.

Section Methods.
Context {Env : Type} `{Externals Env}.

#[local] Abbreviation St := (State Env).

(** A call on a collaborator: it acts on the environment only. *)
Definition call {A} (m : M Env A) : M St A :=
  fun s =>
    match m (env s) with
    | (r, e') =>
        (r, mk_State (config_safety_mode s) (correlation_id s)
              (current_twin_id s) (execution_history s) e')
    end.

Definition set_current_twin_id (v : pyval) : M St unit :=
  modify (fun s => mk_State (config_safety_mode s) (correlation_id s) v
                     (execution_history s) (env s)).

(** [self.execution_history.append(entry)] *)
Definition append_history (entry : HistoryEntry) : M St unit :=
  modify (fun s => mk_State (config_safety_mode s) (correlation_id s)
                     (current_twin_id s) (execution_history s ++ [entry])
                     (env s)).

(** The methods of the orchestrator the sequencer and the run loop call
    through [self]. *)
Record Stages (T : StageTypes) : Type := {
  step_simulate : M St (T_simulate T);
  step_scan : option string -> M St (T_scan T);
  step_reason : T_scan T -> M St (T_reason T);
  step_inject_chaos : T_reason T -> M St (T_chaos T);
  step_monitor : T_chaos T -> M St (T_monitor T);
  step_validate : T_monitor T -> T_reason T -> M St (T_validate T);
  step_report :
    T_chaos T -> T_scan T -> T_monitor T -> T_validate T -> M St (T_report T);
  step_learn : IterationResult T -> M St (T_learn T)
}.
Arguments step_simulate {T}.
Arguments step_scan {T}.
Arguments step_reason {T}.
Arguments step_inject_chaos {T}.
Arguments step_monitor {T}.
Arguments step_validate {T}.
Arguments step_report {T}.
Arguments step_learn {T}.

Section Sequencer.
Variable T : StageTypes.
Variable self : Stages T.

Definition attach (r : StageResult T) : M (St * IterationResult T) unit :=
  modify_local (attach_step r).

Definition info : M (St * IterationResult T) unit := lift (call log_info).

Definition _run_single_iteration (project_root : option string)
    : M St (IterationResult T) :=
  now <- call (fun e => let (t, e') := time_time e in (Ok t, e')) ;;
  started <- call utcnow ;;
  with_local
    {| iteration_id := "iter-" ++ str_of_Z now;
       started_at := started;
       steps := [];
       status := None;
       error := None;
       completed_at := None |}
    (try_except
       (info ;;
        simulation_result <- lift (step_simulate self) ;;
        attach (R_simulate simulation_result) ;;
        info ;;
        scan_result <- lift (step_scan self project_root) ;;
        attach (R_scan scan_result) ;;
        info ;;
        reasoning_result <- lift (step_reason self scan_result) ;;
        attach (R_reason reasoning_result) ;;
        info ;;
        chaos_result <- lift (step_inject_chaos self reasoning_result) ;;
        attach (R_chaos chaos_result) ;;
        info ;;
        monitoring_result <- lift (step_monitor self chaos_result) ;;
        attach (R_monitor monitoring_result) ;;
        info ;;
        validation_result <-
          lift (step_validate self monitoring_result reasoning_result) ;;
        attach (R_validate validation_result) ;;
        info ;;
        report_result <-
          lift (step_report self chaos_result scan_result monitoring_result
                  validation_result) ;;
        attach (R_report report_result) ;;
        info ;;
        iteration_result <- get_local ;;
        learn_result <- lift (step_learn self iteration_result) ;;
        attach (R_learn learn_result) ;;
        finished <- lift (call utcnow) ;;
        modify_local (set_completed_at finished) ;;
        modify_local (set_status "success") ;;
        get_local)
       is_Exception
       (fun e =>
          lift (call log_error) ;;
          modify_local (set_status "error") ;;
          modify_local (set_error (exn_str e)) ;;
          finished <- lift (call utcnow) ;;
          modify_local (set_completed_at finished) ;;
          get_local)).

End Sequencer.

Section RunLoop.
Variable T : StageTypes.
(** [self._run_single_iteration] and
    [self.agent_brain.generate_report_summary], whatever they do. *)
Variable run_single_iteration : option string -> M St (IterationResult T).
Variable generate_report_summary : RunSummary T -> M Env string.

(** [range(n)] *)
Definition range (n : Z) : list Z := map Z.of_nat (seq 0 (Z.to_nat n)).

Definition append_iteration (ir : IterationResult T) (r : RunSummary T)
    : RunSummary T :=
  mk_RunSummary (loop_started_at r) (loop_correlation_id r)
    (iterations r ++ [ir]) (loop_safety_mode r) (loop_completed_at r)
    (loop_status r) (total_iterations r) (summary r) (loop_error r).

Definition set_loop_completed (now : string) (r : RunSummary T)
    : RunSummary T :=
  mk_RunSummary (loop_started_at r) (loop_correlation_id r) (iterations r)
    (loop_safety_mode r) (Some now) (Some "completed")
    (Some (length (iterations r))) (summary r) (loop_error r).

Definition set_loop_summary (text : string) (r : RunSummary T)
    : RunSummary T :=
  mk_RunSummary (loop_started_at r) (loop_correlation_id r) (iterations r)
    (loop_safety_mode r) (loop_completed_at r) (loop_status r)
    (total_iterations r) (Some text) (loop_error r).

Definition set_loop_error (e : exn) (r : RunSummary T) : RunSummary T :=
  mk_RunSummary (loop_started_at r) (loop_correlation_id r) (iterations r)
    (loop_safety_mode r) (loop_completed_at r) (Some "error")
    (total_iterations r) (summary r) (Some (exn_str e)).

(** Body of [for iteration in range(max_iterations)]. *)
Definition loop_body (max_iterations : Z) (project_root : option string)
    (iteration : Z) : M (St * RunSummary T) unit :=
  lift (call log_info) ;;
  iteration_result <- lift (run_single_iteration project_root) ;;
  modify_local (append_iteration iteration_result) ;;
  if (iteration <? max_iterations - 1)%Z then
    lift (call log_info) ;;
    lift (call (modify (time_sleep 5)))
  else ret tt.

Definition run_chaossec_loop (max_iterations : Z)
    (project_root : option string) : M St (RunSummary T) :=
  call log_info ;;
  started <- call utcnow ;;
  s <- get ;;
  with_local
    {| loop_started_at := started;
       loop_correlation_id := correlation_id s;
       iterations := [];
       loop_safety_mode := config_safety_mode s;
       loop_completed_at := None;
       loop_status := None;
       total_iterations := None;
       summary := None;
       loop_error := None |}
    (try_except
       (for_each (range max_iterations)
          (loop_body max_iterations project_root) ;;
        finished <- lift (call utcnow) ;;
        modify_local (set_loop_completed finished) ;;
        loop_results <- get_local ;;
        text <- lift (call (generate_report_summary loop_results)) ;;
        modify_local (set_loop_summary text) ;;
        lift (call log_info) ;;
        get_local)
       is_Exception
       (fun e =>
          lift (call log_error) ;;
          modify_local (set_loop_error e) ;;
          get_local)).

End RunLoop.


(** *** The stages of ChaosSec *)

Definition ChaosSecTypes : StageTypes :=
  {| T_simulate := dict pyval;
     T_scan := ScanResults;
     T_reason := dict pyval;
     T_chaos := dict pyval;
     T_monitor := MonitoringResult;
     T_validate := ValidationResult;
     T_report := ReportResult;
     T_learn := LearnResult |}.

Definition aws_resources : list pyval :=
  [VDict [("type", VStr "aws_s3_bucket");
          ("name", VStr "chaossec-test-bucket");
          ("properties",
           VDict [("bucket", VStr "chaossec-test-bucket");
                  ("acl", VStr "private");
                  ("versioning", VDict [("enabled", VBool true)])])];
   VDict [("type", VStr "aws_s3_bucket_public_access_block");
          ("name", VStr "chaossec-test-bucket-block");
          ("properties",
           VDict [("bucket", VStr "chaossec-test-bucket");
                  ("block_public_acls", VBool true);
                  ("block_public_policy", VBool true);
                  ("ignore_public_acls", VBool true);
                  ("restrict_public_buckets", VBool true)])]].

Definition _step_simulate : M St (dict pyval) :=
  twin_result <- call (SystemInitiative.create_digital_twin aws_resources) ;;
  let twin_id := SystemInitiative.option_val (dict_get twin_result "twin_id") in
  (if truthy twin_id then set_current_twin_id twin_id else ret tt) ;;
  ret twin_result.

(** [if project_root:] *)
Definition root_given (project_root : option string) : option string :=
  match project_root with
  | Some EmptyString => None
  | other => other
  end.

Definition _step_scan (project_root : option string) : M St ScanResults :=
  let scan_results :=
    {| self_scan := None; iac_scan := None; combined_findings := [];
       total_findings := 0 |} in
  scan_results <-
    match root_given project_root with
    | Some root =>
        scan <- call (scan_self root) ;;
        ret {| self_scan := Some scan;
               iac_scan := iac_scan scan_results;
               combined_findings :=
                 combined_findings scan_results ++ scan_findings scan;
               total_findings := total_findings scan_results |}
    | None => ret scan_results
    end ;;
  scan_results <-
    match root_given project_root with
    | Some root =>
        let iac_path := root ++ "/infrastructure" in
        s <- get ;;
        if iac_path_exists iac_path (env s) then
          scan <- call (scan_iac_directory iac_path) ;;
          ret {| self_scan := self_scan scan_results;
                 iac_scan := Some scan;
                 combined_findings :=
                   combined_findings scan_results ++ scan_findings scan;
                 total_findings := total_findings scan_results |}
        else ret scan_results
    | None => ret scan_results
    end ;;
  ret {| self_scan := self_scan scan_results;
         iac_scan := iac_scan scan_results;
         combined_findings := combined_findings scan_results;
         total_findings := length (combined_findings scan_results) |}.

Definition _step_reason (scan_result : ScanResults) : M St (dict pyval) :=
  s <- get ;;
  analysis <- call (AgentBrain.analyze_history (execution_history s)) ;;
  let context :=
    {| history_analysis := analysis;
       semgrep_findings := combined_findings scan_result;
       previous_tests :=
         match execution_history s with
         | [] => []
         | _ :: _ => last_n 5 (execution_history s)
         end |} in
  call (AgentBrain.reason_next_chaos context).

(** [chaos_type.lower()] *)
Definition py_lower (v : pyval) : res string :=
  match v with
  | VStr s => Ok (lower s)
  | _ => Raise (mk_exn AttributeError
                  ("'" ++ AgentBrain.type_name v ++
                   "' object has no attribute 'lower'"))
  end.

Definition _step_inject_chaos (reasoning_result : dict pyval)
    : M St (dict pyval) :=
  let chaos_type :=
    dict_get_default reasoning_result "chaos_type" (VStr "make_s3_public") in
  let target :=
    dict_get_default reasoning_result "target_resource"
      (VStr "chaossec-test-bucket") in
  lowered <- lift_res (py_lower chaos_type) ;;
  s <- get ;;
  if contains lowered "public" || contains lowered "s3" then
    result <-
      call (AWSHandler.simulate_s3_bucket_misconfiguration target true
              (config_safety_mode s)) ;;
    let result := dict_set result "chaos_type" chaos_type in
    let result :=
      dict_set result "reasoning"
        (dict_get_default reasoning_result "reasoning" (VStr EmptyString)) in
    ret result
  else
    call log_warning ;;
    ret [("chaos_type", VStr "make_s3_public");
         ("target", target);
         ("applied", VBool false);
         ("safety_mode", VBool (config_safety_mode s));
         ("note", VStr "Fallback to S3 test")].

Definition _step_monitor (chaos_result : dict pyval) : M St MonitoringResult :=
  let target :=
    SystemInitiative.py_or
      (SystemInitiative.option_val (dict_get chaos_result "bucket"))
      (dict_get_default chaos_result "target" (VStr "unknown")) in
  metrics <- call (get_cloudwatch_metrics target) ;;
  compliance <- call (get_config_compliance target) ;;
  events <- call (get_cloudtrail_events target) ;;
  now <- call utcnow ;;
  ret {| target := target; metrics := metrics; compliance := compliance;
         events := events; monitored_at := now |}.

Definition _step_validate (monitoring_result : MonitoringResult)
    (reasoning_result : dict pyval) : M St ValidationResult :=
  let expected_outcome :=
    dict_get_default reasoning_result "expected_outcome" (VStr EmptyString) in
  let validation_criteria :=
    dict_get_default reasoning_result "validation_criteria"
      (VStr EmptyString) in
  let compliance_data := compliance monitoring_result in
  let non_compliant_detected :=
    existsb (fun c => eq_str (compliance_type c) "NON_COMPLIANT")
      compliance_data in
  s <- get ;;
  let '(test_passed, outcome) :=
    if config_safety_mode s then (true, "success_simulated")
    else (non_compliant_detected,
          if non_compliant_detected then "success" else "failure") in
  now <- call utcnow ;;
  ret {| outcome := outcome;
         test_passed := test_passed;
         expected_outcome := expected_outcome;
         validation_criteria := validation_criteria;
         non_compliant_detected := non_compliant_detected;
         compliance_count := length compliance_data;
         validated_at := now |}.

Definition _step_report (chaos_result : dict pyval) (scan_result : ScanResults)
    (monitoring_result : MonitoringResult)
    (validation_result : ValidationResult) : M St ReportResult :=
  evidence_package <-
    call (create_evidence_package scan_result (metrics monitoring_result)
            (outcome validation_result)) ;;
  results <- call (upload_evidence_package evidence_package) ;;
  now <- call utcnow ;;
  ret {| report_package_id := package_id evidence_package;
         evidence_count := length results;
         upload_results := results;
         reported_at := now |}.

Definition _step_learn (iteration_result : IterationResult ChaosSecTypes)
    : M St LearnResult :=
  let reason := steps_reason (steps iteration_result) in
  let validate := steps_validate (steps iteration_result) in
  let scan := steps_scan (steps iteration_result) in
  let history_entry :=
    {| he_iteration_id := Some (iteration_id iteration_result);
       he_timestamp := Some (started_at iteration_result);
       he_target :=
         match reason with
         | Some d => SystemInitiative.option_val (dict_get d "target_resource")
         | None => VNone
         end;
       he_chaos_type :=
         match reason with
         | Some d => SystemInitiative.option_val (dict_get d "chaos_type")
         | None => VNone
         end;
       he_outcome := option_map outcome validate;
       he_test_passed := option_map test_passed validate;
       he_findings_count :=
         match scan with Some r => total_findings r | None => 0 end;
       he_failure_type := None |} in
  append_history history_entry ;;
  s <- get ;;
  let file := history_file_path (env s) in
  try_except
    (s <- get ;;
     call (write_history_file file (execution_history s)) ;;
     call log_info)
    is_Exception
    (fun e => call log_error) ;;
  s <- get ;;
  ret {| stored := true;
         history_length := length (execution_history s);
         history_file := file |}.

Definition chaossec : Stages ChaosSecTypes :=
  Build_Stages ChaosSecTypes _step_simulate _step_scan _step_reason
    _step_inject_chaos _step_monitor _step_validate _step_report _step_learn.

End Methods.

Arguments step_simulate {Env T}.
Arguments step_scan {Env T}.
Arguments step_reason {Env T}.
Arguments step_inject_chaos {Env T}.
Arguments step_monitor {Env T}.
Arguments step_validate {Env T}.
Arguments step_report {Env T}.
Arguments step_learn {Env T}.

End Orchestrator.

(* ================================================================== *)
(** ** A scripted environment for concrete runs *)
(* ================================================================== *)

Module Sample.

Definition dq : string := String (ascii_of_nat 34) EmptyString.

(** The text [{"applied": true}]. *)
Definition applied_true_text : string :=
  "{" ++ dq ++ "applied" ++ dq ++ ": true}".

(** The text [{"chaos_type": "stop_ec2"}]. *)
Definition stop_ec2_text : string :=
  "{" ++ dq ++ "chaos_type" ++ dq ++ ": " ++ dq ++ "stop_ec2" ++ dq ++ "}".

(** The text [{"chaos_type": 7}]. *)
Definition chaos_seven_text : string :=
  "{" ++ dq ++ "chaos_type" ++ dq ++ ": 7}".

Definition expecting_value : string :=
  "Expecting value: line 1 column 1 (char 0)".

(** [json.loads] on the handful of texts the examples use; every other
    text is treated like the last one. *)
Definition sample_json_loads (text : string) : res pyval :=
  if String.eqb text "{}" then Ok (VDict [])
  else if String.eqb text "[]" then Ok (VList [])
  else if String.eqb text applied_true_text then
    Ok (VDict [("applied", VBool true)])
  else if String.eqb text stop_ec2_text then
    Ok (VDict [("chaos_type", VStr "stop_ec2")])
  else if String.eqb text chaos_seven_text then
    Ok (VDict [("chaos_type", VInt 7)])
  else (* e.g. "not json at all" *)
    Raise (mk_exn JSONDecodeError expecting_value).

(** What the scripted collaborators answer. *)
Record Script : Type := {
  bedrock_reply : res string;
  s3_reply : res unit;
  write_reply : res unit;
  compliance_reply : list ComplianceRecord
}.

(** The environment is the clock: every reading advances it. *)
Definition scripted (sc : Script) : Externals nat :=
  {| logger_emit := fun _ e => e;
     utcnow_isoformat := fun e => ("T" ++ str_of_Z (Z.of_nat e), S e);
     time_time := fun e => (Z.of_nat e, e);
     time_sleep := fun _ e => e;
     render_reasoning_prompt := fun _ => "prompt";
     call_bedrock := fun _ e => (bedrock_reply sc, e);
     json_loads := sample_json_loads;
     s3_delete_public_access_block := fun _ e => (s3_reply sc, e);
     s3_put_bucket_acl := fun _ _ e => (s3_reply sc, e);
     s3_put_public_access_block := fun _ e => (s3_reply sc, e);
     get_cloudwatch_metrics := fun _ e => (Ok [], e);
     get_config_compliance := fun _ e => (Ok (compliance_reply sc), e);
     get_cloudtrail_events := fun _ e => (Ok [], e);
     si_workspace_id := VNone;
     si_post_twins := fun e => (Ok (VDict [("twin_id", VStr "twin-1")]), e);
     scan_self :=
       fun _ e => (Ok {| scan_findings := []; scan_report := [] |}, e);
     scan_iac_directory :=
       fun _ e => (Ok {| scan_findings := []; scan_report := [] |}, e);
     iac_path_exists := fun _ _ => false;
     create_evidence_package :=
       fun _ _ _ e => (Ok {| package_id := "pkg-1"; package_body := [] |}, e);
     upload_evidence_package := fun _ e => (Ok [], e);
     history_file_path := fun _ => "chaossec_history.json";
     write_history_file := fun _ _ e => (write_reply sc, e) |}.

(** The decision maker is unreachable, so the default recommendation is
    used, and the S3 client answers every call with [e]. *)
Definition s3_raises (e : exn) : Script :=
  {| bedrock_reply := Raise (mk_exn RuntimeError "Failed to call Bedrock");
     s3_reply := Raise e;
     write_reply := Ok tt;
     compliance_reply := [] |}.

Definition access_denied : exn :=
  mk_exn ClientError "An error occurred (AccessDenied)".

(** botocore's [EndpointConnectionError] derives from [BotoCoreError], not
    from [ClientError]. *)
Definition no_endpoint : exn :=
  mk_exn (OtherError "EndpointConnectionError")
    "Could not connect to the endpoint URL".

Definition quiet (reply : string) : Script :=
  {| bedrock_reply := Ok reply;
     s3_reply := Ok tt;
     write_reply := Ok tt;
     compliance_reply := [] |}.

Definition initial (safety : bool) : Orchestrator.State nat :=
  Orchestrator.mk_State safety "corr-1" VNone [] 0.

(** [{"outcome": o, "failure_type": t}] *)
Definition entry (o : string) (t : option string) : HistoryEntry :=
  {| he_iteration_id := None; he_timestamp := None; he_target := VNone;
     he_chaos_type := VNone; he_outcome := Some o; he_test_passed := None;
     he_findings_count := 0; he_failure_type := t |}.

(** A sequencer that completes while the clock is below 2 and raises
    afterwards. *)
Definition one_good_iteration : Orchestrator.IterationResult
                                  Orchestrator.ChaosSecTypes :=
  Orchestrator.mk_IterationResult "iter-1" "T1" [] (Some "success") None
    (Some "T1").

Definition flaky_sequencer (project_root : option string)
    : M (Orchestrator.State nat)
        (Orchestrator.IterationResult Orchestrator.ChaosSecTypes) :=
  fun s =>
    if Orchestrator.env s <? 2 then
      (Ok one_good_iteration,
       Orchestrator.mk_State (Orchestrator.config_safety_mode s)
         (Orchestrator.correlation_id s) (Orchestrator.current_twin_id s)
         (Orchestrator.execution_history s) (S (Orchestrator.env s)))
    else (Raise (mk_exn RuntimeError "sequencer failed"), s).

(** Scenario B of the specification. *)
Definition history_b : list HistoryEntry :=
  [entry "success" None; entry "failure" (Some "timeout");
   entry "success" None].

(** Failures of type b, a, a, b, c, then a success: b and a tie. *)
Definition history_tie : list HistoryEntry :=
  [entry "failure" (Some "b"); entry "failure" (Some "a");
   entry "failure" (Some "a"); entry "failure" (Some "b");
   entry "failure" (Some "c"); entry "success" None].

Definition analysis_tie : Analysis :=
  {| total_tests := 6;
     successful_tests := Some 1;
     failed_tests := Some 5;
     success_rate := 1 # 6;
     common_failures :=
       [{| fc_type := "b"; fc_count := 2 |};
        {| fc_type := "a"; fc_count := 2 |};
        {| fc_type := "c"; fc_count := 1 |}];
     recommendations := None;
     most_recent := Some (entry "success" None) |}.

End Sample.

(* ================================================================== *)
(** ** Vocabulary of the properties *)
(* ================================================================== *)

Module Spec.

(** Position of the first element that satisfies [p]. *)
Fixpoint find_index {A} (p : A -> bool) (l : list A) : option nat :=
  match l with
  | [] => None
  | x :: l' => if p x then Some 0 else option_map S (find_index p l')
  end.

(** [r] is a failure entry of type [t]. *)
Definition is_failure_of (t : string) (r : HistoryEntry) : bool :=
  AgentBrain.outcome_is "failure" r &&
  String.eqb (AgentBrain.failure_type_of r) t.

(** Position in the history of the first failure entry of type [t]. *)
Definition first_failure_index (t : string) (h : list HistoryEntry)
    : option nat :=
  find_index (is_failure_of t) h.

(** Number of entries whose outcome is exactly [o]. *)
Definition count_outcome (o : string) (h : list HistoryEntry) : nat :=
  length (filter (AgentBrain.outcome_is o) h).

(** [x] occurs in [l] and [y] occurs after it. *)
Inductive Before {A} (x y : A) : list A -> Prop :=
| Before_here l : In y l -> Before x y (x :: l)
| Before_later a l : Before x y l -> Before x y (a :: l).

(** Descending by count. *)
Definition count_ge (x y : FailureCount) : Prop := fc_count y <= fc_count x.

Definition by_count_desc (x y : string * nat) : Prop := snd y <= snd x.

(** What the loop over the history leaves in [failure_types]. *)
Record tally_ok (h : list HistoryEntry) (d : dict nat) : Prop := {
  tally_absent :
    forall k, dict_get d k = None <-> first_failure_index k h = None;
  tally_count :
    forall k c, dict_get d k = Some c ->
                c = length (filter (is_failure_of k) h);
  tally_order :
    forall k1 k2, Before k1 k2 (dict_keys d) ->
      exists m n, first_failure_index k1 h = Some m /\
                  first_failure_index k2 h = Some n /\ m < n
}.

End Spec.
Import Spec.

(** ** Traces of the sequencer and of the run loop *)

Module Trace.
Import Orchestrator.

Section Trace.
Context {Env : Type} `{Externals Env}.
Variable T : StageTypes.

Fixpoint steps_chaos (steps : list (StageResult T)) : option (T_chaos T) :=
  match steps with
  | [] => None
  | R_chaos r :: _ => Some r
  | _ :: steps' => steps_chaos steps'
  end.

Fixpoint steps_monitor (steps : list (StageResult T))
    : option (T_monitor T) :=
  match steps with
  | [] => None
  | R_monitor r :: _ => Some r
  | _ :: steps' => steps_monitor steps'
  end.

Definition with_steps (ir : IterationResult T) (prev : list (StageResult T))
    : IterationResult T :=
  mk_IterationResult (iteration_id ir) (started_at ir) prev (status ir)
    (error ir) (completed_at ir).

Definition with_env (s : State Env) (e : Env) : State Env :=
  mk_State (config_safety_mode s) (correlation_id s) (current_twin_id s)
    (execution_history s) e.

(** The state after an INFO line was logged. *)
Definition logged (s : State Env) : State Env :=
  with_env s (logger_emit "INFO" (env s)).

Section Stages.
Variable self : Stages (Env := Env) T.
Variable project_root : option string.

(** The dictionary the sequencer starts from and the state after it read
    the clock for it. *)
Definition begin_iteration (s : State Env)
    : IterationResult T * State Env :=
  let (now, e1) := time_time (env s) in
  let (started, e2) := utcnow_isoformat e1 in
  ({| iteration_id := "iter-" ++ str_of_Z now;
      started_at := started;
      steps := [];
      status := None;
      error := None;
      completed_at := None |},
   with_env s e2).

(** The stage that runs when the stages in [prev] have completed, with
    the arguments the sequencer gives it; [None] when all eight have. *)
Definition stage_call (ir0 : IterationResult T)
    (prev : list (StageResult T)) : option (M (State Env) (StageResult T)) :=
  match length prev with
  | 0 => Some (call log_info ;; r <- step_simulate self ;; ret (R_simulate r))
  | 1 => Some (call log_info ;;
               r <- step_scan self project_root ;; ret (R_scan r))
  | 2 =>
      match steps_scan prev with
      | Some scan_result =>
          Some (call log_info ;;
                r <- step_reason self scan_result ;; ret (R_reason r))
      | None => None
      end
  | 3 =>
      match steps_reason prev with
      | Some reasoning_result =>
          Some (call log_info ;;
                r <- step_inject_chaos self reasoning_result ;;
                ret (R_chaos r))
      | None => None
      end
  | 4 =>
      match steps_chaos prev with
      | Some chaos_result =>
          Some (call log_info ;;
                r <- step_monitor self chaos_result ;; ret (R_monitor r))
      | None => None
      end
  | 5 =>
      match steps_monitor prev, steps_reason prev with
      | Some monitoring_result, Some reasoning_result =>
          Some (call log_info ;;
                r <- step_validate self monitoring_result reasoning_result ;;
                ret (R_validate r))
      | _, _ => None
      end
  | 6 =>
      match steps_chaos prev, steps_scan prev, steps_monitor prev,
            steps_validate prev with
      | Some chaos_result, Some scan_result, Some monitoring_result,
        Some validation_result =>
          Some (call log_info ;;
                r <- step_report self chaos_result scan_result
                       monitoring_result validation_result ;;
                ret (R_report r))
      | _, _, _, _ => None
      end
  | 7 =>
      Some (call log_info ;;
            r <- step_learn self (with_steps ir0 prev) ;; ret (R_learn r))
  | _ => None
  end.

(** Run the stages one after the other from the state [s], [prev] being
    the results so far: the results of the stages that completed, the
    exception of the stage that raised if one did, and the state reached. *)
Fixpoint run_from (ir0 : IterationResult T) (fuel : nat)
    (prev : list (StageResult T)) (s : State Env)
    : list (StageResult T) * option exn * State Env :=
  match fuel with
  | 0 => (prev, None, s)
  | S fuel' =>
      match stage_call ir0 prev with
      | None => (prev, None, s)
      | Some stage =>
          match stage s with
          | (Ok r, s') => run_from ir0 fuel' (prev ++ [r]) s'
          | (Raise e, s') => (prev, Some e, s')
          end
      end
  end.

Definition run_stages (ir0 : IterationResult T) (s : State Env)
    : list (StageResult T) * option exn * State Env :=
  run_from ir0 8 [] s.

(** The dictionary returned once the stages have run. *)
Definition finish (ir0 : IterationResult T) (prev : list (StageResult T))
    (raised : option exn) (s : State Env)
    : IterationResult T * State Env :=
  match raised with
  | None =>
      let (finished, e1) := utcnow_isoformat (env s) in
      (mk_IterationResult (iteration_id ir0) (started_at ir0) prev
         (Some "success") None (Some finished),
       with_env s e1)
  | Some e =>
      let (finished, e1) := utcnow_isoformat (logger_emit "ERROR" (env s)) in
      (mk_IterationResult (iteration_id ir0) (started_at ir0) prev
         (Some "error") (Some (exn_str e)) (Some finished),
       with_env s e1)
  end.

End Stages.

Section Loop.
Variable run_single_iteration :
  option string -> M (State Env) (IterationResult T).
Variable max_iterations : Z.
Variable project_root : option string.

(** The iterations of the run loop, for the indices in [indices]: the
    results of those that completed, the exception that escaped the
    sequencer if one did, and the state reached. *)
Fixpoint run_iterations (indices : list Z) (acc : list (IterationResult T))
    (s : State Env) : list (IterationResult T) * option exn * State Env :=
  match indices with
  | [] => (acc, None, s)
  | iteration :: indices' =>
      match run_single_iteration project_root (logged s) with
      | (Ok r, s1) =>
          run_iterations indices' (acc ++ [r])
            (if (iteration <? max_iterations - 1)%Z then
               with_env s1 (time_sleep 5 (env (logged s1)))
             else s1)
      | (Raise e, s1) => (acc, Some e, s1)
      end
  end.

(** The state in which the loop starts: after the first log line and the
    reading of the clock. *)
Definition begin_loop (s : State Env) : State Env :=
  with_env s (snd (utcnow_isoformat (logger_emit "INFO" (env s)))).

End Loop.

(** A computation that leaves the configuration as it found it. *)
Definition keeps_config {A} (m : M (State Env) A) : Prop :=
  forall s r s', m s = (r, s') -> config_safety_mode s' = config_safety_mode s.

End Trace.

(** The stages of a test double: simulate and scan return, reason raises
    [e].  The tests of the repository replace the stage methods the same
    way. *)
Definition UnitTypes : StageTypes :=
  {| T_simulate := unit; T_scan := unit; T_reason := unit; T_chaos := unit;
     T_monitor := unit; T_validate := unit; T_report := unit;
     T_learn := unit |}.

Definition reason_raises {Env} (e : exn) : Stages (Env := Env) UnitTypes :=
  Build_Stages UnitTypes (ret tt) (fun _ => ret tt) (fun _ => raise e)
    (fun _ => ret tt) (fun _ => ret tt) (fun _ _ => ret tt)
    (fun _ _ _ _ => ret tt) (fun _ => ret tt).

(** A validation result without its timestamp. *)
Definition forget_timestamp (v : ValidationResult) : ValidationResult :=
  {| outcome := outcome v;
     test_passed := test_passed v;
     expected_outcome := expected_outcome v;
     validation_criteria := validation_criteria v;
     non_compliant_detected := non_compliant_detected v;
     compliance_count := compliance_count v;
     validated_at := EmptyString |}.

(** The two S3 calls that make a bucket public. *)
Definition make_public_calls {Env} `{Externals Env} (bucket_name : pyval)
    : M Env unit :=
  s3_delete_public_access_block bucket_name ;;
  s3_put_bucket_acl bucket_name "public-read".

(** A dictionary in which every absent field of [fields] is set to
    ["Not specified"]. *)
Fixpoint fill_missing (fields : list string) (d : dict pyval) : dict pyval :=
  match fields with
  | [] => d
  | field :: fields' =>
      fill_missing fields'
        (if dict_has d field then d
         else dict_set d field (VStr "Not specified"))
  end.

(** The text has no line break. *)
Fixpoint one_line (s : string) : bool :=
  match s with
  | EmptyString => true
  | String c s' => negb (Ascii.eqb c newline) && one_line s'
  end.

Definition with_iterations {T} (r : RunSummary T)
    (done : list (IterationResult T)) : RunSummary T :=
  mk_RunSummary (loop_started_at r) (loop_correlation_id r) done
    (loop_safety_mode r) (loop_completed_at r) (loop_status r)
    (total_iterations r) (summary r) (loop_error r).

(** What a stage result must satisfy in safety mode; the reason stage
    returns what the decision maker sent. *)
Definition safe_result (r : StageResult ChaosSecTypes) : Prop :=
  match r with
  | R_simulate d => dict_get d "applied" = None
  | R_chaos d => dict_get d "applied" = Some (VBool false)
  | R_validate v => test_passed v = true /\ outcome v = "success_simulated"
  | _ => True
  end.

(** The result carries a non-empty error message. *)
Definition has_error_message {T} (ir : IterationResult T) : Prop :=
  exists text, error ir = Some text /\ text <> EmptyString.

(** The steps of a run in which simulate and scan completed. *)
Definition two_steps : list (StageResult UnitTypes) :=
  [@R_simulate UnitTypes tt; @R_scan UnitTypes tt].

(** Does the stage result carry [applied = True]?  The records have no
    such key. *)
Definition applied_true (d : dict pyval) : bool :=
  match dict_get d "applied" with
  | Some (VBool true) => true
  | _ => false
  end.

Definition reports_applied (r : StageResult ChaosSecTypes) : bool :=
  match r with
  | R_simulate d => applied_true d
  | R_reason d => applied_true d
  | R_chaos d => applied_true d
  | _ => false
  end.

End Trace.

(** ** The orchestrator's state seen from outside *)

Module Observe.
Import Orchestrator.

(** The dictionary [get_summary] returns. *)
Record Summary : Type := {
  summary_correlation_id : string;
  summary_safety_mode : bool;
  summary_current_twin_id : pyval;
  execution_count : nat;
  recent_history : list HistoryEntry
}.

Section Observe.
Context {Env : Type} `{Externals Env}.

Definition get_summary : M (State Env) Summary :=
  s <- get ;;
  ret {| summary_correlation_id := correlation_id s;
         summary_safety_mode := config_safety_mode s;
         summary_current_twin_id := current_twin_id s;
         execution_count := length (execution_history s);
         recent_history :=
           match execution_history s with
           | [] => []
           | _ :: _ => last_n 5 (execution_history s)
           end |}.

(** A computation that leaves the in-memory history as it found it. *)
Definition keeps_history {A} (m : M (State Env) A) : Prop :=
  forall s r s', m s = (r, s') -> execution_history s' = execution_history s.

(** [self_scan.get('findings', [])], or nothing when there was no scan. *)
Definition findings_of (scan : option SemgrepScan) : list pyval :=
  match scan with Some r => scan_findings r | None => [] end.

(** What one iteration with the stages of ChaosSec has done to the
    history [h0] it started from when the stages in [prev] have completed:
    nothing before the learn stage, one entry after it. *)
Definition history_after (h0 : list HistoryEntry)
    (ir0 : IterationResult ChaosSecTypes)
    (prev : list (StageResult ChaosSecTypes)) (s : State Env) : Prop :=
  (length prev < 8 -> execution_history s = h0) /\
  (length prev = 8 ->
   exists entry,
     execution_history s = (h0 ++ [entry])%list /\
     he_iteration_id entry = Some (iteration_id ir0) /\
     he_outcome entry = option_map outcome (steps_validate prev) /\
     he_failure_type entry = None).

(** The number of iterations that ended with [status = "success"]. *)
Definition count_success {T} (done : list (IterationResult T)) : nat :=
  length (filter (fun ir => match status ir with
                            | Some st => String.eqb st "success"
                            | None => false
                            end) done).

(** The tally of failure types when [c] failures were counted and all
    of them under "unknown". *)
Definition tally_unknown (c : nat) : dict nat :=
  match c with
  | 0 => []
  | S _ => [("unknown", c)]
  end.

(** The two S3 calls of [simulate_s3_bucket_misconfiguration], in either
    direction. *)
Definition s3_calls (bucket_name : pyval) (make_public : bool) : M Env unit :=
  if make_public then
    s3_delete_public_access_block bucket_name ;;
    s3_put_bucket_acl bucket_name "public-read"
  else
    s3_put_public_access_block bucket_name ;;
    s3_put_bucket_acl bucket_name "private".

Section Shape.
Variable T : StageTypes.
Variable self : Stages (Env := Env) T.
Variable project_root : option string.

(** The call the sequencer makes as its [n]-th stage, counting from 0:
    the log line, the stage method, the result under its key. *)
Inductive stage_shape (ir0 : IterationResult T)
    (prev : list (StageResult T))
    : nat -> M (State Env) (StageResult T) -> Prop :=
| shape_simulate :
    stage_shape ir0 prev 0
      (call log_info ;; r <- step_simulate self ;; ret (R_simulate r))
| shape_scan :
    stage_shape ir0 prev 1
      (call log_info ;; r <- step_scan self project_root ;; ret (R_scan r))
| shape_reason scan_result :
    stage_shape ir0 prev 2
      (call log_info ;; r <- step_reason self scan_result ;;
       ret (R_reason r))
| shape_chaos reasoning_result :
    steps_reason prev = Some reasoning_result ->
    stage_shape ir0 prev 3
      (call log_info ;; r <- step_inject_chaos self reasoning_result ;;
       ret (R_chaos r))
| shape_monitor chaos_result :
    Trace.steps_chaos T prev = Some chaos_result ->
    stage_shape ir0 prev 4
      (call log_info ;; r <- step_monitor self chaos_result ;;
       ret (R_monitor r))
| shape_validate monitoring_result reasoning_result :
    stage_shape ir0 prev 5
      (call log_info ;;
       r <- step_validate self monitoring_result reasoning_result ;;
       ret (R_validate r))
| shape_report chaos_result scan_result monitoring_result validation_result :
    stage_shape ir0 prev 6
      (call log_info ;;
       r <- step_report self chaos_result scan_result monitoring_result
              validation_result ;;
       ret (R_report r))
| shape_learn :
    stage_shape ir0 prev 7
      (call log_info ;;
       r <- step_learn self (Trace.with_steps T ir0 prev) ;;
       ret (R_learn r)).

End Shape.

End Observe.

(** An environment that counts the calls of [time.sleep] and nothing
    else. *)
Definition counting_sleeps : Externals nat :=
  {| logger_emit := fun _ e => e;
     utcnow_isoformat := fun e => ("T0", e);
     time_time := fun e => (0%Z, e);
     time_sleep := fun _ e => S e;
     render_reasoning_prompt := fun _ => "prompt";
     call_bedrock := fun _ e => (Ok "{}", e);
     json_loads := Sample.sample_json_loads;
     s3_delete_public_access_block := fun _ e => (Ok tt, e);
     s3_put_bucket_acl := fun _ _ e => (Ok tt, e);
     s3_put_public_access_block := fun _ e => (Ok tt, e);
     get_cloudwatch_metrics := fun _ e => (Ok [], e);
     get_config_compliance := fun _ e => (Ok [], e);
     get_cloudtrail_events := fun _ e => (Ok [], e);
     si_workspace_id := VNone;
     si_post_twins := fun e => (Ok (VDict []), e);
     scan_self :=
       fun _ e => (Ok {| scan_findings := []; scan_report := [] |}, e);
     scan_iac_directory :=
       fun _ e => (Ok {| scan_findings := []; scan_report := [] |}, e);
     iac_path_exists := fun _ _ => false;
     create_evidence_package :=
       fun _ _ _ e => (Ok {| package_id := "pkg-1"; package_body := [] |}, e);
     upload_evidence_package := fun _ e => (Ok [], e);
     history_file_path := fun _ => "chaossec_history.json";
     write_history_file := fun _ _ e => (Ok tt, e) |}.

End Observe.

(** ** The risk score *)

Module Risk.

(** The dictionary [evaluate_risk_score] returns. *)
Record RiskAssessment : Type := {
  risk_score : nat;
  risk_level : string;
  risk_factors : list string;
  recommendation : string
}.

Definition recommendations : dict string :=
  [("HIGH",
    "Immediate action required. Address critical findings before continuing chaos tests.");
   ("MEDIUM",
    "Schedule remediation for identified issues. Continue monitored chaos testing.");
   ("LOW", "Minor issues detected. Continue normal chaos testing cycles.");
   ("MINIMAL",
    "Infrastructure appears healthy. Proceed with advanced chaos scenarios.")].

Definition _get_risk_recommendation (risk_level : string) : string :=
  dict_get_default recommendations risk_level
    "Review findings and continue testing.".

(** [f.get('severity') == 'ERROR'] *)
Definition is_critical (f : dict pyval) : bool :=
  eq_str (SystemInitiative.option_val (dict_get f "severity")) "ERROR".

(** [c.get('compliance_type') != 'COMPLIANT'] *)
Definition is_non_compliant (c : ComplianceRecord) : bool :=
  negb (eq_str (compliance_type c) "COMPLIANT").

(** One of the three [if count > 0:] blocks: the score grows by
    [count * weight] and a line is added to the factors. *)
Definition add_factor (count weight : nat) (label : string)
    (acc : nat * list string) : nat * list string :=
  let (risk_score, risk_factors) := acc in
  if 0 <? count then
    (risk_score + count * weight,
     (risk_factors ++ [(str_of_Z (Z.of_nat count) ++ label)%string])%list)
  else (risk_score, risk_factors).

(** The findings and the failures are dictionaries, as annotated; a
    compliance record that lacks [compliance_type] has [None] there. *)
Definition evaluate_risk_score (semgrep_findings : list (dict pyval))
    (config_compliance : list ComplianceRecord)
    (previous_failures : list HistoryEntry) : RiskAssessment :=
  let acc := (0, []) in
  let critical_findings := AgentBrain.sum_ones is_critical semgrep_findings in
  let acc := add_factor critical_findings 10 " critical security findings" acc in
  let non_compliant :=
    AgentBrain.sum_ones is_non_compliant config_compliance in
  let acc := add_factor non_compliant 5 " non-compliant resources" acc in
  let recent_failures :=
    length (filter (AgentBrain.outcome_is "failure") previous_failures) in
  let acc := add_factor recent_failures 3 " recent test failures" acc in
  let (risk_score, risk_factors) := acc in
  let risk_score := Nat.min risk_score 100 in
  let risk_level :=
    if 70 <=? risk_score then "HIGH"
    else if 40 <=? risk_score then "MEDIUM"
    else if 20 <=? risk_score then "LOW"
    else "MINIMAL" in
  {| risk_score := risk_score;
     risk_level := risk_level;
     risk_factors := risk_factors;
     recommendation := _get_risk_recommendation risk_level |}.

(** The levels, from the lowest. *)
Definition level_rank (risk_level : string) : nat :=
  if String.eqb risk_level "HIGH" then 3
  else if String.eqb risk_level "MEDIUM" then 2
  else if String.eqb risk_level "LOW" then 1
  else 0.

End Risk.

(** ** The report summary *)

Module Report.
Import Orchestrator.

Section Report.
Context {Env : Type} `{Externals Env}.

(** [json.dumps(results, indent=2)], which raises on a value it cannot
    serialise; [self._call_bedrock(prompt, max_tokens)]; and [str] of a
    float, a list or a dictionary. *)
Variable json_dumps : dict pyval -> res string.
Variable call_bedrock_tokens : Z -> string -> M Env string.
Variable py_repr : pyval -> string.

(** What an f-string makes of a value. *)
Definition py_str (v : pyval) : string :=
  match v with
  | VNone => "None"
  | VBool true => "True"
  | VBool false => "False"
  | VInt z => str_of_Z z
  | VStr s => s
  | other => py_repr other
  end.

Definition summary_prompt (dumped : string) : string :=
  "Summarize these chaos engineering test results in a clear, executive-friendly format:"
  ++ nl ++ nl ++
  "## Test Results" ++ nl ++
  dumped ++ nl ++ nl ++
  "Create a brief summary (3-4 sentences) that includes:" ++ nl ++
  "1. What was tested" ++ nl ++
  "2. The outcome" ++ nl ++
  "3. Key findings" ++ nl ++
  "4. Next steps or recommendations" ++ nl ++ nl ++
  "Write in professional but accessible language. Focus on impact and actionability.".

Definition fallback_summary (results : dict pyval) : string :=
  "Chaos Test Summary:" ++ nl ++
  "            " ++ nl ++
  "Tested: " ++ py_str (dict_get_default results "test_type" (VStr "Unknown"))
  ++ " on " ++
  py_str (dict_get_default results "target_resource" (VStr "Unknown")) ++ nl ++
  "Outcome: " ++ py_str (dict_get_default results "outcome" (VStr "Unknown"))
  ++ nl ++
  "Findings: " ++ py_str (dict_get_default results "finding_count" (VInt 0))
  ++ " security findings detected" ++ nl ++
  "Status: " ++
  (if eq_str (SystemInitiative.option_val (dict_get results "outcome"))
        "success"
   then "Passed" else "Needs attention") ++ nl ++ nl ++
  "The system has completed automated chaos testing. Review detailed logs for full analysis.".

Definition generate_report_summary (results : dict pyval) (for_humans : bool)
    : M Env string :=
  log_info ;;
  if negb for_humans then lift_res (json_dumps results)
  else
    dumped <- lift_res (json_dumps results) ;;
    let prompt := summary_prompt dumped in
    try_except
      (summary <- call_bedrock_tokens 500 prompt ;;
       log_audit ;;
       ret (strip summary))
      is_Exception
      (fun e => log_error ;; ret (fallback_summary results)).

(** The dictionary [loop_results] of the run loop, in the order in which
    its keys are set; [encode_iteration] is the dictionary of one
    iteration. *)
Variable T : StageTypes.
Variable encode_iteration : IterationResult T -> pyval.

Definition optional (key : string) (value : option pyval) : dict pyval :=
  match value with Some v => [(key, v)] | None => [] end.

Definition loop_results (r : RunSummary T) : dict pyval :=
  ([("started_at", VStr (loop_started_at r));
    ("correlation_id", VStr (loop_correlation_id r));
    ("iterations", VList (map encode_iteration (iterations r)));
    ("safety_mode", VBool (loop_safety_mode r))]
   ++ optional "completed_at" (option_map VStr (loop_completed_at r))
   ++ optional "status" (option_map VStr (loop_status r))
   ++ optional "total_iterations"
        (option_map (fun n => VInt (Z.of_nat n)) (total_iterations r))
   ++ optional "summary" (option_map VStr (summary r))
   ++ optional "error" (option_map VStr (loop_error r)))%list.

(** [self.agent_brain.generate_report_summary(loop_results)] *)
Definition summarize_run (r : RunSummary T) : M Env string :=
  generate_report_summary (loop_results r) true.

End Report.
End Report.

(** ** The scanner *)

Module Semgrep.

Definition upper_ascii (c : ascii) : ascii :=
  let n := nat_of_ascii c in
  if (97 <=? n) && (n <=? 122) then ascii_of_nat (n - 32) else c.

(** [s.upper()] *)
Fixpoint upper (s : string) : string :=
  match s with
  | EmptyString => EmptyString
  | String c s' => String (upper_ascii c) (upper s')
  end.

(** [v.upper()] *)
Definition py_upper (v : pyval) : res string :=
  match v with
  | VStr s => Ok (upper s)
  | _ => Raise (mk_exn AttributeError
                  ("'" ++ AgentBrain.type_name v ++
                   "' object has no attribute 'upper'"))
  end.

(** What [for x in v] goes through. *)
Definition py_iter (v : pyval) : res (list pyval) :=
  match v with
  | VList l => Ok l
  | VDict d => Ok (map VStr (dict_keys d))
  | VStr s =>
      Ok (map (fun c => VStr (String c EmptyString)) (list_ascii_of_string s))
  | _ => Raise (mk_exn TypeError
                  ("'" ++ AgentBrain.type_name v ++
                   "' object is not iterable"))
  end.

Definition and_then {A B} (r : res A) (k : A -> res B) : res B :=
  match r with Ok a => k a | Raise e => Raise e end.

(** [result.get(outer, {}).get(inner, default)] *)
Definition get_in (result : dict pyval) (outer inner : string)
    (default : pyval) : res pyval :=
  and_then (AgentBrain.as_dict (dict_get_default result outer (VDict [])))
    (fun d => Ok (dict_get_default d inner default)).

(** A finding, as [parse_semgrep_json] builds it. *)
Record Finding : Type := {
  rule_id : pyval;
  severity : string;
  message : pyval;
  file : pyval;
  line : pyval;
  code : pyval;
  fix_ : pyval;
  metadata : pyval
}.

Definition finding_dict (f : Finding) : dict pyval :=
  [("rule_id", rule_id f); ("severity", VStr (severity f));
   ("message", message f); ("file", file f); ("line", line f);
   ("code", code f); ("fix", fix_ f); ("metadata", metadata f)].

(** The dictionaries the scans return; an absent key is [None]. *)
Record ScanReport : Type := {
  sr_status : string;
  sr_error : option string;
  sr_findings : list Finding;
  sr_finding_count : option nat;
  sr_severity_breakdown : option (dict nat);
  sr_errors : option pyval;
  sr_scanned_path : option string
}.

Definition failed_report (status text : string) : ScanReport :=
  {| sr_status := status; sr_error := Some text; sr_findings := [];
     sr_finding_count := None; sr_severity_breakdown := None;
     sr_errors := None; sr_scanned_path := None |}.

Definition empty_breakdown : dict nat :=
  [("ERROR", 0); ("WARNING", 0); ("INFO", 0)].

(** [breakdown[severity] = breakdown.get(severity, 0) + count] *)
Definition add_count (breakdown : dict nat) (severity : string) (count : nat)
    : dict nat :=
  dict_set breakdown severity (dict_get_default breakdown severity 0 + count).

(** Body of the loop of [parse_semgrep_json] over the results. *)
Definition parse_result (result : pyval) (acc : list Finding * dict nat)
    : res (list Finding * dict nat) :=
  let (findings, severity_breakdown) := acc in
  and_then (AgentBrain.as_dict result) (fun result =>
  and_then (get_in result "extra" "severity" (VStr "INFO")) (fun value =>
  and_then (py_upper value) (fun severity =>
  let severity_breakdown := add_count severity_breakdown severity 1 in
  and_then (get_in result "extra" "message" (VStr EmptyString)) (fun message =>
  and_then (get_in result "start" "line" VNone) (fun line =>
  and_then (get_in result "extra" "lines" (VStr EmptyString)) (fun code =>
  and_then (get_in result "extra" "fix" VNone) (fun fix_value =>
  and_then (get_in result "extra" "metadata" (VDict [])) (fun metadata =>
  let finding :=
    {| rule_id := SystemInitiative.option_val (dict_get result "check_id");
       severity := severity;
       message := message;
       file := SystemInitiative.option_val (dict_get result "path");
       line := line;
       code := code;
       fix_ := fix_value;
       metadata := metadata |} in
  Ok ((findings ++ [finding])%list, severity_breakdown))))))))).

Fixpoint parse_results (results : list pyval) (acc : list Finding * dict nat)
    : res (list Finding * dict nat) :=
  match results with
  | [] => Ok acc
  | result :: results' =>
      and_then (parse_result result acc) (parse_results results')
  end.

Definition is_TimeoutExpired (e : exn) : bool :=
  match exn_cls e with
  | OtherError name => String.eqb name "TimeoutExpired"
  | _ => false
  end.

(** [d['severity_breakdown']] *)
Definition breakdown_of (r : ScanReport) : res (dict nat) :=
  match sr_severity_breakdown r with
  | Some b => Ok b
  | None => Raise (mk_exn (OtherError "KeyError") "'severity_breakdown'")
  end.

(** What [subprocess.run] returns. *)
Record CompletedProcess : Type := {
  returncode : Z;
  stdout : string;
  stderr : string
}.

Section Semgrep.
Context {Env : Type} `{Externals Env}.

(** [subprocess.run(cmd, capture_output=True, text=True, timeout=300)],
    and [str(Path(a) / b)]. *)
Variable subprocess_run : list string -> M Env CompletedProcess.
Variable path_join : string -> string -> string.

Definition parse_semgrep_json (json_output : string) : M Env ScanReport :=
  try_except
    (data <- lift_res (json_loads json_output) ;;
     data <- lift_res (AgentBrain.as_dict data) ;;
     results <-
       lift_res (py_iter (dict_get_default data "results" (VList []))) ;;
     acc <- lift_res (parse_results results ([], empty_breakdown)) ;;
     let (findings, severity_breakdown) := acc in
     ret {| sr_status := "success";
            sr_error := None;
            sr_findings := findings;
            sr_finding_count := Some (length findings);
            sr_severity_breakdown := Some severity_breakdown;
            sr_errors := Some (dict_get_default data "errors" (VList []));
            sr_scanned_path := None |})
    is_JSONDecodeError
    (fun e => log_error ;; ret (failed_report "parse_error" (exn_str e))).

(** The command line: [config] wins over [rules]; an empty string or an
    empty list counts as absent. *)
Definition command (repo_path : string) (rules : option (list string))
    (config : option string) : list string :=
  let cmd := ["semgrep"; "scan"; "--json"; "--quiet"] in
  let with_rules :=
    match rules with
    | Some (rule :: rules') =>
        (cmd ++ flat_map (fun rule => ["--config"; rule]) (rule :: rules'))%list
    | _ => (cmd ++ ["--config"; "p/security-audit"])%list
    end in
  let cmd :=
    match config with
    | Some EmptyString => with_rules
    | Some config => (cmd ++ ["--config"; config])%list
    | None => with_rules
    end in
  (cmd ++ [repo_path])%list.

Definition scan_repository (repo_path : string) (rules : option (list string))
    (config : option string) : M Env ScanReport :=
  log_info ;;
  let cmd := command repo_path rules config in
  try_except
    (result <- subprocess_run cmd ;;
     if negb (returncode result =? 0)%Z && negb (returncode result =? 1)%Z
     then
       log_error ;;
       ret (failed_report "error" (stderr result))
     else
       scan_results <- parse_semgrep_json (stdout result) ;;
       (* the audit record reads scan_results['severity_breakdown'] *)
       lift_res (breakdown_of scan_results) ;;
       log_audit ;;
       ret scan_results)
    is_Exception
    (fun e =>
       if is_TimeoutExpired e then
         log_error ;;
         ret (failed_report "timeout" "Scan timed out after 300 seconds")
       else
         log_error ;;
         ret (failed_report "error" (exn_str e))).

(** [for severity, count in result['severity_breakdown'].items()] *)
Definition merge_breakdown (into from_ : dict nat) : dict nat :=
  fold_left (fun acc item => add_count acc (fst item) (snd item)) from_ into.

(** Body of the loop of [scan_iac_directory] over the rule sets. *)
Definition scan_config (iac_path : string) (config : string)
    : M (Env * (list Finding * dict nat)) unit :=
  result <- lift (scan_repository iac_path None (Some config)) ;;
  if String.eqb (sr_status result) "success" then
    modify_local
      (fun acc => ((fst acc ++ sr_findings result)%list, snd acc)) ;;
    breakdown <- lift_res (breakdown_of result) ;;
    modify_local (fun acc => (fst acc, merge_breakdown (snd acc) breakdown))
  else ret tt.

Definition scan_iac_directory (iac_path : string)
    (include_terraform include_cloudformation include_kubernetes : bool)
    : M Env ScanReport :=
  log_info ;;
  let configs :=
    ((if include_terraform then ["p/terraform"] else []) ++
     (if include_cloudformation then ["p/cloudformation"] else []) ++
     (if include_kubernetes then ["p/kubernetes"] else []))%list in
  with_local (([], empty_breakdown) : list Finding * dict nat)
    (for_each configs (scan_config iac_path) ;;
     acc <- get_local ;;
     let all_findings := fst acc in
     let severity_breakdown := snd acc in
     ret {| sr_status := "success";
            sr_error := None;
            sr_findings := all_findings;
            sr_finding_count := Some (length all_findings);
            sr_severity_breakdown := Some severity_breakdown;
            sr_errors := None;
            sr_scanned_path := Some iac_path |}).

(** The dictionary [scan_self] returns. *)
Record SelfScan : Type := {
  self_status : string;
  self_findings : list Finding;
  self_finding_count : nat;
  self_severity_breakdown : dict nat;
  python_findings : nat;
  iac_findings : nat
}.

Definition scan_self (project_root : string) : M Env SelfScan :=
  log_info ;;
  python_scan <- scan_repository project_root None (Some "p/python") ;;
  let iac_path := path_join project_root "infrastructure" in
  e <- get ;;
  iac_scan <-
    (if iac_path_exists iac_path e then
       r <- scan_iac_directory iac_path true true true ;;
       ret (sr_findings r)
     else ret []) ;;
  let all_findings := (sr_findings python_scan ++ iac_scan)%list in
  let severity_breakdown :=
    fold_left (fun acc finding => add_count acc (severity finding) 1)
      all_findings empty_breakdown in
  log_audit ;;
  ret {| self_status := "success";
         self_findings := all_findings;
         self_finding_count := length all_findings;
         self_severity_breakdown := severity_breakdown;
         python_findings := length (sr_findings python_scan);
         iac_findings := length iac_scan |}.

End Semgrep.

(** [severity_order.get(s, 1)] *)
Definition severity_level (s : string) : nat :=
  dict_get_default [("ERROR", 3); ("WARNING", 2); ("INFO", 1)] s 1.

(** The condition of the comprehension of [filter_findings_by_severity]:
    it raises on a severity that is not a string. *)
Definition at_least (min_level : nat) (f : dict pyval) : res bool :=
  and_then (py_upper (dict_get_default f "severity" (VStr "INFO")))
    (fun s => Ok (min_level <=? severity_level s)).

Fixpoint keep_if {A} (p : A -> res bool) (xs : list A) : res (list A) :=
  match xs with
  | [] => Ok []
  | x :: xs' =>
      and_then (p x) (fun keep =>
      and_then (keep_if p xs') (fun rest =>
      Ok (if keep then x :: rest else rest)))
  end.

Definition filter_findings_by_severity (findings : list (dict pyval))
    (min_severity : string) : res (list (dict pyval)) :=
  let min_level := severity_level (upper min_severity) in
  keep_if (at_least min_level) findings.

Definition get_high_risk_findings (scan_results : ScanReport)
    : res (list (dict pyval)) :=
  filter_findings_by_severity (map finding_dict (sr_findings scan_results))
    "ERROR".

(** The sum of the counts of a breakdown. *)
Definition total (breakdown : dict nat) : nat := list_sum (map snd breakdown).

(** The number of findings of one severity. *)
Definition count_severity (s : string) (findings : list Finding) : nat :=
  length (filter (fun f => String.eqb (severity f) s) findings).

(** The breakdown counts the findings: each severity once, with the
    number of findings that have it, the three standard ones always. *)
Definition tallies (breakdown : dict nat) (findings : list Finding) : Prop :=
  NoDup (dict_keys breakdown) /\
  (forall s, dict_get_default breakdown s 0 = count_severity s findings) /\
  total breakdown = length findings /\
  (forall s, In s ["ERROR"; "WARNING"; "INFO"] ->
     In s (dict_keys breakdown)).

(** A report is either a success, with its findings counted, or a
    failure, with an error text and no findings. *)
Definition consistent (r : ScanReport) : Prop :=
  (sr_status r = "success" /\
   sr_finding_count r = Some (length (sr_findings r)) /\
   exists breakdown,
     sr_severity_breakdown r = Some breakdown /\
     tallies breakdown (sr_findings r)) \/
  (sr_status r <> "success" /\
   sr_findings r = [] /\
   sr_severity_breakdown r = None /\
   sr_error r <> None).

End Semgrep.

(** ** The configuration *)

Module Config.

Record AWSConfig : Type := {
  region : string;
  account_id : string;
  bedrock_api_key : string
}.

(** The key may come out of the secret store, where it is whatever the
    secret holds. *)
Record SystemInitiativeConfig : Type := {
  api_url : string;
  api_key : pyval;
  workspace_id : option string
}.

Record VantaConfig : Type := {
  client_id : string;
  client_secret : string;
  vanta_api_url : string;
  oauth_token_url : string
}.

Record ChaosSecConfig : Type := {
  aws : AWSConfig;
  system_initiative : SystemInitiativeConfig;
  vanta : VantaConfig;
  safety_mode : bool;
  log_level : string
}.

Definition ValueError (text : string) : exn :=
  mk_exn (OtherError "ValueError") text.

(** [not s] for a string *)
Definition is_empty (s : string) : bool := String.eqb s EmptyString.

Section Config.
(** The process environment and the call to the secret store. *)
Variable environ : dict string.
Variable load_secret_from_secrets_manager : string -> string -> res pyval.

(** [os.getenv(name, default)] *)
Definition getenv (name default : string) : string :=
  dict_get_default environ name default.

Definition load_config : res ChaosSecConfig :=
  let aws_region := getenv "AWS_REGION" "us-east-1" in
  let aws_account_id := getenv "AWS_ACCOUNT_ID" EmptyString in
  if is_empty aws_account_id then
    Raise (ValueError "AWS_ACCOUNT_ID environment variable is required")
  else
    let bedrock_key := "bedrock-uses-aws-credentials" in
    let aws_config :=
      {| region := aws_region; account_id := aws_account_id;
         bedrock_api_key := bedrock_key |} in
    let si_api_url :=
      getenv "SYSTEM_INITIATIVE_API_URL" "https://api.systeminit.com" in
    let si_api_key := VStr (getenv "SYSTEM_INITIATIVE_API_KEY" EmptyString) in
    let si_workspace_id := dict_get environ "SYSTEM_INITIATIVE_WORKSPACE_ID" in
    let si_api_key :=
      if negb (truthy si_api_key) then
        match
          Semgrep.and_then
            (load_secret_from_secrets_manager "chaossec/system-initiative"
               aws_region)
            AgentBrain.as_dict
        with
        | Ok secrets => dict_get_default secrets "api_key" (VStr EmptyString)
        | Raise _ => si_api_key
        end
      else si_api_key in
    if negb (truthy si_api_key) then
      Raise (ValueError
               "System Initiative API key not found in environment or Secrets Manager")
    else
      let si_config :=
        {| api_url := si_api_url; api_key := si_api_key;
           workspace_id := si_workspace_id |} in
      let vanta_config :=
        {| client_id := getenv "VANTA_CLIENT_ID" "mock-client-id";
           client_secret := getenv "VANTA_CLIENT_SECRET" "mock-client-secret";
           vanta_api_url := getenv "VANTA_API_URL" "https://api.vanta.com";
           oauth_token_url :=
             getenv "VANTA_OAUTH_TOKEN_URL"
               "https://api.vanta.com/oauth/token" |} in
      let safety_mode :=
        String.eqb (lower (getenv "CHAOSSEC_SAFETY_MODE" "true")) "true" in
      let log_level := Semgrep.upper (getenv "CHAOSSEC_LOG_LEVEL" "INFO") in
      Ok {| aws := aws_config;
            system_initiative := si_config;
            vanta := vanta_config;
            safety_mode := safety_mode;
            log_level := log_level |}.

End Config.

Definition validate_config (config : ChaosSecConfig) : res bool :=
  if is_empty (region (aws config)) then
    Raise (ValueError "AWS region is required")
  else if is_empty (account_id (aws config)) then
    Raise (ValueError "AWS account ID is required")
  else if is_empty (bedrock_api_key (aws config)) then
    Raise (ValueError "Bedrock API key is required")
  else if negb (truthy (api_key (system_initiative config))) then
    Raise (ValueError "System Initiative API key is required")
  else Ok true.

End Config.

(** ** The evidence sink *)

Module Vanta.

Definition CONTROL_MAPPINGS : dict (dict (list string)) :=
  [("s3_public_access",
    [("soc2", ["CC6.6"; "CC7.2"]); ("iso27001", ["A.9.2"; "A.12.1.2"]);
     ("nist", ["SC-7"; "SI-4"])]);
   ("fis_chaos_test",
    [("soc2", ["CC7.2"; "CC9.1"]); ("iso27001", ["A.12.1"; "A.17.1"]);
     ("nist", ["CP-4"; "SI-4"])]);
   ("iac_scan",
    [("soc2", ["CC8.1"; "CC7.2"]); ("iso27001", ["A.12.1.2"; "A.14.2.8"]);
     ("nist", ["CM-2"; "RA-5"])]);
   ("infrastructure_monitoring",
    [("soc2", ["CC7.2"; "CC7.3"]); ("iso27001", ["A.12.4"; "A.16.1"]);
     ("nist", ["SI-4"; "AU-6"])])].

(** An item of an evidence package. *)
Record EvidenceItem : Type := {
  item_control_id : string;
  item_framework : string;
  item_test_type : string;
  item_result : string;
  item_details : dict pyval
}.

Record Package : Type := {
  pkg_package_id : string;
  pkg_timestamp : string;
  pkg_chaos_experiment_id : string;
  pkg_outcome : string;
  evidence_items : list EvidenceItem
}.

(** The dictionary [upload_evidence] hands to the store or to the API. *)
Record Evidence : Type := {
  ev_control_id : string;
  ev_framework : string;
  ev_test_result : string;
  ev_timestamp : string;
  ev_correlation_id : string;
  ev_details : dict pyval;
  ev_source : string
}.

(** The dictionaries [upload_evidence] returns; an absent key is
    [None]. *)
Record UploadResult : Type := {
  up_evidence_id : pyval;
  up_status : string;
  up_control_id : option string;
  up_framework : option string;
  up_mock_mode : option bool;
  up_stored_locally : option bool;
  up_file_path : option pyval;
  up_error : option string;
  up_local_backup : option pyval
}.

(** [v == 0] *)
Definition eq_zero (v : pyval) : bool :=
  match v with
  | VInt z => (z =? 0)%Z
  | VBool b => negb b
  | VFloat q => Qeq_bool q 0
  | _ => false
  end.

(** The dictionary of the scan stage, which the report stage passes as
    [semgrep_results]. *)
Definition scan_result_dict (r : ScanResults) : dict pyval :=
  let scan_value (scan : option SemgrepScan) :=
    match scan with Some s => VDict (scan_report s) | None => VNone end in
  [("self_scan", scan_value (self_scan r));
   ("iac_scan", scan_value (iac_scan r));
   ("combined_findings", VList (combined_findings r));
   ("total_findings", VInt (Z.of_nat (total_findings r)))].

Section Vanta.
Context {Env : Type} `{Externals Env}.

(** The client's settings; the clock, as text and as seconds; the write
    of one evidence file, which answers with the path; the POST of one
    evidence to the API. *)
Variable correlation_id : string.
Variable mock_mode : bool.
Variable utcnow_timestamp : Env -> (string * Z) * Env.
Variable write_evidence_file : Evidence -> M Env string.
Variable post_evidence : Evidence -> M Env pyval.

Definition map_chaos_to_control (chaos_type framework : string)
    : M Env (list string) :=
  let controls :=
    dict_get_default (dict_get_default CONTROL_MAPPINGS chaos_type [])
      framework [] in
  log_debug ;;
  ret controls.

Definition create_evidence_package (chaos_experiment_id : string)
    (semgrep_results : dict pyval) (aws_metrics : list pyval)
    (outcome : string) : M Env Package :=
  now <- utcnow ;;
  chaos_controls <- map_chaos_to_control "fis_chaos_test" "soc2" ;;
  let items :=
    map (fun control =>
           {| item_control_id := control;
              item_framework := "soc2";
              item_test_type := "chaos_engineering";
              item_result := outcome;
              item_details :=
                [("experiment_id", VStr chaos_experiment_id);
                 ("metrics", VList aws_metrics)] |})
        chaos_controls in
  items <-
    (match semgrep_results with
     | _ :: _ =>
         iac_controls <- map_chaos_to_control "iac_scan" "soc2" ;;
         ret (items ++
              map (fun control =>
                     {| item_control_id := control;
                        item_framework := "soc2";
                        item_test_type := "static_analysis";
                        item_result :=
                          if eq_zero (dict_get_default semgrep_results
                                        "finding_count" (VInt 0))
                          then "pass" else "findings_detected";
                        item_details :=
                          [("findings",
                            dict_get_default semgrep_results "finding_count"
                              (VInt 0));
                           ("severity_breakdown",
                            dict_get_default semgrep_results
                              "severity_breakdown" (VDict []))] |})
                  iac_controls)%list
     | [] => ret items
     end) ;;
  monitoring_controls <-
    map_chaos_to_control "infrastructure_monitoring" "soc2" ;;
  let items :=
    (items ++
     map (fun control =>
            {| item_control_id := control;
               item_framework := "soc2";
               item_test_type := "continuous_monitoring";
               item_result := "operational";
               item_details :=
                 [("metrics_collected",
                   VInt (Z.of_nat (length aws_metrics)));
                  ("monitoring_active", VBool true)] |})
         monitoring_controls)%list in
  log_info ;;
  ret {| pkg_package_id := "pkg-" ++ correlation_id;
         pkg_timestamp := now;
         pkg_chaos_experiment_id := chaos_experiment_id;
         pkg_outcome := outcome;
         evidence_items := items |}.

Definition _save_evidence_locally (evidence : Evidence)
    : M Env (dict pyval) :=
  try_except
    (file_path <- write_evidence_file evidence ;;
     log_debug ;;
     ret [("status", VStr "saved"); ("file_path", VStr file_path)])
    is_Exception
    (fun e =>
       log_error ;;
       ret [("status", VStr "error"); ("error", VStr (exn_str e))]).

Definition upload_evidence (control_id test_result : string)
    (details : dict pyval) (timestamp : option (string * Z))
    (framework : string) : M Env UploadResult :=
  timestamp <-
    (match timestamp with
     | Some given => ret given
     | None => fun e => let (now, e') := utcnow_timestamp e in (Ok now, e')
     end) ;;
  let evidence :=
    {| ev_control_id := control_id;
       ev_framework := framework;
       ev_test_result := test_result;
       ev_timestamp := fst timestamp;
       ev_correlation_id := correlation_id;
       ev_details := details;
       ev_source := "chaossec-agent" |} in
  log_info ;;
  if mock_mode then
    result <- _save_evidence_locally evidence ;;
    let file_path := SystemInitiative.option_val (dict_get result "file_path") in
    log_audit ;;
    ret {| up_evidence_id :=
             VStr ("mock-" ++ correlation_id ++ "-" ++
                   str_of_Z (snd timestamp));
           up_status := "uploaded_mock";
           up_control_id := Some control_id;
           up_framework := Some framework;
           up_mock_mode := Some true;
           up_stored_locally := Some true;
           up_file_path := Some file_path;
           up_error := None;
           up_local_backup := None |}
  else
    try_except
      (api_response <- post_evidence evidence ;;
       api_response <- lift_res (AgentBrain.as_dict api_response) ;;
       let evidence_id :=
         SystemInitiative.py_or
           (SystemInitiative.option_val (dict_get api_response "id"))
           (SystemInitiative.option_val
              (dict_get api_response "evidence_id")) in
       log_audit ;;
       ret {| up_evidence_id := evidence_id;
              up_status := "uploaded";
              up_control_id := Some control_id;
              up_framework := Some framework;
              up_mock_mode := Some false;
              up_stored_locally := None;
              up_file_path := None;
              up_error := None;
              up_local_backup := None |})
      is_Exception
      (fun e =>
         log_error ;;
         local_result <- _save_evidence_locally evidence ;;
         let local_backup :=
           SystemInitiative.option_val (dict_get local_result "file_path") in
         ret {| up_evidence_id := VNone;
                up_status := "error_saved_locally";
                up_control_id := None;
                up_framework := None;
                up_mock_mode := None;
                up_stored_locally := None;
                up_file_path := None;
                up_error := Some (exn_str e);
                up_local_backup := Some local_backup |}).

(** Body of the loop of [upload_evidence_package] over the items. *)
Definition upload_item (item : EvidenceItem)
    : M (Env * list UploadResult) unit :=
  result <-
    lift (upload_evidence (item_control_id item) (item_result item)
            (item_details item) None (item_framework item)) ;;
  modify_local (fun results => (results ++ [result])%list).

Definition upload_evidence_package (package : Package)
    : M Env (list UploadResult) :=
  with_local []
    (for_each (evidence_items package) upload_item ;;
     lift log_audit ;;
     get_local).

(** What the report stage asks for. *)
Definition report_package (scan_result : ScanResults)
    (aws_metrics : list pyval) (outcome : string) : M Env Package :=
  create_evidence_package correlation_id (scan_result_dict scan_result)
    aws_metrics outcome.

End Vanta.
End Vanta.

(** ** The scan stage with the scanner behind it *)

Module ScanStage.

(** The dictionaries of the scanner as values. *)
Definition findings_value (findings : list Semgrep.Finding) : list pyval :=
  map (fun f => VDict (Semgrep.finding_dict f)) findings.

Definition breakdown_value (breakdown : dict nat) : pyval :=
  VDict (map (fun item => (fst item, VInt (Z.of_nat (snd item)))) breakdown).

Definition self_scan_value (r : Semgrep.SelfScan) : SemgrepScan :=
  {| scan_findings := findings_value (Semgrep.self_findings r);
     scan_report :=
       [("status", VStr (Semgrep.self_status r));
        ("self_scan", VBool true);
        ("findings", VList (findings_value (Semgrep.self_findings r)));
        ("finding_count", VInt (Z.of_nat (Semgrep.self_finding_count r)));
        ("severity_breakdown",
         breakdown_value (Semgrep.self_severity_breakdown r));
        ("python_findings", VInt (Z.of_nat (Semgrep.python_findings r)));
        ("iac_findings", VInt (Z.of_nat (Semgrep.iac_findings r)))] |}.

Definition report_value (r : Semgrep.ScanReport) : SemgrepScan :=
  {| scan_findings := findings_value (Semgrep.sr_findings r);
     scan_report :=
       ([("status", VStr (Semgrep.sr_status r))] ++
        Report.optional "error" (option_map VStr (Semgrep.sr_error r)) ++
        [("findings", VList (findings_value (Semgrep.sr_findings r)))] ++
        Report.optional "finding_count"
          (option_map (fun n => VInt (Z.of_nat n))
             (Semgrep.sr_finding_count r)) ++
        Report.optional "severity_breakdown"
          (option_map breakdown_value (Semgrep.sr_severity_breakdown r)) ++
        Report.optional "errors" (Semgrep.sr_errors r) ++
        Report.optional "scanned_path"
          (option_map VStr (Semgrep.sr_scanned_path r)))%list |}.

(** [str(Path(a) / b)] for a path [a] without a trailing separator. *)
Definition path_join (a b : string) : string := a ++ "/" ++ b.

(** The collaborators [X], with the scanner of this repository, which
    runs the process [subprocess_run], in the place of its scanner. *)
Definition with_scanner {Env : Type} (X : Externals Env)
    (subprocess_run : list string -> M Env Semgrep.CompletedProcess)
    : Externals Env :=
  {| logger_emit := logger_emit (Externals := X);
     utcnow_isoformat := utcnow_isoformat (Externals := X);
     time_time := time_time (Externals := X);
     time_sleep := time_sleep (Externals := X);
     render_reasoning_prompt := render_reasoning_prompt (Externals := X);
     call_bedrock := call_bedrock (Externals := X);
     json_loads := json_loads (Externals := X);
     s3_delete_public_access_block :=
       s3_delete_public_access_block (Externals := X);
     s3_put_bucket_acl := s3_put_bucket_acl (Externals := X);
     s3_put_public_access_block :=
       s3_put_public_access_block (Externals := X);
     get_cloudwatch_metrics := get_cloudwatch_metrics (Externals := X);
     get_config_compliance := get_config_compliance (Externals := X);
     get_cloudtrail_events := get_cloudtrail_events (Externals := X);
     si_workspace_id := si_workspace_id (Externals := X);
     si_post_twins := si_post_twins (Externals := X);
     scan_self :=
       fun project_root =>
         r <- Semgrep.scan_self (H := X) subprocess_run path_join
                project_root ;;
         ret (self_scan_value r);
     scan_iac_directory :=
       fun iac_path =>
         r <- Semgrep.scan_iac_directory (H := X) subprocess_run iac_path
                true true true ;;
         ret (report_value r);
     iac_path_exists := iac_path_exists (Externals := X);
     create_evidence_package := create_evidence_package (Externals := X);
     upload_evidence_package := upload_evidence_package (Externals := X);
     history_file_path := history_file_path (Externals := X);
     write_history_file := write_history_file (Externals := X) |}.

(** An example: the directory is there, and the scanner reports one finding
    of the rule [rule-1] for every command line. *)
Definition one_result : pyval :=
  VDict [("results",
          VList [VDict [("check_id", VStr "rule-1");
                        ("path", VStr "app.py");
                        ("extra", VDict [("severity", VStr "error")])]])].

Definition example_collaborators : Externals nat :=
  let X := Sample.scripted (Sample.quiet "{}") in
  {| logger_emit := logger_emit (Externals := X);
     utcnow_isoformat := utcnow_isoformat (Externals := X);
     time_time := time_time (Externals := X);
     time_sleep := time_sleep (Externals := X);
     render_reasoning_prompt := render_reasoning_prompt (Externals := X);
     call_bedrock := call_bedrock (Externals := X);
     json_loads := fun _ => Ok one_result;
     s3_delete_public_access_block :=
       s3_delete_public_access_block (Externals := X);
     s3_put_bucket_acl := s3_put_bucket_acl (Externals := X);
     s3_put_public_access_block :=
       s3_put_public_access_block (Externals := X);
     get_cloudwatch_metrics := get_cloudwatch_metrics (Externals := X);
     get_config_compliance := get_config_compliance (Externals := X);
     get_cloudtrail_events := get_cloudtrail_events (Externals := X);
     si_workspace_id := si_workspace_id (Externals := X);
     si_post_twins := si_post_twins (Externals := X);
     scan_self := scan_self (Externals := X);
     scan_iac_directory := scan_iac_directory (Externals := X);
     iac_path_exists := fun _ _ => true;
     create_evidence_package := create_evidence_package (Externals := X);
     upload_evidence_package := upload_evidence_package (Externals := X);
     history_file_path := history_file_path (Externals := X);
     write_history_file := write_history_file (Externals := X) |}.

Definition example_process (cmd : list string)
    : M nat Semgrep.CompletedProcess :=
  ret {| Semgrep.returncode := 1; Semgrep.stdout := "semgrep output";
         Semgrep.stderr := EmptyString |}.

End ScanStage.

(* ================================================================== *)
(** * Properties *)
(* ================================================================== *)

(** ** Running the effect combinators *)

Lemma bind_ok {S A B} (m : M S A) (k : A -> M S B) s a s' :
  m s = (Ok a, s') -> bind m k s = k a s'.
Proof. intros E. unfold bind. now rewrite E. Qed.

Lemma bind_raise {S A B} (m : M S A) (k : A -> M S B) s e s' :
  m s = (Raise e, s') -> bind m k s = (Raise e, s').
Proof. intros E. unfold bind. now rewrite E. Qed.

Lemma try_except_total {S A} (body : M S A) (handler : exn -> M S A) s :
  (forall x s1, exists a s2, handler x s1 = (Ok a, s2)) ->
  exists a s', try_except body is_Exception handler s = (Ok a, s').
Proof.
  intros Hh. unfold try_except. destruct (body s) as [[a|x] s1]; eauto.
  apply Hh.
Qed.

Lemma for_each_app {S A} (xs ys : list A) (body : A -> M S unit) s :
  for_each (xs ++ ys) body s =
  bind (for_each xs body) (fun _ => for_each ys body) s.
Proof.
  revert s. induction xs as [|x xs IH]; intros s; simpl.
  - reflexivity.
  - unfold bind in *. destruct (body x s) as [[u|e] s1]; simpl.
    + apply IH.
    + reflexivity.
Qed.

(** ** Lists, dictionaries, order *)

Section ListFacts.
Context {A : Type}.

Lemma find_index_bound (p : A -> bool) l i :
  find_index p l = Some i -> i < length l.
Proof.
  revert i. induction l as [|x l IH]; simpl; intros i E; [discriminate|].
  destruct (p x).
  - injection E as <-. lia.
  - destruct (find_index p l) as [j|]; [|discriminate].
    injection E as <-. specialize (IH j eq_refl). lia.
Qed.

Lemma find_index_snoc (p : A -> bool) l x :
  find_index p (l ++ [x]) =
  match find_index p l with
  | Some i => Some i
  | None => if p x then Some (length l) else None
  end.
Proof.
  induction l as [|y l IH]; simpl.
  - now destruct (p x).
  - destruct (p y); [reflexivity|]. rewrite IH.
    destruct (find_index p l); simpl; [reflexivity|]. now destruct (p x).
Qed.

Lemma Before_In_l (x y : A) l : Before x y l -> In x l.
Proof. induction 1; simpl; auto. Qed.

Lemma Before_In_r (x y : A) l : Before x y l -> In y l.
Proof. induction 1; simpl; auto. Qed.

Lemma Before_snoc (x y t : A) l :
  Before x y (l ++ [t]) -> Before x y l \/ (In x l /\ y = t).
Proof.
  induction l as [|a l IH]; simpl; intros B.
  - inversion B as [l' Hin|a' l' B']; subst; [destruct Hin|inversion B'].
  - inversion B as [l' Hin|a' l' B']; subst.
    + apply in_app_or in Hin. destruct Hin as [Hin|[->|[]]].
      * left. now constructor.
      * right. auto.
    + destruct (IH B') as [B1|[Hin ->]].
      * left. now apply Before_later.
      * right. auto.
Qed.

Lemma Before_firstn (x y : A) n l : Before x y (firstn n l) -> Before x y l.
Proof.
  revert n. induction l as [|a l IH]; intros [|n]; simpl; intros B;
    try solve [inversion B].
  inversion B as [l' Hin|a' l' B']; subst.
  - apply Before_here.
    rewrite <- (firstn_skipn n l). apply in_or_app. now left.
  - apply Before_later. eauto.
Qed.

Lemma Before_nth (x y : A) l i j :
  i < j -> nth_error l i = Some x -> nth_error l j = Some y -> Before x y l.
Proof.
  revert i j. induction l as [|a l IH]; intros i j Hij Hi Hj.
  - destruct i; discriminate.
  - destruct j as [|j]; [lia|]. destruct i as [|i]; simpl in *.
    + injection Hi as ->. apply Before_here. eapply nth_error_In; eauto.
    + apply Before_later. apply (IH i j); auto. lia.
Qed.

Lemma Before_sorted (R : A -> A -> Prop) (x y : A) l :
  StronglySorted R l -> Before x y l -> R x y.
Proof.
  intros S B. induction B as [l Hin|a l B IH].
  - apply StronglySorted_inv in S. destruct S as [_ F].
    rewrite Forall_forall in F. auto.
  - apply StronglySorted_inv in S. tauto.
Qed.

Lemma StronglySorted_firstn (R : A -> A -> Prop) n l :
  StronglySorted R l -> StronglySorted R (firstn n l).
Proof.
  revert n. induction l as [|a l IH]; intros [|n] S; simpl; try constructor.
  - apply IH. now apply StronglySorted_inv in S.
  - apply StronglySorted_inv in S. destruct S as [_ F].
    rewrite Forall_forall in *. intros z Hz. apply F.
    rewrite <- (firstn_skipn n l). apply in_or_app. now left.
Qed.

End ListFacts.

Lemma Before_map {A B} (f : A -> B) (x y : B) l :
  Before x y (map f l) ->
  exists x' y', x = f x' /\ y = f y' /\ Before x' y' l.
Proof.
  induction l as [|a l IH]; simpl; intros H;
    inversion H as [l' Hin|a' l' H']; subst.
  - apply in_map_iff in Hin. destruct Hin as (y' & <- & Hy).
    exists a, y'. repeat split. now constructor.
  - destruct (IH H') as (x' & y' & -> & -> & Bf).
    exists x', y'. repeat split. now apply Before_later.
Qed.

Lemma Before_map_fwd {A B} (f : A -> B) (x y : A) l :
  Before x y l -> Before (f x) (f y) (map f l).
Proof.
  induction 1; simpl.
  - apply Before_here. now apply in_map.
  - now apply Before_later.
Qed.

Lemma StronglySorted_map {A B} (f : A -> B) (R : B -> B -> Prop) l :
  StronglySorted (fun a b => R (f a) (f b)) l -> StronglySorted R (map f l).
Proof.
  induction 1 as [|a l S IH F]; simpl; constructor; auto.
  rewrite Forall_forall in *. intros z Hz.
  apply in_map_iff in Hz. destruct Hz as (z' & <- & Hz'). auto.
Qed.

Section DictFacts.
Context {V : Type}.
Implicit Types (d : dict V) (k : string) (v : V).

Lemma dict_get_None_iff d k : dict_get d k = None <-> ~ In k (dict_keys d).
Proof.
  induction d as [|[k' v'] d IH]; simpl.
  - tauto.
  - destruct (String.eqb_spec k k') as [->|N].
    + split; [discriminate|]. intros F. exfalso. apply F. now left.
    + rewrite IH. split.
      * intros F [E|I]; [now apply N|now apply F].
      * intros F I. apply F. now right.
Qed.

Lemma dict_get_set_same d k v : dict_get (dict_set d k v) k = Some v.
Proof.
  induction d as [|[k' v'] d IH]; simpl.
  - now rewrite String.eqb_refl.
  - destruct (String.eqb_spec k k') as [->|N]; simpl.
    + now rewrite String.eqb_refl.
    + destruct (String.eqb_spec k k'); [contradiction|apply IH].
Qed.

Lemma dict_get_set_other d k k' v :
  k <> k' -> dict_get (dict_set d k v) k' = dict_get d k'.
Proof.
  intros N. induction d as [|[k0 v0] d IH]; simpl.
  - destruct (String.eqb_spec k' k); [congruence|reflexivity].
  - destruct (String.eqb_spec k k0) as [->|N0]; simpl.
    + destruct (String.eqb_spec k' k0); [congruence|reflexivity].
    + now rewrite IH.
Qed.

Lemma dict_keys_set d k v :
  dict_keys (dict_set d k v) =
  if dict_has d k then dict_keys d else (dict_keys d ++ [k])%list.
Proof.
  unfold dict_has. induction d as [|[k' v'] d IH]; simpl.
  - reflexivity.
  - destruct (String.eqb_spec k k') as [->|N]; simpl.
    + reflexivity.
    + rewrite IH. now destruct (dict_get d k).
Qed.

End DictFacts.

(** ** [analyze_history] *)

Section SortFacts.
Import AgentBrain.

Lemma insert_desc_In x z l : In z (insert_desc x l) <-> z = x \/ In z l.
Proof.
  induction l as [|y l IH]; simpl.
  - intuition.
  - destruct (snd x <? snd y); simpl; [rewrite IH|]; intuition.
Qed.

Lemma sorted_by_count_desc_In z l : In z (sorted_by_count_desc l) <-> In z l.
Proof.
  induction l as [|x l IH]; simpl; [tauto|].
  rewrite insert_desc_In, IH. intuition.
Qed.

Lemma insert_desc_perm x l : Permutation (insert_desc x l) (x :: l).
Proof.
  induction l as [|y l IH]; simpl; [reflexivity|].
  destruct (snd x <? snd y); [|reflexivity].
  rewrite IH. apply perm_swap.
Qed.

(** The sort rearranges its input... *)
Lemma sorted_by_count_desc_perm l : Permutation (sorted_by_count_desc l) l.
Proof.
  induction l as [|x l IH]; simpl; [constructor|].
  rewrite insert_desc_perm. now constructor.
Qed.

Lemma insert_desc_sorted x l :
  StronglySorted by_count_desc l ->
  StronglySorted by_count_desc (insert_desc x l).
Proof.
  induction 1 as [|y l S IH F]; simpl.
  - repeat constructor.
  - destruct (Nat.ltb_spec (snd x) (snd y)) as [L|G].
    + constructor; [exact IH|].
      rewrite Forall_forall in *. intros z Hz.
      apply insert_desc_In in Hz. destruct Hz as [->|Hz].
      * unfold by_count_desc. lia.
      * auto.
    + constructor; [now constructor|].
      constructor; [exact G|].
      rewrite Forall_forall in *. intros z Hz.
      specialize (F z Hz). unfold by_count_desc in *. lia.
Qed.

(** ...into descending order of count... *)
Lemma sorted_by_count_desc_sorted l :
  StronglySorted by_count_desc (sorted_by_count_desc l).
Proof.
  induction l as [|x l IH]; simpl; [constructor|].
  now apply insert_desc_sorted.
Qed.

Lemma Before_insert_desc x y z l :
  Before x y (insert_desc z l) -> Before x y (z :: l) \/ snd y < snd x.
Proof.
  induction l as [|a l IH]; simpl; intros B.
  - inversion B as [l' Hin|a' l' B']; subst; [destruct Hin|inversion B'].
  - destruct (Nat.ltb_spec (snd z) (snd a)) as [L|G]; [|now left].
    inversion B as [l' Hin|a' l' B']; subst.
    + apply insert_desc_In in Hin. destruct Hin as [->|Hin].
      * now right.
      * left. apply Before_later. now apply Before_here.
    + destruct (IH B') as [B1|Lt]; [|now right].
      left. inversion B1 as [l' Hin|a' l' B2]; subst.
      * apply Before_here. now right.
      * apply Before_later. now apply Before_later.
Qed.

(** ...and is stable: two items change their order only when the later
    one has the strictly larger count. *)
Lemma sorted_by_count_desc_stable x y l :
  Before x y (sorted_by_count_desc l) -> Before x y l \/ snd y < snd x.
Proof.
  induction l as [|z l IH]; simpl; intros B; [inversion B|].
  apply Before_insert_desc in B. destruct B as [B|Lt]; [|now right].
  inversion B as [l' Hin|a' l' B']; subst.
  - left. apply Before_here. now apply sorted_by_count_desc_In.
  - destruct (IH B') as [B1|Lt]; [|now right].
    left. now apply Before_later.
Qed.

End SortFacts.

Section TallyFacts.
Import AgentBrain.

Lemma sum_ones_length {A} (p : A -> bool) xs :
  sum_ones p xs = length (filter p xs).
Proof.
  unfold sum_ones. induction (filter p xs) as [|x l IH]; simpl; congruence.
Qed.

Lemma find_index_None_filter {A} (p : A -> bool) l :
  find_index p l = None -> filter p l = [].
Proof.
  induction l as [|x l IH]; simpl; [reflexivity|].
  destruct (p x); [discriminate|].
  destruct (find_index p l); [discriminate|auto].
Qed.

Lemma is_failure_of_other k r :
  outcome_is "failure" r = false -> is_failure_of k r = false.
Proof. unfold is_failure_of. now intros ->. Qed.

Lemma is_failure_of_failure k r :
  outcome_is "failure" r = true ->
  is_failure_of k r = String.eqb (failure_type_of r) k.
Proof. unfold is_failure_of. now intros ->. Qed.

Lemma tally_ok_nil : tally_ok [] [].
Proof.
  split; simpl.
  - tauto.
  - discriminate.
  - intros k1 k2 B. inversion B.
Qed.

Lemma tally_ok_step h d r :
  tally_ok h d -> tally_ok (h ++ [r]) (count_failure d r).
Proof.
  intros [Abs Cnt Ord]. unfold count_failure, first_failure_index in *.
  destruct (outcome_is "failure" r) eqn:F.
  - set (t := failure_type_of r).
    set (v := dict_get_default d t 0 + 1).
    assert (Fk : forall k, is_failure_of k r = String.eqb t k)
      by (intros; now apply is_failure_of_failure).
    split; unfold first_failure_index.
    + intros k. rewrite find_index_snoc, Fk.
      destruct (String.eqb_spec t k) as [<-|N].
      * rewrite dict_get_set_same.
        destruct (find_index (is_failure_of t) h); split; discriminate.
      * rewrite dict_get_set_other by exact N. rewrite Abs.
        now destruct (find_index (is_failure_of k) h).
    + intros k c. rewrite filter_app, length_app. simpl. rewrite Fk.
      destruct (String.eqb_spec t k) as [<-|N]; simpl.
      * rewrite dict_get_set_same. intros [= <-]. subst v.
        unfold dict_get_default. destruct (dict_get d t) as [c|] eqn:G.
        -- now rewrite (Cnt t c G).
        -- apply Abs in G. now rewrite (find_index_None_filter _ _ G).
      * rewrite dict_get_set_other by exact N. intros G.
        rewrite (Cnt k c G). lia.
    + intros k1 k2. rewrite dict_keys_set. unfold dict_has.
      destruct (dict_get d t) as [c|] eqn:G.
      * intros B. destruct (Ord k1 k2 B) as (m & n & E1 & E2 & L).
        exists m, n. rewrite !find_index_snoc, E1, E2. auto.
      * intros B. apply Before_snoc in B. destruct B as [B|[I ->]].
        -- destruct (Ord k1 k2 B) as (m & n & E1 & E2 & L).
           exists m, n. rewrite !find_index_snoc, E1, E2. auto.
        -- destruct (find_index (is_failure_of k1) h) as [m|] eqn:E1.
           ++ exists m, (length h). rewrite !find_index_snoc, E1.
              apply Abs in G. rewrite G, Fk, String.eqb_refl.
              repeat split. eapply find_index_bound; eauto.
           ++ apply Abs in E1. apply dict_get_None_iff in E1. contradiction.
  - assert (Fk : forall k, is_failure_of k r = false)
      by (intros; now apply is_failure_of_other).
    split; unfold first_failure_index.
    + intros k. rewrite find_index_snoc, Fk, Abs.
      now destruct (find_index (is_failure_of k) h).
    + intros k c G. rewrite filter_app, length_app. simpl. rewrite Fk.
      simpl. rewrite (Cnt k c G). lia.
    + intros k1 k2 B. destruct (Ord k1 k2 B) as (m & n & E1 & E2 & L).
      exists m, n. rewrite !find_index_snoc, E1, E2. auto.
Qed.

Lemma tally_ok_fold h : tally_ok h (fold_left count_failure h []).
Proof.
  induction h as [|r h IH] using rev_ind.
  - apply tally_ok_nil.
  - rewrite fold_left_app. simpl. now apply tally_ok_step.
Qed.

Lemma NoDup_keys_In {V} (d : dict V) k v :
  In (k, v) d -> exists v', dict_get d k = Some v'.
Proof.
  induction d as [|[k' v'] d IH]; simpl; [tauto|].
  intros [E|I]; destruct (String.eqb_spec k k'); eauto.
  injection E as -> ->. contradiction.
Qed.

End TallyFacts.

Lemma dict_set_NoDup {V} (d : dict V) k v :
  NoDup (dict_keys d) -> NoDup (dict_keys (dict_set d k v)).
Proof.
  intros N. rewrite dict_keys_set. unfold dict_has.
  destruct (dict_get d k) eqn:G; [exact N|].
  apply dict_get_None_iff in G.
  apply NoDup_app; [exact N|repeat constructor; simpl; tauto|].
  intros x Hx [<-|[]]. contradiction.
Qed.

Lemma NoDup_keys_get {V} (d : dict V) k v :
  NoDup (dict_keys d) -> In (k, v) d -> dict_get d k = Some v.
Proof.
  induction d as [|[k' v'] d IH]; simpl; [tauto|].
  intros N [E|I].
  - injection E as -> ->. now rewrite String.eqb_refl.
  - inversion N as [|? ? Nin N']; subst.
    destruct (String.eqb_spec k k') as [->|_]; [|auto].
    exfalso. apply Nin. change k' with (fst (k', v)). now apply in_map.
Qed.

Lemma tally_NoDup h d :
  NoDup (dict_keys d) ->
  NoDup (dict_keys (fold_left AgentBrain.count_failure h d)).
Proof.
  revert d. induction h as [|r h IH]; simpl; intros d N; [exact N|].
  apply IH. unfold AgentBrain.count_failure.
  destruct (AgentBrain.outcome_is "failure" r); [|exact N].
  now apply dict_set_NoDup.
Qed.

Section AnalyzeHistory.
Context {Env : Type} `{Externals Env}.
Import AgentBrain.

Lemma analyze_history_nonempty (r : HistoryEntry) (h : list HistoryEntry)
    (e : Env) :
  exists a,
    analyze_history (r :: h) e =
      (Ok a, logger_emit "DEBUG" (logger_emit "INFO" e)) /\
    total_tests a = length (r :: h) /\
    successful_tests a = Some (count_outcome "success" (r :: h)) /\
    failed_tests a = Some (count_outcome "failure" (r :: h)) /\
    success_rate a =
      (Z.of_nat (count_outcome "success" (r :: h))
         # Pos.of_nat (length (r :: h))) /\
    common_failures a =
      map (fun f => {| fc_type := fst f; fc_count := snd f |})
        (firstn 3 (sorted_by_count_desc
                     (fold_left count_failure (r :: h) []))) /\
    recommendations a = None /\
    most_recent a = nth_error (r :: h) (length (r :: h) - 1).
Proof.
  eexists. split.
  { cbv [analyze_history bind log_info log_debug log modify ret].
    reflexivity. }
  cbn [total_tests successful_tests failed_tests success_rate
       common_failures recommendations most_recent].
  unfold count_outcome. rewrite <- !sum_ones_length.
  repeat split.
Qed.

End AnalyzeHistory.

Section AnalyzeHistoryOrder.
Context {Env : Type} `{Externals Env}.
Import AgentBrain.

Lemma common_failures_of (h : list HistoryEntry) (e : Env) (a : Analysis) :
  fst (analyze_history h e) = Ok a ->
  common_failures a =
    map (fun f => {| fc_type := fst f; fc_count := snd f |})
      (firstn 3 (sorted_by_count_desc (fold_left count_failure h []))).
Proof.
  destruct h as [|r h].
  - cbv [analyze_history bind log_info log modify ret fst].
    now intros [= <-].
  - destruct (analyze_history_nonempty r h e)
      as (a' & E & _ & _ & _ & _ & C & _).
    rewrite E. simpl. now intros [= <-].
Qed.



End AnalyzeHistoryOrder.

(** Scenario B: two successes and one timeout failure. *)
Example analyze_history_scenario_b :
  exists a,
    fst (AgentBrain.analyze_history (H := Sample.scripted (Sample.quiet "{}"))
           Sample.history_b 0) = Ok a /\
    total_tests a = 3 /\ successful_tests a = Some 2 /\
    failed_tests a = Some 1 /\ success_rate a = (2 # 3)%Q /\
    common_failures a = [{| fc_type := "timeout"; fc_count := 1 |}].
Proof. eexists. split; [vm_compute; reflexivity|]. repeat split. Qed.


(** ** The sequencer *)

Import Orchestrator Trace.

Section SequencerFacts.
Context {Env : Type} `{Externals Env}.
Variable T : StageTypes.
Variable self : Stages (Env := Env) T.
Variable project_root : option string.

Lemma seq_step {R A} (m : M (State Env) R) (mk : R -> StageResult T)
    (rest : R -> M (State Env * IterationResult T) A) s ir :
  (info T ;; r <- lift m ;; attach T (mk r) ;; rest r) (s, ir) =
  match m (logged s) with
  | (Ok r, s') => rest r (s', attach_step (mk r) ir)
  | (Raise e, s') => (Raise e, (s', ir))
  end.
Proof.
  cbv [info bind lift call log_info log modify attach modify_local fst snd
       logged with_env].
  destruct s; simpl. now destruct (m _) as [[r|e] s'].
Qed.

Lemma seq_learn {R A} (m : IterationResult T -> M (State Env) R)
    (mk : R -> StageResult T)
    (rest : R -> M (State Env * IterationResult T) A) s ir :
  (info T ;; iteration_result <- get_local ;;
   r <- lift (m iteration_result) ;; attach T (mk r) ;; rest r) (s, ir) =
  match m ir (logged s) with
  | (Ok r, s') => rest r (s', attach_step (mk r) ir)
  | (Raise e, s') => (Raise e, (s', ir))
  end.
Proof.
  cbv [info bind lift call log_info log modify attach modify_local fst snd
       logged with_env get_local].
  destruct s; simpl. now destruct (m _ _) as [[r|e] s'].
Qed.

Lemma stage_run {R} (m : M (State Env) R) (mk : R -> StageResult T) s :
  (call log_info ;; r <- m ;; ret (mk r)) s =
  match m (logged s) with
  | (Ok r, s') => (Ok (mk r), s')
  | (Raise e, s') => (Raise e, s')
  end.
Proof.
  cbv [bind call log_info log modify ret logged with_env].
  destruct s; simpl. now destruct (m _) as [[r|e] s'].
Qed.

Lemma run_from_S ir0 fuel prev s :
  run_from T self project_root ir0 (S fuel) prev s =
  match stage_call T self project_root ir0 prev with
  | None => (prev, None, s)
  | Some stage =>
      match stage s with
      | (Ok r, s') => run_from T self project_root ir0 fuel (prev ++ [r]) s'
      | (Raise e, s') => (prev, Some e, s')
      end
  end.
Proof. reflexivity. Qed.

Lemma call_time (s : State Env) :
  call (fun e => let (t, e') := time_time e in (Ok t, e')) s =
  (Ok (fst (time_time (env s))), with_env s (snd (time_time (env s)))).
Proof. cbv [call with_env]. now destruct (time_time (env s)). Qed.

Lemma call_utcnow (s : State Env) :
  call utcnow s =
  (Ok (fst (utcnow_isoformat (env s))),
   with_env s (snd (utcnow_isoformat (env s)))).
Proof.
  cbv [call utcnow with_env]. now destruct (utcnow_isoformat (env s)).
Qed.

Ltac norm :=
  cbv [logged with_env attach_step with_steps iteration_id started_at steps
       status error completed_at set_step stage_key String.eqb Ascii.eqb
       Bool.eqb app];
  cbn [env fst snd config_safety_mode correlation_id current_twin_id
       execution_history].

Ltac split_stage :=
  match goal with
  | |- context [step_simulate ?s ?w] =>
      destruct (step_simulate s w) as [[?r|?e] ?s]
  | |- context [step_scan ?s ?a ?w] =>
      destruct (step_scan s a w) as [[?r|?e] ?s]
  | |- context [step_reason ?s ?a ?w] =>
      destruct (step_reason s a w) as [[?r|?e] ?s]
  | |- context [step_inject_chaos ?s ?a ?w] =>
      destruct (step_inject_chaos s a w) as [[?r|?e] ?s]
  | |- context [step_monitor ?s ?a ?w] =>
      destruct (step_monitor s a w) as [[?r|?e] ?s]
  | |- context [step_validate ?s ?a ?b ?w] =>
      destruct (step_validate s a b w) as [[?r|?e] ?s]
  | |- context [step_report ?s ?a ?b ?c ?d ?w] =>
      destruct (step_report s a b c d w) as [[?r|?e] ?s]
  | |- context [step_learn ?s ?a ?w] =>
      destruct (step_learn s a w) as [[?r|?e] ?s]
  end.

Ltac finish_tac :=
  cbv [is_Exception finish bind lift call log_error log modify modify_local
       utcnow get_local set_status set_error set_completed_at fst snd
       with_env ret];
  norm;
  match goal with
  | |- context [utcnow_isoformat ?e] => destruct (utcnow_isoformat e)
  end;
  reflexivity.

Ltac stage :=
  rewrite seq_step, run_from_S;
  cbn [stage_call length app steps_scan steps_reason steps_chaos
       steps_monitor steps_validate];
  rewrite stage_run; norm; split_stage; norm.

(** The sequencer runs the stages in order until one raises, then builds
    its result from what completed. *)
Lemma run_single_iteration_trace (s : State Env) :
  _run_single_iteration T self project_root s =
    let (ir0, s0) := begin_iteration T s in
    let '(prev, raised, s1) := run_stages T self project_root ir0 s0 in
    let (ir, s2) := finish T ir0 prev raised s1 in
    (Ok ir, s2).
Proof.
  unfold _run_single_iteration.
  erewrite bind_ok by (apply call_time).
  erewrite bind_ok by (apply call_utcnow).
  unfold with_local, try_except, begin_iteration, run_stages.
  destruct (time_time (env s)) as [now e1].
  cbn [env fst snd with_env config_safety_mode correlation_id
       current_twin_id execution_history].
  destruct (utcnow_isoformat e1) as [started e2].
  cbn [env fst snd with_env config_safety_mode correlation_id
       current_twin_id execution_history].
  do 7 (stage; [|finish_tac]).
  rewrite seq_learn, run_from_S.
  cbn [stage_call length app].
  rewrite stage_run. norm. split_stage; [|finish_tac].
  cbn [run_from]. finish_tac.
Qed.

End SequencerFacts.

Lemma firstn_succ_nth {A} (l : list A) (n : nat) (d : A) :
  n < length l -> firstn (S n) l = (firstn n l ++ [nth n l d])%list.
Proof.
  revert n. induction l as [|x l IH]; intros n L; simpl in L; [lia|].
  destruct n as [|n]; [reflexivity|].
  change (firstn (S (S n)) (x :: l)) with (x :: firstn (S n) l).
  rewrite IH by lia. reflexivity.
Qed.

Section SequencerErrors.
Context {Env : Type} `{Externals Env}.
Variable T : StageTypes.
Variable self : Stages (Env := Env) T.
Variable project_root : option string.

Lemma stage_call_length ir0 prev stage :
  stage_call T self project_root ir0 prev = Some stage -> length prev < 8.
Proof.
  unfold stage_call.
  destruct (length prev) as [|[|[|[|[|[|[|[|n]]]]]]]]; try lia.
  discriminate.
Qed.

Lemma stage_call_key ir0 prev stage s r s' :
  stage_call T self project_root ir0 prev = Some stage ->
  stage s = (Ok r, s') ->
  stage_key r = nth (length prev) stage_names EmptyString.
Proof.
  unfold stage_call.
  destruct (length prev) as [|[|[|[|[|[|[|[|n]]]]]]]];
    repeat match goal with
           | |- context [match ?o with Some _ => _ | None => _ end] =>
               destruct o
           end;
    try discriminate;
    intros [= <-]; rewrite stage_run;
    match goal with
    | |- context [match ?m (logged ?w) with _ => _ end] =>
        destruct (m (logged w)) as [[r0|e0] s0]
    end;
    intros [= <- <-] || discriminate; reflexivity.
Qed.

Lemma run_from_keys ir0 fuel prev s prev' raised s' :
  steps_keys prev = firstn (length prev) stage_names ->
  run_from T self project_root ir0 fuel prev s = (prev', raised, s') ->
  steps_keys prev' = firstn (length prev') stage_names /\
  (raised <> None -> length prev' < 8).
Proof.
  revert prev s. induction fuel as [|fuel IH]; intros prev s K.
  - simpl. intros [= <- <- <-]. split; [exact K|congruence].
  - rewrite run_from_S.
    destruct (stage_call T self project_root ir0 prev) as [stage|] eqn:C.
    + destruct (stage s) as [[r|e] s1] eqn:R.
      * apply IH. unfold steps_keys in *.
        rewrite map_app, length_app, K, Nat.add_1_r. simpl map.
        rewrite (stage_call_key _ _ _ _ _ _ C R).
        symmetry. apply firstn_succ_nth.
        apply stage_call_length in C. exact C.
      * intros [= <- <- <-]. split; [exact K|].
        intros _. eapply stage_call_length; eauto.
    + intros [= <- <- <-]. split; [exact K|congruence].
Qed.

(** C2 (as amended).  When some stage raises [e] after the stages with
    results [prev] completed, the sequencer returns (it does not raise) a
    result with [status = "error"], the text of [e] as [error], a
    completion timestamp, and exactly [prev] as its steps, whose keys are
    the first [length prev] stage names in pipeline order. *)
Theorem run_single_iteration_error (s s0 s1 : State Env)
    (ir0 : IterationResult T) (prev : list (StageResult T)) (e : exn) :
  begin_iteration T s = (ir0, s0) ->
  run_stages T self project_root ir0 s0 = (prev, Some e, s1) ->
  exists ir s',
    _run_single_iteration T self project_root s = (Ok ir, s') /\
    status ir = Some "error" /\
    error ir = Some (exn_str e) /\
    (has_error_message ir <-> exn_str e <> EmptyString) /\
    (exists finished, completed_at ir = Some finished) /\
    steps ir = prev /\
    length prev < 8 /\
    steps_keys (steps ir) = firstn (length prev) stage_names.
Proof.
  intros B R. rewrite run_single_iteration_trace, B, R.
  unfold finish. destruct (utcnow_isoformat _) as [finished e1].
  eexists. eexists. split; [reflexivity|].
  unfold has_error_message. cbn [status error completed_at steps].
  destruct (run_from_keys ir0 8 [] s0 prev (Some e) s1 eq_refl R) as [K L].
  split; [reflexivity|]. split; [reflexivity|]. split.
  { split.
    - intros (text & E & N). now injection E as <-.
    - intros N. eauto. }
  split; [eauto|]. split; [reflexivity|]. split; [|exact K].
  apply L. discriminate.
Qed.

(** Every result of the sequencer has a status, a completion timestamp
    and steps whose keys are a prefix of the stage names; it is an error
    exactly when a stage raised. *)
Lemma run_single_iteration_returns (s : State Env) :
  exists ir s',
    _run_single_iteration T self project_root s = (Ok ir, s') /\
    steps_keys (steps ir) = firstn (length (steps ir)) stage_names /\
    (exists finished, completed_at ir = Some finished) /\
    ((status ir = Some "success" /\ error ir = None) \/
     (status ir = Some "error" /\ error ir <> None /\ length (steps ir) < 8)).
Proof.
  rewrite run_single_iteration_trace.
  destruct (begin_iteration T s) as [ir0 s0].
  destruct (run_stages T self project_root ir0 s0) as [[prev raised] s1] eqn:R.
  destruct (run_from_keys ir0 8 [] s0 prev raised s1 eq_refl R) as [K L].
  unfold finish. destruct raised as [e|];
    destruct (utcnow_isoformat _) as [finished e1];
    eexists; eexists; (split; [reflexivity|]);
    cbn [status error completed_at steps]; repeat split; eauto.
  right. repeat split; [discriminate|]. apply L. discriminate.
Qed.

(** Scenario F, for any stages: simulate and scan complete, reason
    raises. *)
Lemma run_single_iteration_scenario_f (s s0 s1 s2 s3 : State Env)
    (ir0 : IterationResult T) (r1 : T_simulate T) (r2 : T_scan T)
    (e : exn) :
  begin_iteration T s = (ir0, s0) ->
  step_simulate self (logged s0) = (Ok r1, s1) ->
  step_scan self project_root (logged s1) = (Ok r2, s2) ->
  step_reason self r2 (logged s2) = (Raise e, s3) ->
  exists ir s',
    _run_single_iteration T self project_root s = (Ok ir, s') /\
    steps ir = [R_simulate r1; R_scan r2] /\
    status ir = Some "error" /\
    error ir = Some (exn_str e).
Proof.
  intros B E1 E2 E3. rewrite run_single_iteration_trace, B.
  unfold run_stages.
  rewrite run_from_S. cbn [stage_call length]. rewrite stage_run, E1.
  rewrite run_from_S. cbn [stage_call length app]. rewrite stage_run, E2.
  rewrite run_from_S. cbn [stage_call length app steps_scan].
  rewrite stage_run, E3.
  unfold finish. destruct (utcnow_isoformat _) as [finished e1].
  do 2 eexists. repeat split.
Qed.

End SequencerErrors.

(** Scenario F: simulate and scan complete, reason raises. *)
Lemma run_single_iteration_error_witness :
  let X := Sample.scripted (Sample.quiet "{}") in
  let e := mk_exn RuntimeError "boom" in
  let ir0 : IterationResult UnitTypes :=
    mk_IterationResult "iter-0" "T0" [] None None None in
  let s0 := mk_State true "corr-1" VNone [] 1 in
  let prev := two_steps in
  (begin_iteration (H := X) UnitTypes (Sample.initial true) = (ir0, s0) /\
   run_stages (H := X) UnitTypes (reason_raises e) None ir0 s0 =
     (prev, Some e, s0)) /\
  exists ir s',
    _run_single_iteration (H := X) UnitTypes (reason_raises e) None
      (Sample.initial true) = (Ok ir, s') /\
    status ir = Some "error" /\
    error ir = Some "boom" /\
    (has_error_message ir <-> "boom" <> EmptyString) /\
    (exists finished, completed_at ir = Some finished) /\
    steps ir = prev /\
    length prev < 8 /\
    steps_keys (steps ir) = ["simulate"; "scan"].
Proof.
  intros X e ir0 s0 prev.
  assert (B : begin_iteration (H := X) UnitTypes (Sample.initial true)
              = (ir0, s0)) by reflexivity.
  assert (R : run_stages (H := X) UnitTypes (reason_raises e) None ir0 s0
              = (prev, Some e, s0)) by reflexivity.
  split; [split; assumption|].
  exact (run_single_iteration_error (H := X) UnitTypes (reason_raises e) None
           (Sample.initial true) s0 s0 ir0 prev e B R).
Defined.

(** The same run with [raise RuntimeError()]: the recorded error text is
    the empty string. *)
Lemma run_single_iteration_empty_error_text :
  let X := Sample.scripted (Sample.quiet "{}") in
  let e := mk_exn RuntimeError EmptyString in
  let ir :=
    mk_IterationResult "iter-0" "T0" two_steps (Some "error")
      (Some EmptyString) (Some "T1") in
  fst (_run_single_iteration (H := X) UnitTypes (reason_raises e) None
         (Sample.initial true)) = Ok ir /\
  status ir = Some "error" /\
  ~ has_error_message ir.
Proof.
  split; [reflexivity|]. split; [reflexivity|].
  intros (text & E & N). injection E as <-. now apply N.
Qed.

(** ** The outcome validator *)

Section ValidateFacts.
Context {Env : Type} `{Externals Env}.

Lemma step_validate_run (monitoring_result : MonitoringResult)
    (reasoning_result : dict pyval) (s : State Env) :
  let detected :=
    existsb (fun c => eq_str (compliance_type c) "NON_COMPLIANT")
      (compliance monitoring_result) in
  _step_validate monitoring_result reasoning_result s =
  (Ok {| outcome :=
           if config_safety_mode s then "success_simulated"
           else if detected then "success" else "failure";
         test_passed := if config_safety_mode s then true else detected;
         expected_outcome :=
           dict_get_default reasoning_result "expected_outcome"
             (VStr EmptyString);
         validation_criteria :=
           dict_get_default reasoning_result "validation_criteria"
             (VStr EmptyString);
         non_compliant_detected := detected;
         compliance_count := length (compliance monitoring_result);
         validated_at := fst (utcnow_isoformat (env s)) |},
   with_env s (snd (utcnow_isoformat (env s)))).
Proof.
  destruct s as [safety cid twin history e].
  cbv [_step_validate bind get call utcnow ret with_env].
  destruct safety; simpl; destruct (utcnow_isoformat e); reflexivity.
Qed.

(** C3 (as amended).  Two calls of the validator with the same monitoring
    result, recommendation and safety-mode flag both return, and their
    results agree on every field except [validated_at], which is the
    reading of the clock at each call. *)
Theorem step_validate_deterministic (monitoring_result : MonitoringResult)
    (reasoning_result : dict pyval) (s1 s2 : State Env) :
  config_safety_mode s1 = config_safety_mode s2 ->
  exists v1 s1' v2 s2',
    _step_validate monitoring_result reasoning_result s1 = (Ok v1, s1') /\
    _step_validate monitoring_result reasoning_result s2 = (Ok v2, s2') /\
    forget_timestamp v1 = forget_timestamp v2 /\
    validated_at v1 = fst (utcnow_isoformat (env s1)) /\
    validated_at v2 = fst (utcnow_isoformat (env s2)).
Proof.
  intros E. do 4 eexists.
  split; [apply step_validate_run|]. split; [apply step_validate_run|].
  unfold forget_timestamp. cbn. rewrite E. repeat split.
Qed.

(** Scenario E: without safety mode, one NON_COMPLIANT record passes. *)
Lemma step_validate_detects (monitoring_result : MonitoringResult)
    (reasoning_result : dict pyval) (s : State Env)
    (c : ComplianceRecord) :
  config_safety_mode s = false ->
  In c (compliance monitoring_result) ->
  compliance_type c = VStr "NON_COMPLIANT" ->
  exists v s',
    _step_validate monitoring_result reasoning_result s = (Ok v, s') /\
    test_passed v = true /\ outcome v = "success" /\
    non_compliant_detected v = true.
Proof.
  intros S I C. do 2 eexists. split; [apply step_validate_run|].
  cbn. rewrite S.
  assert (D : existsb (fun c => eq_str (compliance_type c) "NON_COMPLIANT")
                (compliance monitoring_result) = true).
  { apply existsb_exists. exists c. split; [exact I|]. now rewrite C. }
  rewrite D. repeat split.
Qed.

Lemma step_validate_safety (monitoring_result : MonitoringResult)
    (reasoning_result : dict pyval) (s : State Env) :
  config_safety_mode s = true ->
  exists v s',
    _step_validate monitoring_result reasoning_result s = (Ok v, s') /\
    test_passed v = true /\ outcome v = "success_simulated".
Proof.
  intros S. do 2 eexists. split; [apply step_validate_run|].
  cbn. rewrite S. split; reflexivity.
Qed.

End ValidateFacts.

Lemma step_validate_deterministic_witness :
  let X := Sample.scripted (Sample.quiet "{}") in
  let m :=
    {| target := VStr "b"; metrics := []; compliance := []; events := [];
       monitored_at := "T0" |} in
  let s1 := mk_State true "corr-1" VNone [] 0 in
  let s2 := mk_State true "corr-1" VNone [] 5 in
  config_safety_mode s1 = config_safety_mode s2 /\
  exists v1 s1' v2 s2',
    _step_validate (H := X) m [] s1 = (Ok v1, s1') /\
    _step_validate (H := X) m [] s2 = (Ok v2, s2') /\
    forget_timestamp v1 = forget_timestamp v2 /\
    validated_at v1 = "T0" /\
    validated_at v2 = "T5".
Proof.
  intros X m s1 s2. split; [reflexivity|].
  exact (step_validate_deterministic (H := X) m [] s1 s2 eq_refl).
Defined.

(** Two successive calls with the same arguments and the same safety-mode
    flag return different dictionaries. *)
Lemma step_validate_twice_differs :
  let X := Sample.scripted (Sample.quiet "{}") in
  let m :=
    {| target := VStr "b"; metrics := []; compliance := []; events := [];
       monitored_at := "T0" |} in
  let s := Sample.initial true in
  exists v1 s1 v2 s2,
    _step_validate (H := X) m [] s = (Ok v1, s1) /\
    _step_validate (H := X) m [] s1 = (Ok v2, s2) /\
    config_safety_mode s1 = config_safety_mode s /\
    v1 <> v2.
Proof.
  intros X m s. do 4 eexists.
  split; [reflexivity|]. split; [reflexivity|]. split; [reflexivity|].
  intros E. apply (f_equal validated_at) in E. discriminate E.
Qed.

(** ** The inject stage *)

Section InjectFacts.
Context {Env : Type} `{Externals Env}.

Lemma call_run {A} (m : M Env A) (s : State Env) :
  call m s = (fst (m (env s)), with_env s (snd (m (env s)))).
Proof. cbv [call with_env]. now destruct (m (env s)). Qed.

Lemma simulate_in_safety_mode (bucket_name : pyval) (e : Env) :
  AWSHandler.simulate_s3_bucket_misconfiguration bucket_name true true e =
  (Ok [("bucket", bucket_name);
       ("action", VStr "make_public");
       ("applied", VBool false);
       ("safety_mode", VBool true);
       ("simulated_outcome", VStr "success")],
   logger_emit "WARNING" (logger_emit "INFO" e)).
Proof. reflexivity. Qed.

Lemma simulate_for_real (bucket_name : pyval) (e : Env) :
  AWSHandler.simulate_s3_bucket_misconfiguration bucket_name true false e =
  match make_public_calls bucket_name (logger_emit "INFO" e) with
  | (Ok _, e1) =>
      (Ok [("bucket", bucket_name);
           ("action", VStr "made_public");
           ("applied", VBool true);
           ("safety_mode", VBool false);
           ("outcome", VStr "success")],
       logger_emit "INFO" e1)
  | (Raise x, e1) =>
      if is_ClientError x then
        (Ok [("bucket", bucket_name);
             ("action", VStr "make_public");
             ("applied", VBool false);
             ("error", VStr (exn_str x));
             ("outcome", VStr "failure")],
         logger_emit "ERROR" e1)
      else (Raise x, e1)
  end.
Proof.
  cbv [AWSHandler.simulate_s3_bucket_misconfiguration make_public_calls bind
       try_except log_info log_audit log_error log modify ret].
  destruct (s3_delete_public_access_block bucket_name _) as [[[]|x] e1].
  - destruct (s3_put_bucket_acl bucket_name _ e1) as [[[]|x] e2].
    + reflexivity.
    + now destruct (is_ClientError x).
  - now destruct (is_ClientError x).
Qed.

Lemma step_inject_chaos_run (reasoning_result : dict pyval) (s : State Env)
    (c : string) :
  dict_get_default reasoning_result "chaos_type" (VStr "make_s3_public")
    = VStr c ->
  let target :=
    dict_get_default reasoning_result "target_resource"
      (VStr "chaossec-test-bucket") in
  _step_inject_chaos reasoning_result s =
  if contains (lower c) "public" || contains (lower c) "s3" then
    match
      AWSHandler.simulate_s3_bucket_misconfiguration target true
        (config_safety_mode s) (env s)
    with
    | (Ok result, e1) =>
        (Ok (dict_set (dict_set result "chaos_type" (VStr c)) "reasoning"
               (dict_get_default reasoning_result "reasoning"
                  (VStr EmptyString))),
         with_env s e1)
    | (Raise x, e1) => (Raise x, with_env s e1)
    end
  else
    (Ok [("chaos_type", VStr "make_s3_public");
         ("target", target);
         ("applied", VBool false);
         ("safety_mode", VBool (config_safety_mode s));
         ("note", VStr "Fallback to S3 test")],
     with_env s (logger_emit "WARNING" (env s))).
Proof.
  intros C. unfold _step_inject_chaos. rewrite C.
  cbv [py_lower lift_res bind get ret].
  destruct (contains (lower c) "public" || contains (lower c) "s3").
  - rewrite call_run.
    now destruct (AWSHandler.simulate_s3_bucket_misconfiguration _ _ _ _)
      as [[result|x] e1].
  - reflexivity.
Qed.

(** C8 (as amended).  For a recommendation whose fault type is a string
    (or is absent): a fault type that contains neither "public" nor "s3",
    case-insensitively, yields [applied = False] and the note of the
    fallback to the S3 test; otherwise, in safety mode the result has
    [applied = False]; without safety mode it has [applied = True] when
    both S3 calls succeed, it has [applied = False],
    [outcome = "failure"] and the error text when one of them raises a
    [ClientError], and any other exception of those calls leaves the
    stage as it was raised. *)
Theorem step_inject_chaos_spec (reasoning_result : dict pyval)
    (s : State Env) (c : string) :
  dict_get_default reasoning_result "chaos_type" (VStr "make_s3_public")
    = VStr c ->
  let target :=
    dict_get_default reasoning_result "target_resource"
      (VStr "chaossec-test-bucket") in
  let run := _step_inject_chaos reasoning_result s in
  if contains (lower c) "public" || contains (lower c) "s3" then
    if config_safety_mode s then
      exists r s', run = (Ok r, s') /\
                   dict_get r "applied" = Some (VBool false)
    else
      match make_public_calls target (logger_emit "INFO" (env s)) with
      | (Ok _, _) =>
          exists r s', run = (Ok r, s') /\
                       dict_get r "applied" = Some (VBool true)
      | (Raise x, e1) =>
          if is_ClientError x then
            exists r s', run = (Ok r, s') /\
                         dict_get r "applied" = Some (VBool false) /\
                         dict_get r "outcome" = Some (VStr "failure") /\
                         dict_get r "error" = Some (VStr (exn_str x))
          else run = (Raise x, with_env s e1)
      end
  else
    exists r s', run = (Ok r, s') /\
                 dict_get r "applied" = Some (VBool false) /\
                 dict_get r "note" = Some (VStr "Fallback to S3 test").
Proof.
  intros C target run. subst run.
  rewrite (step_inject_chaos_run _ _ _ C). fold target.
  destruct (contains (lower c) "public" || contains (lower c) "s3").
  - destruct (config_safety_mode s).
    + rewrite simulate_in_safety_mode. do 2 eexists. split; reflexivity.
    + rewrite simulate_for_real.
      destruct (make_public_calls target _) as [[[]|x] e1].
      * do 2 eexists. split; reflexivity.
      * destruct (is_ClientError x); [|reflexivity].
        do 2 eexists. repeat split.
  - do 2 eexists. repeat split.
Qed.

(** A fault type that is not a string makes the stage raise. *)
Lemma step_inject_chaos_not_a_string (reasoning_result : dict pyval)
    (s : State Env) (v : pyval) :
  dict_get reasoning_result "chaos_type" = Some v ->
  (forall c, v <> VStr c) ->
  exists x, _step_inject_chaos reasoning_result s = (Raise x, s) /\
            exn_cls x = AttributeError.
Proof.
  intros G N. unfold _step_inject_chaos, dict_get_default. rewrite G.
  destruct v; try (eexists; split; reflexivity).
  exfalso. eapply N. reflexivity.
Qed.

Lemma step_inject_chaos_safety (reasoning_result r : dict pyval)
    (s s' : State Env) :
  config_safety_mode s = true ->
  _step_inject_chaos reasoning_result s = (Ok r, s') ->
  dict_get r "applied" = Some (VBool false).
Proof.
  intros S R.
  destruct (dict_get_default reasoning_result "chaos_type"
              (VStr "make_s3_public")) as [| | | |c| |] eqn:C;
    try (unfold _step_inject_chaos in R; rewrite C in R; discriminate R).
  rewrite (step_inject_chaos_run _ _ _ C), S in R.
  rewrite simulate_in_safety_mode in R.
  destruct (contains (lower c) "public" || contains (lower c) "s3");
    injection R as <- <-; reflexivity.
Qed.

End InjectFacts.

Lemma step_inject_chaos_spec_witness :
  let X := Sample.scripted (Sample.s3_raises Sample.access_denied) in
  dict_get_default [] "chaos_type" (VStr "make_s3_public")
    = VStr "make_s3_public" /\
  exists r s',
    _step_inject_chaos (H := X) [] (Sample.initial false) = (Ok r, s') /\
    dict_get r "applied" = Some (VBool false) /\
    dict_get r "outcome" = Some (VStr "failure") /\
    dict_get r "error" = Some (VStr "An error occurred (AccessDenied)").
Proof.
  intros X. split; [reflexivity|].
  exact (step_inject_chaos_spec (H := X) [] (Sample.initial false)
           "make_s3_public" eq_refl).
Defined.

(** Without safety mode, a connection failure of the S3 client leaves the
    inject stage as an exception, and the iteration ends there with
    [status = "error"]. *)
Lemma step_inject_chaos_propagates :
  let X := Sample.scripted (Sample.s3_raises Sample.no_endpoint) in
  fst (_step_inject_chaos (H := X) [] (Sample.initial false))
    = Raise Sample.no_endpoint /\
  exists ir,
    fst (_run_single_iteration (H := X) ChaosSecTypes chaossec None
           (Sample.initial false)) = Ok ir /\
    status ir = Some "error" /\
    steps_keys (steps ir) = ["simulate"; "scan"; "reason"].
Proof.
  intros X. split; [reflexivity|].
  eexists. split; [vm_compute; reflexivity|]. split; reflexivity.
Qed.

(** ** The safety gate *)

Section KeepsConfig.
Context {Env : Type} `{Externals Env}.

Lemma keeps_ret {A} (a : A) : keeps_config (Env := Env) (ret a).
Proof. intros s r s'. cbv [ret]. now intros [= <- <-]. Qed.

Lemma keeps_bind {A B} (m : M (State Env) A) (k : A -> M (State Env) B) :
  keeps_config m -> (forall a, keeps_config (Env := Env) (k a)) ->
  keeps_config (Env := Env) (bind m k).
Proof.
  intros Km Kk s r s'. unfold bind.
  destruct (m s) as [[a|e] s1] eqn:E.
  - intros R. rewrite (Kk a _ _ _ R). eapply Km; eauto.
  - intros [= <- <-]. eapply Km; eauto.
Qed.

Lemma keeps_call {A} (m : M Env A) : keeps_config (Env := Env) (call m).
Proof. intros s r s'. rewrite call_run. now intros [= <- <-]. Qed.

Lemma keeps_get : keeps_config (Env := Env) (get (S := State Env)).
Proof. intros s r s'. cbv [get]. now intros [= <- <-]. Qed.

Lemma keeps_lift_res {A} (r : res A) :
  keeps_config (Env := Env) (lift_res r).
Proof. intros s r' s'. cbv [lift_res]. now intros [= <- <-]. Qed.

Lemma keeps_try {A} (body : M (State Env) A) caught handler :
  keeps_config body -> (forall e, keeps_config (Env := Env) (handler e)) ->
  keeps_config (Env := Env) (try_except body caught handler).
Proof.
  intros Kb Kh s r s'. unfold try_except.
  destruct (body s) as [[a|e] s1] eqn:E.
  - intros [= <- <-]. eapply Kb; eauto.
  - destruct (caught e).
    + intros R. rewrite (Kh e _ _ _ R). eapply Kb; eauto.
    + intros [= <- <-]. eapply Kb; eauto.
Qed.

Lemma keeps_set_twin v : keeps_config (Env := Env) (set_current_twin_id v).
Proof.
  intros s r s'. cbv [set_current_twin_id modify]. now intros [= <- <-].
Qed.

Lemma keeps_append entry : keeps_config (Env := Env) (append_history entry).
Proof. intros s r s'. cbv [append_history modify]. now intros [= <- <-]. Qed.

Ltac keeps :=
  repeat first
    [ apply keeps_ret | apply keeps_call | apply keeps_get
    | apply keeps_lift_res | apply keeps_set_twin | apply keeps_append
    | apply keeps_bind; [|intros]
    | apply keeps_try; [|intros]
    | match goal with
      | |- keeps_config (match ?x with _ => _ end) => destruct x
      end ].

Lemma keeps_step_simulate : keeps_config (Env := Env) _step_simulate.
Proof. unfold _step_simulate. keeps. Qed.

Lemma keeps_step_scan root : keeps_config (Env := Env) (_step_scan root).
Proof. unfold _step_scan. keeps. Qed.

Lemma keeps_step_reason scan_result :
  keeps_config (Env := Env) (_step_reason scan_result).
Proof. unfold _step_reason. keeps. Qed.

Lemma keeps_step_inject_chaos reasoning_result :
  keeps_config (Env := Env) (_step_inject_chaos reasoning_result).
Proof. unfold _step_inject_chaos. keeps. Qed.

Lemma keeps_step_monitor chaos_result :
  keeps_config (Env := Env) (_step_monitor chaos_result).
Proof. unfold _step_monitor. keeps. Qed.

Lemma keeps_step_validate monitoring_result reasoning_result :
  keeps_config (Env := Env)
    (_step_validate monitoring_result reasoning_result).
Proof.
  intros s r s'. rewrite step_validate_run. now intros [= <- <-].
Qed.

Lemma keeps_step_report chaos_result scan_result monitoring_result
    validation_result :
  keeps_config (Env := Env)
    (_step_report chaos_result scan_result monitoring_result
       validation_result).
Proof. unfold _step_report. keeps. Qed.

Lemma keeps_step_learn iteration_result :
  keeps_config (Env := Env) (_step_learn iteration_result).
Proof. unfold _step_learn. keeps. Qed.

Lemma create_digital_twin_returns (resources : list pyval) (e : Env) :
  exists d e',
    SystemInitiative.create_digital_twin resources e = (Ok d, e') /\
    dict_get d "applied" = None.
Proof.
  cbv [SystemInitiative.create_digital_twin try_except bind log_info
       log_audit log_error log modify ret lift_res is_Exception].
  destruct (si_post_twins _) as [[v|x] e1].
  - destruct v; cbv [AgentBrain.as_dict]; do 2 eexists; split; reflexivity.
  - do 2 eexists; split; reflexivity.
Qed.

Lemma step_simulate_returns (s : State Env) :
  exists d s', _step_simulate s = (Ok d, s') /\ dict_get d "applied" = None.
Proof.
  unfold _step_simulate.
  destruct (create_digital_twin_returns aws_resources (env s))
    as (d & e' & E & N).
  erewrite bind_ok; [|rewrite call_run, E; reflexivity].
  exists d. cbv [bind ret].
  destruct (truthy _); cbv [set_current_twin_id modify];
    eexists; split; eauto.
Qed.

End KeepsConfig.

Section StageCases.
Context {Env : Type} `{Externals Env}.
Variable T : StageTypes.
Variable self : Stages (Env := Env) T.
Variable project_root : option string.

(** What a completed stage call was. *)
Lemma stage_call_cases ir0 prev stage s r s' :
  stage_call T self project_root ir0 prev = Some stage ->
  stage s = (Ok r, s') ->
  (exists x, r = R_simulate x /\
             step_simulate self (logged s) = (Ok x, s')) \/
  (exists x, r = R_scan x /\
             step_scan self project_root (logged s) = (Ok x, s')) \/
  (exists a x, r = R_reason x /\
               step_reason self a (logged s) = (Ok x, s')) \/
  (exists a x, r = R_chaos x /\
               step_inject_chaos self a (logged s) = (Ok x, s')) \/
  (exists a x, r = R_monitor x /\
               step_monitor self a (logged s) = (Ok x, s')) \/
  (exists a b x, r = R_validate x /\
                 step_validate self a b (logged s) = (Ok x, s')) \/
  (exists a b c d x, r = R_report x /\
                     step_report self a b c d (logged s) = (Ok x, s')) \/
  (exists a x, r = R_learn x /\
               step_learn self a (logged s) = (Ok x, s')).
Proof.
  unfold stage_call.
  destruct (length prev) as [|[|[|[|[|[|[|[|n]]]]]]]];
    repeat match goal with
           | |- context [match ?o with Some _ => _ | None => _ end] =>
               destruct o
           end;
    try discriminate;
    intros [= <-]; rewrite stage_run;
    match goal with
    | |- context [match ?m (logged ?w) with _ => _ end] =>
        destruct (m (logged w)) as [[r0|e0] s0] eqn:E
    end;
    intros [= <- <-] || discriminate.
  - left. eauto.
  - right; left. eauto.
  - do 2 right; left. eauto.
  - do 3 right; left. eauto.
  - do 4 right; left. eauto.
  - do 5 right; left. eauto 6.
  - do 6 right; left. eauto 10.
  - do 7 right. eauto.
Qed.

Lemma run_from_invariant (Inv : State Env -> Prop)
    (Q : StageResult T -> Prop) ir0 :
  (forall prev stage s r s',
     Inv s -> stage_call T self project_root ir0 prev = Some stage ->
     stage s = (Ok r, s') -> Inv s' /\ Q r) ->
  forall fuel prev s prev' raised s',
    Inv s -> Forall Q prev ->
    run_from T self project_root ir0 fuel prev s = (prev', raised, s') ->
    Forall Q prev'.
Proof.
  intros Step. induction fuel as [|fuel IH]; intros prev s prev' raised s' I F.
  - simpl. now intros [= <- <- <-].
  - rewrite run_from_S.
    destruct (stage_call T self project_root ir0 prev) as [stage|] eqn:C.
    + destruct (stage s) as [[r|e] s1] eqn:R.
      * destruct (Step _ _ _ _ _ I C R) as [I1 Q1].
        apply IH; [exact I1|]. apply Forall_app. split; [exact F|].
        now constructor.
      * now intros [= <- <- <-].
    + now intros [= <- <- <-].
Qed.

End StageCases.

Section SafetyMode.
Context {Env : Type} `{Externals Env}.

Lemma logged_config (s : State Env) :
  config_safety_mode (logged s) = config_safety_mode s.
Proof. reflexivity. Qed.

Lemma chaossec_stage_safe project_root ir0 prev stage (s s' : State Env) r :
  config_safety_mode s = true ->
  stage_call ChaosSecTypes chaossec project_root ir0 prev = Some stage ->
  stage s = (Ok r, s') ->
  config_safety_mode s' = true /\ safe_result r.
Proof.
  intros S C R.
  destruct (stage_call_cases _ _ _ _ _ _ _ _ _ C R)
    as [(x & -> & E)|[(x & -> & E)|[(a & x & -> & E)|[(a & x & -> & E)|
       [(a & x & -> & E)|[(a & b & x & -> & E)|[(a & b & c & d & x & -> & E)|
       (a & x & -> & E)]]]]]]]; cbn [step_simulate step_scan step_reason
         step_inject_chaos step_monitor step_validate step_report step_learn
         chaossec] in E; cbn [safe_result].
  - split; [rewrite (keeps_step_simulate _ _ _ E); exact S|].
    destruct (step_simulate_returns (logged s)) as (d & s1 & E1 & N).
    rewrite E1 in E. now injection E as <- <-.
  - split; [rewrite (keeps_step_scan _ _ _ _ E); exact S|exact I].
  - split; [rewrite (keeps_step_reason _ _ _ _ E); exact S|exact I].
  - split; [rewrite (keeps_step_inject_chaos _ _ _ _ E); exact S|].
    eapply step_inject_chaos_safety; [|exact E]. exact S.
  - split; [rewrite (keeps_step_monitor _ _ _ _ E); exact S|exact I].
  - split; [rewrite (keeps_step_validate _ _ _ _ _ E); exact S|].
    destruct (step_validate_safety a b (logged s) S) as (v & s1 & E1 & P).
    rewrite E1 in E. now injection E as <- <-.
  - split; [rewrite (keeps_step_report _ _ _ _ _ _ _ E); exact S|exact I].
  - split; [rewrite (keeps_step_learn _ _ _ _ E); exact S|exact I].
Qed.

Lemma safe_result_applied (r : StageResult ChaosSecTypes) :
  safe_result r -> stage_key r <> "reason" -> reports_applied r = false.
Proof.
  destruct r; cbn [safe_result stage_key reports_applied]; intros P K;
    try reflexivity; try (unfold applied_true; now rewrite P).
  now contradiction K.
Qed.

(** C1 (as amended).  In safety mode the validate stage returns
    [test_passed = True] and [outcome = "success_simulated"] whatever the
    monitoring data; and an iteration always returns a result in which
    the inject stage's result has [applied = False], the validate stage's
    result is as above, and no stage result other than the reason stage's
    (the decision maker's own dictionary) contains [applied = True]. *)
Theorem safety_mode_invariant (project_root : option string)
    (s : State Env) :
  config_safety_mode s = true ->
  (forall monitoring_result reasoning_result,
     exists v s',
       _step_validate monitoring_result reasoning_result s = (Ok v, s') /\
       test_passed v = true /\ outcome v = "success_simulated") /\
  exists ir s',
    _run_single_iteration ChaosSecTypes chaossec project_root s
      = (Ok ir, s') /\
    forall r, In r (steps ir) ->
      safe_result r /\
      (stage_key r <> "reason" -> reports_applied r = false).
Proof.
  intros S. split.
  - intros m r. now apply step_validate_safety.
  - rewrite run_single_iteration_trace.
    destruct (begin_iteration ChaosSecTypes s) as [ir0 s0] eqn:B.
    assert (S0 : config_safety_mode s0 = true).
    { unfold begin_iteration in B. destruct (time_time _), (utcnow_isoformat _).
      injection B as <- <-. exact S. }
    destruct (run_stages ChaosSecTypes chaossec project_root ir0 s0)
      as [[prev raised] s1] eqn:R.
    assert (F : Forall safe_result prev).
    { eapply (run_from_invariant ChaosSecTypes chaossec project_root
                (fun s => config_safety_mode s = true) safe_result ir0);
        [|exact S0|constructor|exact R].
      intros. eapply chaossec_stage_safe; eauto. }
    destruct (finish ChaosSecTypes ir0 prev raised s1) as [ir s2] eqn:E.
    assert (P : steps ir = prev).
    { unfold finish in E. destruct raised; destruct (utcnow_isoformat _);
        injection E as <- <-; reflexivity. }
    exists ir, s2. split; [reflexivity|]. rewrite P.
    intros r I. rewrite Forall_forall in F. split; [now apply F|].
    apply safe_result_applied. now apply F.
Qed.

End SafetyMode.

Lemma safety_mode_invariant_witness :
  let X := Sample.scripted (Sample.quiet "{}") in
  let s := Sample.initial true in
  config_safety_mode s = true /\
  ((forall monitoring_result reasoning_result,
      exists v s',
        _step_validate (H := X) monitoring_result reasoning_result s
          = (Ok v, s') /\
        test_passed v = true /\ outcome v = "success_simulated") /\
   exists ir s',
     _run_single_iteration (H := X) ChaosSecTypes chaossec None s
       = (Ok ir, s') /\
     forall r, In r (steps ir) ->
       safe_result r /\
       (stage_key r <> "reason" -> reports_applied r = false)).
Proof.
  intros X s. split; [reflexivity|].
  exact (safety_mode_invariant (H := X) None s eq_refl).
Defined.

(** In safety mode, when the decision maker answers [{"applied": true}],
    the result of the reason stage contains [applied = True]. *)
Lemma safety_mode_reason_reports_applied :
  let X := Sample.scripted (Sample.quiet Sample.applied_true_text) in
  let s := Sample.initial true in
  config_safety_mode s = true /\
  exists ir r,
    fst (_run_single_iteration (H := X) ChaosSecTypes chaossec None s)
      = Ok ir /\
    status ir = Some "success" /\
    In r (steps ir) /\
    stage_key r = "reason" /\
    reports_applied r = true.
Proof.
  intros X s. split; [reflexivity|].
  eexists. eexists. split; [vm_compute; reflexivity|].
  split; [reflexivity|]. split; [right; right; left; reflexivity|].
  split; reflexivity.
Qed.

(** ** The learn stage *)

Section LearnFacts.
Context {Env : Type} `{Externals Env}.

(** The entry the learn stage appends carries the outcome of the validate
    stage. *)
Lemma step_learn_entry (iteration_result : IterationResult ChaosSecTypes)
    (s : State Env) :
  exists lr s' entry,
    _step_learn iteration_result s = (Ok lr, s') /\
    execution_history s' = (execution_history s ++ [entry])%list /\
    he_outcome entry =
      option_map outcome (steps_validate (steps iteration_result)).
Proof.
  destruct s as [safety cid twin history e].
  cbv [_step_learn bind append_history modify get try_except call ret
       is_Exception log_info log_error log].
  cbn [config_safety_mode correlation_id current_twin_id execution_history
       env].
  destruct (write_history_file _ _ e) as [[[]|x] e1];
    do 3 eexists; (split; [reflexivity|]); split; reflexivity.
Qed.


End LearnFacts.

(** ** The recommendation normalizer *)

Section StringFacts.

Lemma prefix_app (p a b : string) :
  String.prefix p a = true -> String.prefix p (a ++ b) = true.
Proof.
  revert a. induction p as [|c p IH]; intros a.
  - intros _. now destruct (a ++ b).
  - destruct a as [|c' a]; simpl; [discriminate|].
    destruct (ascii_dec c c'); [apply IH|discriminate].
Qed.

Lemma split_lines_not_nil (s : string) : split_lines s <> [].
Proof.
  induction s as [|c s IH]; simpl; [discriminate|].
  destruct (Ascii.eqb c newline); [discriminate|].
  destruct (split_lines s); discriminate.
Qed.

Lemma split_lines_one_line (s : string) :
  one_line s = true -> split_lines s = [s].
Proof.
  induction s as [|c s IH]; simpl; [reflexivity|].
  destruct (Ascii.eqb c newline); simpl; [discriminate|].
  intros O. now rewrite (IH O).
Qed.

Lemma split_lines_break (a b : string) :
  split_lines (a ++ String newline b) =
  (split_lines a ++ split_lines b)%list.
Proof.
  induction a as [|c a IH]; simpl.
  - reflexivity.
  - rewrite IH. destruct (Ascii.eqb c newline); [reflexivity|].
    pose proof (split_lines_not_nil a) as N.
    destruct (split_lines a); [contradiction|reflexivity].
Qed.

Lemma split_lines_app (a b : string) :
  split_lines (a ++ nl ++ b) = (split_lines a ++ split_lines b)%list.
Proof. apply split_lines_break. Qed.

Lemma join_lines_cons (c : ascii) (l : string) (ls : list string) :
  join_lines (String c l :: ls) = String c (join_lines (l :: ls)).
Proof. destruct ls; reflexivity. Qed.

Lemma join_split_lines (s : string) : join_lines (split_lines s) = s.
Proof.
  induction s as [|c s IH]; simpl; [reflexivity|].
  destruct (Ascii.eqb_spec c newline) as [->|N].
  - pose proof (split_lines_not_nil s) as NN.
    destruct (split_lines s) as [|l ls] eqn:E; [contradiction|].
    change (join_lines (EmptyString :: l :: ls))
      with (nl ++ join_lines (l :: ls)).
    now rewrite IH.
  - pose proof (split_lines_not_nil s) as NN.
    destruct (split_lines s) as [|l ls] eqn:E; [contradiction|].
    rewrite join_lines_cons. now rewrite IH.
Qed.

(** A fenced block: the text between the first and the last line. *)
Lemma unfence_fenced (response first body last : string) :
  strip response = first ++ nl ++ body ++ nl ++ last ->
  startswith first "```" = true ->
  one_line first = true -> one_line last = true ->
  AgentBrain.unfence response = body.
Proof.
  intros E P O1 O2. unfold AgentBrain.unfence. rewrite E.
  unfold startswith in *. rewrite (prefix_app _ _ _ P).
  rewrite !split_lines_app, (split_lines_one_line _ O1),
    (split_lines_one_line _ O2).
  pose proof (split_lines_not_nil body) as N.
  unfold slice_1_m1. cbn [app tl].
  rewrite removelast_last, join_split_lines.
  destruct (split_lines body) as [|l ls]; [contradiction|].
  cbn [length app]. rewrite length_app. cbn [length].
  destruct (Nat.ltb_spec 2 (S (S (length ls + 1)))); [reflexivity|lia].
Qed.

Lemma unfence_plain (response : string) :
  startswith (strip response) "```" = false ->
  AgentBrain.unfence response = strip response.
Proof. intros P. unfold AgentBrain.unfence. now rewrite P. Qed.

End StringFacts.

Section FillFacts.

Lemma fill_missing_keeps fields (d : dict pyval) k v :
  dict_get d k = Some v -> dict_get (fill_missing fields d) k = Some v.
Proof.
  revert d. induction fields as [|f fields IH]; intros d G; simpl; [exact G|].
  apply IH. unfold dict_has. destruct (dict_get d f) eqn:F; [exact G|].
  rewrite dict_get_set_other; [exact G|]. intros ->. congruence.
Qed.

Lemma fill_missing_other fields (d : dict pyval) k :
  ~ In k fields -> dict_get (fill_missing fields d) k = dict_get d k.
Proof.
  revert d. induction fields as [|f fields IH]; intros d N; simpl;
    [reflexivity|].
  rewrite IH by (intros I; apply N; now right).
  unfold dict_has. destruct (dict_get d f); [reflexivity|].
  apply dict_get_set_other. intros ->. apply N. now left.
Qed.

Lemma fill_missing_field fields (d : dict pyval) f :
  In f fields ->
  dict_get (fill_missing fields d) f =
    Some (dict_get_default d f (VStr "Not specified")).
Proof.
  revert d. induction fields as [|g fields IH]; intros d I; simpl;
    [destruct I|].
  destruct (String.eqb_spec g f) as [->|N].
  - apply fill_missing_keeps. unfold dict_has, dict_get_default.
    destruct (dict_get d f) eqn:F; [exact F|apply dict_get_set_same].
  - destruct I as [E|I]; [contradiction|].
    rewrite (IH _ I). f_equal. unfold dict_get_default, dict_has.
    destruct (dict_get d g); [reflexivity|].
    now rewrite dict_get_set_other.
Qed.

End FillFacts.

Section NormalizerFacts.
Context {Env : Type} `{Externals Env}.
Import AgentBrain.

Lemma fill_required_dict fields (d : dict pyval) (e : Env) :
  exists e',
    fill_required fields (VDict d) e = (Ok (VDict (fill_missing fields d)), e').
Proof.
  revert d e. induction fields as [|f fields IH]; intros d e; simpl.
  - eexists. reflexivity.
  - cbv [bind lift_res py_in]. destruct (dict_has d f); simpl.
    + apply IH.
    + cbv [log_warning log modify]. apply IH.
Qed.

Lemma parse_bedrock_response_object (response : string) (d : dict pyval)
    (e : Env) :
  json_loads (unfence response) = Ok (VDict d) ->
  exists e',
    _parse_bedrock_response response e =
      (Ok (VDict (fill_missing required_fields d)), e').
Proof.
  intros L. unfold _parse_bedrock_response, try_except, bind, lift_res.
  rewrite L.
  destruct (fill_required_dict required_fields d e) as (e' & ->).
  eexists. reflexivity.
Qed.

Lemma parse_bedrock_response_decode_error (response : string) (x : exn)
    (e : Env) :
  json_loads (unfence response) = Raise x ->
  is_JSONDecodeError x = true ->
  _parse_bedrock_response response e =
    (Ok (VDict (parse_error_fallback x)),
     logger_emit "DEBUG" (logger_emit "ERROR" e)).
Proof.
  intros L J. unfold _parse_bedrock_response, try_except, bind, lift_res.
  rewrite L, J. reflexivity.
Qed.

(** A JSON array that lacks a required name is not normalised: the item
    assignment raises [TypeError], which [_parse_bedrock_response] does
    not catch. *)
Lemma parse_bedrock_response_array (response : string) (l : list pyval)
    (e : Env) :
  json_loads (unfence response) = Ok (VList l) ->
  existsb (fun x => eq_str x "target_resource") l = false ->
  _parse_bedrock_response response e =
    (Raise (mk_exn TypeError
              "list indices must be integers or slices, not str"),
     logger_emit "WARNING" e).
Proof.
  intros L N. unfold _parse_bedrock_response, try_except, bind, lift_res.
  rewrite L. simpl. rewrite N. reflexivity.
Qed.

(** The reason stage's collaborator never raises: whatever goes wrong is
    answered with the default recommendation. *)
Lemma reason_next_chaos_returns (context : Context) (e : Env) :
  exists d e', reason_next_chaos context e = (Ok d, e').
Proof.
  unfold reason_next_chaos.
  erewrite bind_ok by reflexivity.
  apply try_except_total. intros x s1.
  cbv [_fallback_recommendation bind log_error log_warning log modify ret].
  eauto.
Qed.


End NormalizerFacts.



(** ** The run loop *)

Section RunLoopFacts.
Context {Env : Type} `{Externals Env}.
Variable T : StageTypes.
Variable run_single_iteration :
  option string -> M (State Env) (IterationResult T).
Variable generate_report_summary : RunSummary T -> M Env string.
Variable max_iterations : Z.
Variable project_root : option string.

Lemma with_iterations_same (r : RunSummary T) :
  with_iterations r (iterations r) = r.
Proof. now destruct r. Qed.

Lemma loop_body_run (iteration : Z) (s : State Env) (r : RunSummary T) :
  loop_body T run_single_iteration max_iterations project_root iteration
    (s, r) =
  match run_single_iteration project_root (logged s) with
  | (Ok ir, s1) =>
      (Ok tt,
       (if (iteration <? max_iterations - 1)%Z then
          with_env s1 (time_sleep 5 (env (logged s1)))
        else s1,
        append_iteration T ir r))
  | (Raise e, s1) => (Raise e, (s1, r))
  end.
Proof.
  destruct s as [safety cid twin history e0].
  cbv [loop_body bind lift call log_info log modify modify_local ret logged
       with_env fst snd].
  cbn [env config_safety_mode correlation_id current_twin_id
       execution_history].
  destruct (run_single_iteration project_root _) as [[ir|e] s1];
    [|reflexivity].
  destruct (iteration <? max_iterations - 1)%Z; [|reflexivity].
  now destruct s1.
Qed.

(** The [for] loop runs the iterations in order and stops at the first
    one that raises, keeping the results gathered so far. *)
Lemma for_each_loop (indices : list Z) (s : State Env) (r : RunSummary T) :
  for_each indices
    (loop_body T run_single_iteration max_iterations project_root) (s, r) =
  match
    run_iterations T run_single_iteration max_iterations project_root
      indices (iterations r) s
  with
  | (done, None, s') => (Ok tt, (s', with_iterations r done))
  | (done, Some e, s') => (Raise e, (s', with_iterations r done))
  end.
Proof.
  revert s r. induction indices as [|i indices IH]; intros s r.
  - simpl. now rewrite with_iterations_same.
  - cbn [for_each run_iterations]. unfold bind. rewrite loop_body_run.
    destruct (run_single_iteration project_root (logged s)) as [[ir|e] s1].
    + rewrite IH. reflexivity.
    + now rewrite with_iterations_same.
Qed.

Lemma run_iterations_length indices acc (s : State Env) done s' :
  run_iterations T run_single_iteration max_iterations project_root
    indices acc s = (done, None, s') ->
  length done = length acc + length indices.
Proof.
  revert acc s. induction indices as [|i indices IH]; intros acc s; simpl.
  - intros [= <- <-]. lia.
  - destruct (run_single_iteration project_root (logged s)) as [[ir|e] s1];
      [|discriminate].
    intros R. rewrite (IH _ _ R), length_app. simpl. lia.
Qed.

Lemma call_log_info (s : State Env) : call log_info s = (Ok tt, logged s).
Proof. reflexivity. Qed.

(** C4.  For every [max_iterations], sequencer and summary generator,
    the run loop returns a summary (it never raises) whose status is
    "completed" or "error".  When the sequencer raises in some iteration,
    the status is "error", the error text is recorded, and the summary
    holds the results of the iterations completed before; when no
    iteration raises, it holds the results of all [max_iterations]
    iterations. *)
Theorem run_chaossec_loop_total (s : State Env) :
  exists r s',
    run_chaossec_loop T run_single_iteration generate_report_summary
      max_iterations project_root s = (Ok r, s') /\
    (loop_status r = Some "completed" \/ loop_status r = Some "error") /\
    match
      run_iterations T run_single_iteration max_iterations project_root
        (range max_iterations) [] (begin_loop s)
    with
    | (done, Some e, _) =>
        loop_status r = Some "error" /\
        iterations r = done /\
        loop_error r = Some (exn_str e)
    | (done, None, _) =>
        iterations r = done /\
        length done = Z.to_nat max_iterations /\
        (loop_status r = Some "completed" ->
         total_iterations r = Some (length done) /\ summary r <> None)
    end.
Proof.
  unfold run_chaossec_loop.
  erewrite bind_ok by (apply call_log_info).
  erewrite bind_ok by (apply call_utcnow).
  erewrite bind_ok by reflexivity.
  unfold with_local, try_except. unfold bind at 1.
  rewrite for_each_loop. cbn [iterations].
  change (with_env (logged s) (snd (utcnow_isoformat (env (logged s)))))
    with (begin_loop s).
  destruct (run_iterations T run_single_iteration max_iterations
              project_root (range max_iterations) [] (begin_loop s))
    as [[done [e|]] s1] eqn:R.
  - cbv [is_Exception bind lift call log_error log modify modify_local
         get_local set_loop_error with_iterations fst snd].
    do 2 eexists. split; [reflexivity|].
    cbn [loop_status iterations loop_error]. auto.
  - pose proof (run_iterations_length _ _ _ _ _ R) as L.
    unfold range in L. rewrite length_map, length_seq in L. simpl in L.
    erewrite bind_ok; [|unfold lift; rewrite call_utcnow; reflexivity].
    cbv [bind modify_local get_local lift fst snd].
    rewrite call_run.
    destruct (generate_report_summary _ _) as [[text|e] e2].
    + cbv [call log_info log modify set_loop_summary set_loop_completed
           with_iterations fst snd].
      do 2 eexists. split; [reflexivity|].
      cbn [loop_status iterations loop_error total_iterations summary].
      repeat split; auto. discriminate.
    + cbv [is_Exception call log_error log modify set_loop_error
           set_loop_completed with_iterations fst snd].
      do 2 eexists. split; [reflexivity|].
      cbn [loop_status iterations loop_error total_iterations summary].
      repeat split; auto. discriminate.
Qed.

End RunLoopFacts.

(** Three iterations are asked for; the sequencer raises in the second. *)
Example run_chaossec_loop_keeps_completed :
  let X := Sample.scripted (Sample.quiet "{}") in
  exists r,
    fst (run_chaossec_loop (H := X) ChaosSecTypes Sample.flaky_sequencer
           (fun _ => ret "summary") 3 None (Sample.initial true)) = Ok r /\
    loop_status r = Some "error" /\
    loop_error r = Some "sequencer failed" /\
    iterations r = [Sample.one_good_iteration].
Proof.
  intros X. eexists. split; [vm_compute; reflexivity|]. repeat split.
Qed.

(** ** Outcomes that count *)

Section OutcomeFacts.
Context {Env : Type} `{Externals Env}.
Import AgentBrain.

Lemma outcome_is_false (o : string) (r : HistoryEntry) :
  he_outcome r <> Some o -> outcome_is o r = false.
Proof.
  unfold outcome_is. destruct (he_outcome r) as [o'|]; [|reflexivity].
  intros N. destruct (String.eqb_spec o' o) as [->|]; [|reflexivity].
  now contradiction N.
Qed.

Lemma count_outcome_snoc (o : string) h r :
  he_outcome r <> Some o -> count_outcome o (h ++ [r]) = count_outcome o h.
Proof.
  intros N. unfold count_outcome. rewrite filter_app, length_app. simpl.
  rewrite (outcome_is_false o r N). simpl. lia.
Qed.

Lemma count_outcome_none (o : string) h :
  Forall (fun r => he_outcome r <> Some o) h -> count_outcome o h = 0.
Proof.
  unfold count_outcome. induction 1 as [|r h N F IH]; simpl; [reflexivity|].
  now rewrite (outcome_is_false o r N).
Qed.


End OutcomeFacts.


(** Two iterations in safety mode, the decision maker being unreachable:
    both pass, and the history they leave has a success rate of 0. *)
Example safety_mode_history_rate :
  let X := Sample.scripted (Sample.s3_raises Sample.access_denied) in
  let run :=
    run_chaossec_loop (H := X) ChaosSecTypes
      (_run_single_iteration ChaosSecTypes chaossec)
      (fun _ => ret "summary") 2 None (Sample.initial true) in
  exists r a,
    fst run = Ok r /\
    loop_status r = Some "completed" /\
    map status (iterations r) = [Some "success"; Some "success"] /\
    map he_outcome (execution_history (snd run)) =
      [Some "success_simulated"; Some "success_simulated"] /\
    fst (AgentBrain.analyze_history (H := X) (execution_history (snd run)) 0)
      = Ok a /\
    total_tests a = 2 /\ successful_tests a = Some 0 /\
    success_rate a = (0 # 2)%Q.
Proof.
  intros X run. eexists. eexists.
  split; [vm_compute; reflexivity|].
  split; [reflexivity|]. split; [reflexivity|].
  split; [vm_compute; reflexivity|].
  split; [vm_compute; reflexivity|]. repeat split.
Qed.

(** The history file cannot be written: the learn stage still reports
    [stored = True] and the new length. *)
Example step_learn_write_failure :
  let X :=
    Sample.scripted
      {| Sample.bedrock_reply := Ok "{}";
         Sample.s3_reply := Ok tt;
         Sample.write_reply :=
           Raise (mk_exn (OtherError "PermissionError") "Permission denied");
         Sample.compliance_reply := [] |} in
  exists lr s',
    _step_learn (H := X) Sample.one_good_iteration (Sample.initial true)
      = (Ok lr, s') /\
    stored lr = true /\ history_length lr = 1 /\
    length (execution_history s') = 1.
Proof.
  intros X. do 2 eexists. split; [vm_compute; reflexivity|]. repeat split.
Qed.

(** Scenario A: empty history, safety mode, decision maker unreachable. *)
Example safety_mode_scenario_a :
  let X := Sample.scripted (Sample.s3_raises Sample.access_denied) in
  exists ir reason chaos validate,
    fst (_run_single_iteration (H := X) ChaosSecTypes chaossec None
           (Sample.initial true)) = Ok ir /\
    status ir = Some "success" /\
    steps_keys (steps ir) = stage_names /\
    steps_reason (steps ir) = Some reason /\
    dict_get reason "chaos_type" = Some (VStr "make_s3_public") /\
    dict_get reason "fallback" = Some (VBool true) /\
    steps_chaos ChaosSecTypes (steps ir) = Some chaos /\
    dict_get chaos "applied" = Some (VBool false) /\
    steps_validate (steps ir) = Some validate /\
    outcome validate = "success_simulated" /\
    test_passed validate = true.
Proof.
  intros X. do 4 eexists. split; [vm_compute; reflexivity|].
  repeat split.
Qed.

(** The decision maker answers [{"chaos_type": 7}]: [chaos_type.lower()]
    raises in the inject stage and the iteration ends there. *)
Example step_inject_chaos_number :
  let X := Sample.scripted (Sample.quiet Sample.chaos_seven_text) in
  exists ir,
    fst (_run_single_iteration (H := X) ChaosSecTypes chaossec None
           (Sample.initial true)) = Ok ir /\
    status ir = Some "error" /\
    error ir = Some "'int' object has no attribute 'lower'" /\
    steps_keys (steps ir) = ["simulate"; "scan"; "reason"].
Proof.
  intros X. eexists. split; [vm_compute; reflexivity|]. repeat split.
Qed.

(** The decision maker answers [[]]: the normalizer raises, and
    [reason_next_chaos] answers with the default recommendation. *)
Example reason_next_chaos_array :
  let X := Sample.scripted (Sample.quiet "[]") in
  exists d a,
    fst (AgentBrain.analyze_history (H := X) [] 0) = Ok a /\
    fst (AgentBrain.reason_next_chaos (H := X)
           {| history_analysis := a; semgrep_findings := [];
              previous_tests := [] |} 0) = Ok d /\
    dict_get d "fallback" = Some (VBool true) /\
    dict_get d "chaos_type" = Some (VStr "make_s3_public").
Proof.
  intros X. do 2 eexists. split; [vm_compute; reflexivity|].
  split; [vm_compute; reflexivity|]. split; reflexivity.
Qed.

(* ================================================================== *)
(** * Further properties of the code *)
(* ================================================================== *)

Import Spec Orchestrator Trace Observe.

(** ** Every run of the sequencer *)

Section SequencerOutcome.
Context {Env : Type} `{Externals Env}.
Variable T : StageTypes.
Variable self : Stages (Env := Env) T.
Variable project_root : option string.

Lemma steps_scan_In (prev : list (StageResult T)) :
  In "scan" (steps_keys prev) -> exists x, steps_scan prev = Some x.
Proof.
  induction prev as [|r prev IH]; simpl; [tauto|].
  destruct r; simpl; intros [E|I]; try discriminate; eauto.
Qed.

Lemma steps_reason_In (prev : list (StageResult T)) :
  In "reason" (steps_keys prev) -> exists x, steps_reason prev = Some x.
Proof.
  induction prev as [|r prev IH]; simpl; [tauto|].
  destruct r; simpl; intros [E|I]; try discriminate; eauto.
Qed.

Lemma steps_chaos_In (prev : list (StageResult T)) :
  In "chaos" (steps_keys prev) -> exists x, steps_chaos T prev = Some x.
Proof.
  induction prev as [|r prev IH]; simpl; [tauto|].
  destruct r; simpl; intros [E|I]; try discriminate; eauto.
Qed.

Lemma steps_monitor_In (prev : list (StageResult T)) :
  In "monitor" (steps_keys prev) -> exists x, steps_monitor T prev = Some x.
Proof.
  induction prev as [|r prev IH]; simpl; [tauto|].
  destruct r; simpl; intros [E|I]; try discriminate; eauto.
Qed.

Lemma steps_validate_In (prev : list (StageResult T)) :
  In "validate" (steps_keys prev) -> exists x, steps_validate prev = Some x.
Proof.
  induction prev as [|r prev IH]; simpl; [tauto|].
  destruct r; simpl; intros [E|I]; try discriminate; eauto.
Qed.

(** While fewer than eight stages have completed, the next one exists. *)
Lemma stage_call_defined ir0 prev :
  steps_keys prev = firstn (length prev) stage_names ->
  length prev < 8 ->
  exists stage, stage_call T self project_root ir0 prev = Some stage.
Proof.
  intros K L. unfold stage_call.
  destruct (length prev) as [|[|[|[|[|[|[|[|n]]]]]]]]; try lia;
    cbn [firstn stage_names] in K;
    try (eexists; reflexivity).
  - destruct (steps_scan_In prev) as (x & ->); [rewrite K; simpl; tauto|].
    eexists; reflexivity.
  - destruct (steps_reason_In prev) as (x & ->); [rewrite K; simpl; tauto|].
    eexists; reflexivity.
  - destruct (steps_chaos_In prev) as (x & ->); [rewrite K; simpl; tauto|].
    eexists; reflexivity.
  - destruct (steps_monitor_In prev) as (x & ->); [rewrite K; simpl; tauto|].
    destruct (steps_reason_In prev) as (y & ->); [rewrite K; simpl; tauto|].
    eexists; reflexivity.
  - destruct (steps_chaos_In prev) as (x & ->); [rewrite K; simpl; tauto|].
    destruct (steps_scan_In prev) as (y & ->); [rewrite K; simpl; tauto|].
    destruct (steps_monitor_In prev) as (z & ->); [rewrite K; simpl; tauto|].
    destruct (steps_validate_In prev) as (v & ->);
      [rewrite K; simpl; tauto|].
    eexists; reflexivity.
Qed.

Lemma steps_keys_snoc ir0 prev stage s r s' :
  steps_keys prev = firstn (length prev) stage_names ->
  stage_call T self project_root ir0 prev = Some stage ->
  stage s = (Ok r, s') ->
  steps_keys (prev ++ [r]) = firstn (length (prev ++ [r])) stage_names.
Proof.
  intros K C R. unfold steps_keys in *.
  rewrite map_app, length_app, K, Nat.add_1_r. simpl map.
  rewrite (stage_call_key _ _ _ _ _ _ _ _ _ C R).
  symmetry. apply firstn_succ_nth.
  apply stage_call_length in C. exact C.
Qed.

(** When no stage raises, all eight complete. *)
Lemma run_from_complete ir0 fuel prev s prev' s' :
  steps_keys prev = firstn (length prev) stage_names ->
  length prev + fuel = 8 ->
  run_from T self project_root ir0 fuel prev s = (prev', None, s') ->
  length prev' = 8.
Proof.
  revert prev s. induction fuel as [|fuel IH]; intros prev s K L.
  - simpl. intros [= <- <-]. lia.
  - rewrite run_from_S.
    destruct (stage_call_defined ir0 prev K) as (stage & C); [lia|].
    rewrite C.
    destruct (stage s) as [[r|e] s1] eqn:R; [|discriminate].
    apply IH.
    + eapply steps_keys_snoc; eauto.
    + rewrite length_app. simpl. lia.
Qed.

(** The stage that raised, when one did. *)
Lemma run_from_raised ir0 fuel prev s prev' e s' :
  run_from T self project_root ir0 fuel prev s = (prev', Some e, s') ->
  exists stage s1,
    stage_call T self project_root ir0 prev' = Some stage /\
    stage s1 = (Raise e, s').
Proof.
  revert prev s. induction fuel as [|fuel IH]; intros prev s.
  - simpl. discriminate.
  - rewrite run_from_S.
    destruct (stage_call T self project_root ir0 prev) as [stage|] eqn:C;
      [|discriminate].
    destruct (stage s) as [[r|x] s1] eqn:R.
    + apply IH.
    + intros [= <- <- <-]. eauto.
Qed.

(** X1.  Every call of the sequencer returns a result with a completion
    timestamp, and the result is of one of two kinds. Either all eight stages
    completed: the status is "success", there is no error text and the steps
    are keyed by the eight stage names in pipeline order. Or a stage raised:
    the status is "error", there is an error text, and the steps are keyed by
    the names of the [n < 8] stages before it. *)
Theorem run_single_iteration_outcome (s : State Env) :
  exists ir s',
    _run_single_iteration T self project_root s = (Ok ir, s') /\
    (exists finished, completed_at ir = Some finished) /\
    ((status ir = Some "success" /\ error ir = None /\
      steps_keys (steps ir) = stage_names) \/
     (status ir = Some "error" /\ (exists text, error ir = Some text) /\
      exists n, n < 8 /\ length (steps ir) = n /\
                steps_keys (steps ir) = firstn n stage_names)).
Proof.
  rewrite run_single_iteration_trace.
  destruct (begin_iteration T s) as [ir0 s0].
  destruct (run_stages T self project_root ir0 s0) as [[prev raised] s1] eqn:R.
  destruct (run_from_keys _ _ _ ir0 8 [] s0 prev raised s1 eq_refl R)
    as [K L].
  unfold finish. destruct raised as [e|];
    destruct (utcnow_isoformat _) as [finished e1];
    eexists; eexists; (split; [reflexivity|]);
    cbn [status error completed_at steps]; (split; [eauto|]).
  - right. split; [reflexivity|]. split; [eauto|].
    exists (length prev). split; [apply L; discriminate|]. split; auto.
  - left. split; [reflexivity|]. split; [reflexivity|].
    rewrite K.
    now rewrite (run_from_complete ir0 8 [] s0 prev s1 eq_refl eq_refl R).
Qed.

End SequencerOutcome.

(** ** The recommendation the reason stage returns *)

Section RecommendationFields.
Context {Env : Type} `{Externals Env}.
Import AgentBrain.

Lemma fill_required_not_dict fields (v : pyval) (r : res pyval)
    (e e' : Env) :
  (forall d, v <> VDict d) ->
  fill_required fields v e = (r, e') ->
  r = Ok v \/ exists x, r = Raise x /\ is_JSONDecodeError x = false.
Proof.
  intros N. revert e. induction fields as [|f fields IH]; intros e; simpl.
  - cbv [ret]. intros [= <- <-]. now left.
  - cbv [bind lift_res].
    destruct v as [|b|z|q|t|l|d0]; simpl;
      try (intros [= <- <-]; right; eexists; split; reflexivity);
      try (destruct (N d0 eq_refl)).
    + destruct (contains t f); simpl; [apply IH|].
      cbv [log_warning log modify].
      intros [= <- <-]; right; eexists; split; reflexivity.
    + destruct (existsb _ l); simpl; [apply IH|].
      cbv [log_warning log modify].
      intros [= <- <-]; right; eexists; split; reflexivity.
Qed.

(** A dictionary the normalizer returns has every required field. *)
Lemma parse_bedrock_response_fields (response : string) (d : dict pyval)
    (e e' : Env) :
  _parse_bedrock_response response e = (Ok (VDict d), e') ->
  forall f, In f required_fields -> dict_get d f <> None.
Proof.
  unfold _parse_bedrock_response, try_except, bind, lift_res.
  destruct (json_loads (unfence response)) as [v|x].
  - destruct v as [|b|z|q|t|l|d0];
      try (match goal with
           | |- context [fill_required ?fs ?v ?e] =>
               destruct (fill_required fs v e) as [r e1] eqn:F
           end;
           apply fill_required_not_dict in F; [|intros d1; discriminate];
           destruct F as [->|(x & -> & ->)]; discriminate).
    destruct (fill_required_dict required_fields d0 e) as (e2 & ->).
    intros E2 f I.
    assert (D : d = fill_missing required_fields d0) by congruence.
    rewrite D, fill_missing_field by exact I. discriminate.
  - destruct (is_JSONDecodeError x); [|discriminate].
    cbv [log_error log_debug log modify ret]. intros [= <- <-] f I.
    simpl in I. unfold parse_error_fallback.
    repeat (destruct I as [<-|I]; [discriminate|]). destruct I.
Qed.

Lemma reason_next_chaos_fields (context : Context) (e : Env) :
  exists d e',
    reason_next_chaos context e = (Ok d, e') /\
    forall f, In f required_fields -> dict_get d f <> None.
Proof.
  unfold reason_next_chaos.
  erewrite bind_ok by reflexivity.
  unfold try_except.
  destruct ((response <- call_bedrock (render_reasoning_prompt context) ;;
             recommendation <- _parse_bedrock_response response ;;
             recommendation <- lift_res (as_dict recommendation) ;;
             log_audit ;; ret recommendation) (logger_emit "INFO" e))
    as [[d|x] e1] eqn:B.
  - exists d, e1. split; [reflexivity|].
    revert B. cbv [bind lift_res].
    destruct (call_bedrock _ _) as [[response|x] e2]; [|discriminate].
    destruct (_parse_bedrock_response response e2) as [[v|x] e3] eqn:P;
      [|discriminate].
    destruct v; simpl; try discriminate.
    cbv [log_audit log modify ret]. intros [= <- <-].
    eapply parse_bedrock_response_fields; eauto.
  - cbv [is_Exception _fallback_recommendation bind log_error log_warning
         log modify ret].
    do 2 eexists. split; [reflexivity|]. intros f I. simpl in I.
    repeat (destruct I as [<-|I]; [discriminate|]). destruct I.
Qed.

Lemma analyze_history_returns (h : list HistoryEntry) (e : Env) :
  exists a e', analyze_history h e = (Ok a, e').
Proof.
  destruct h; cbv [analyze_history bind log_info log_debug log modify ret];
    eauto.
Qed.

(** X2.  Whatever the model answers, and whether or not the call to it
    returns, the reason stage returns a recommendation that has all five
    required fields; it changes neither the history nor the configuration. *)
Theorem step_reason_required_fields (scan_result : ScanResults)
    (s : State Env) :
  exists d s',
    _step_reason scan_result s = (Ok d, s') /\
    (forall f, In f required_fields -> dict_get d f <> None) /\
    execution_history s' = execution_history s /\
    config_safety_mode s' = config_safety_mode s.
Proof.
  unfold _step_reason. erewrite bind_ok by reflexivity.
  destruct (analyze_history_returns (execution_history s) (env s))
    as (a & e1 & E).
  erewrite bind_ok; [|rewrite call_run, E; reflexivity].
  rewrite call_run. cbn [fst snd env with_env].
  match goal with
  | |- context [reason_next_chaos ?c e1] =>
      destruct (reason_next_chaos_fields c e1) as (d & e2 & -> & F)
  end.
  do 2 eexists. split; [reflexivity|]. split; [exact F|]. split; reflexivity.
Qed.

Lemma step_reason_returns (scan_result : ScanResults) (s : State Env) :
  exists d s', _step_reason scan_result s = (Ok d, s').
Proof.
  unfold _step_reason. erewrite bind_ok by reflexivity.
  destruct (analyze_history_returns (execution_history s) (env s))
    as (a & e1 & E).
  erewrite bind_ok; [|rewrite call_run, E; reflexivity].
  rewrite call_run. cbn [fst snd env with_env].
  match goal with
  | |- context [reason_next_chaos ?c e1] =>
      destruct (reason_next_chaos_returns c e1) as (d & e2 & ->)
  end.
  do 2 eexists. reflexivity.
Qed.

End RecommendationFields.

(** ** The stages of one iteration *)

Section StageShape.
Context {Env : Type} `{Externals Env}.
Variable T : StageTypes.
Variable self : Stages (Env := Env) T.
Variable project_root : option string.

Lemma stage_call_shape ir0 prev stage :
  stage_call T self project_root ir0 prev = Some stage ->
  stage_shape T self project_root ir0 prev (length prev) stage.
Proof.
  unfold stage_call.
  destruct (length prev) as [|[|[|[|[|[|[|[|n]]]]]]]];
    repeat match goal with
           | |- context [match ?o with Some _ => _ | None => _ end] =>
               destruct o eqn:?
           end;
    try discriminate; intros [= <-]; econstructor; eauto.
Qed.

(** A property of the results so far and the state that every stage
    keeps, whether it returns or raises, holds when the stages stop. *)
Lemma run_from_inv (Inv : list (StageResult T) -> State Env -> Prop) ir0 :
  (forall prev stage s r s',
     Inv prev s -> stage_call T self project_root ir0 prev = Some stage ->
     stage s = (Ok r, s') -> Inv (prev ++ [r])%list s') ->
  (forall prev stage s e s',
     Inv prev s -> stage_call T self project_root ir0 prev = Some stage ->
     stage s = (Raise e, s') -> Inv prev s') ->
  forall fuel prev s prev' raised s',
    Inv prev s ->
    run_from T self project_root ir0 fuel prev s = (prev', raised, s') ->
    Inv prev' s'.
Proof.
  intros StepOk StepRaise.
  induction fuel as [|fuel IH]; intros prev s prev' raised s' I.
  - simpl. now intros [= <- <- <-].
  - rewrite run_from_S.
    destruct (stage_call T self project_root ir0 prev) as [stage|] eqn:C.
    + destruct (stage s) as [[r|e] s1] eqn:R.
      * apply IH. eapply StepOk; eauto.
      * intros [= <- <- <-]. eapply StepRaise; eauto.
    + now intros [= <- <- <-].
Qed.

End StageShape.

Section FailingStage.
Context {Env : Type} `{Externals Env}.

Lemma chaossec_stage_raises project_root ir0 prev stage
    (s s' : State Env) e :
  stage_call ChaosSecTypes chaossec project_root ir0 prev = Some stage ->
  stage s = (Raise e, s') ->
  In (nth (length prev) stage_names EmptyString)
     ["scan"; "chaos"; "monitor"; "report"].
Proof.
  intros C R. apply stage_call_shape in C.
  inversion C as [L E|L E|a L E|a A L E|a A L E|a b L E|a b c d L E|L E];
    subst stage; rewrite stage_run in R;
    cbn [step_simulate step_scan step_reason step_inject_chaos step_monitor
         step_validate step_report step_learn chaossec] in R;
    simpl; try tauto.
  - destruct (step_simulate_returns (logged s)) as (d & s1 & E1 & _).
    rewrite E1 in R. discriminate.
  - destruct (step_reason_returns a (logged s)) as (d & s1 & E1).
    rewrite E1 in R. discriminate.
  - rewrite step_validate_run in R. discriminate.
  - destruct (step_learn_entry (with_steps ChaosSecTypes ir0 prev) (logged s))
      as (lr & s1 & entry & E1 & _).
    rewrite E1 in R. discriminate.
Qed.


End FailingStage.

(** ** The in-memory history *)

Section KeepsHistory.
Context {Env : Type} `{Externals Env}.

Lemma keeps_history_ret {A} (a : A) : keeps_history (Env := Env) (ret a).
Proof. intros s r s'. cbv [ret]. now intros [= <- <-]. Qed.

Lemma keeps_history_bind {A B} (m : M (State Env) A)
    (k : A -> M (State Env) B) :
  keeps_history m -> (forall a, keeps_history (Env := Env) (k a)) ->
  keeps_history (Env := Env) (bind m k).
Proof.
  intros Km Kk s r s'. unfold bind.
  destruct (m s) as [[a|e] s1] eqn:E.
  - intros R. rewrite (Kk a _ _ _ R). eapply Km; eauto.
  - intros [= <- <-]. eapply Km; eauto.
Qed.

Lemma keeps_history_call {A} (m : M Env A) :
  keeps_history (Env := Env) (call m).
Proof. intros s r s'. rewrite call_run. now intros [= <- <-]. Qed.

Lemma keeps_history_get : keeps_history (Env := Env) (get (S := State Env)).
Proof. intros s r s'. cbv [get]. now intros [= <- <-]. Qed.

Lemma keeps_history_lift_res {A} (r : res A) :
  keeps_history (Env := Env) (lift_res r).
Proof. intros s r' s'. cbv [lift_res]. now intros [= <- <-]. Qed.

Lemma keeps_history_set_twin v :
  keeps_history (Env := Env) (set_current_twin_id v).
Proof.
  intros s r s'. cbv [set_current_twin_id modify]. now intros [= <- <-].
Qed.

Ltac keeps_h :=
  repeat first
    [ apply keeps_history_ret | apply keeps_history_call
    | apply keeps_history_get | apply keeps_history_lift_res
    | apply keeps_history_set_twin
    | apply keeps_history_bind; [|intros]
    | match goal with
      | |- keeps_history (match ?x with _ => _ end) => destruct x
      end ].

Lemma keeps_history_step_simulate :
  keeps_history (Env := Env) _step_simulate.
Proof. unfold _step_simulate. keeps_h. Qed.

Lemma keeps_history_step_scan root :
  keeps_history (Env := Env) (_step_scan root).
Proof. unfold _step_scan. keeps_h. Qed.

Lemma keeps_history_step_reason scan_result :
  keeps_history (Env := Env) (_step_reason scan_result).
Proof. unfold _step_reason. keeps_h. Qed.

Lemma keeps_history_step_inject_chaos reasoning_result :
  keeps_history (Env := Env) (_step_inject_chaos reasoning_result).
Proof. unfold _step_inject_chaos. keeps_h. Qed.

Lemma keeps_history_step_monitor chaos_result :
  keeps_history (Env := Env) (_step_monitor chaos_result).
Proof. unfold _step_monitor. keeps_h. Qed.

Lemma keeps_history_step_validate monitoring_result reasoning_result :
  keeps_history (Env := Env)
    (_step_validate monitoring_result reasoning_result).
Proof.
  intros s r s'. rewrite step_validate_run. now intros [= <- <-].
Qed.

Lemma keeps_history_step_report chaos_result scan_result monitoring_result
    validation_result :
  keeps_history (Env := Env)
    (_step_report chaos_result scan_result monitoring_result
       validation_result).
Proof. unfold _step_report. keeps_h. Qed.

(** The entry the learn stage appends. *)
Lemma step_learn_appends (iteration_result : IterationResult ChaosSecTypes)
    (s : State Env) :
  exists lr s' entry,
    _step_learn iteration_result s = (Ok lr, s') /\
    execution_history s' = (execution_history s ++ [entry])%list /\
    config_safety_mode s' = config_safety_mode s /\
    he_iteration_id entry = Some (iteration_id iteration_result) /\
    he_outcome entry =
      option_map outcome (steps_validate (steps iteration_result)) /\
    he_failure_type entry = None.
Proof.
  destruct s as [safety cid twin history e].
  cbv [_step_learn bind append_history modify get try_except call ret
       is_Exception log_info log_error log].
  cbn [config_safety_mode correlation_id current_twin_id execution_history
       env].
  destruct (write_history_file _ _ e) as [[[]|x] e1];
    do 3 eexists; (split; [reflexivity|]); repeat split.
Qed.

Lemma steps_validate_snoc_learn (prev : list (StageResult ChaosSecTypes))
    (lr : LearnResult) :
  steps_validate (prev ++ [@R_learn ChaosSecTypes lr])%list
    = steps_validate prev.
Proof.
  induction prev as [|r prev IH]; simpl; [reflexivity|].
  destruct r; auto.
Qed.

End KeepsHistory.

Section IterationHistory.
Context {Env : Type} `{Externals Env}.

Lemma stage_keeps_history {R} (m : M (State Env) R)
    (mk : R -> StageResult ChaosSecTypes) (s : State Env) r s' :
  keeps_history m ->
  (call log_info ;; x <- m ;; ret (mk x)) s = (r, s') ->
  execution_history s' = execution_history s.
Proof.
  intros K E.
  assert (K' : keeps_history (Env := Env)
                 (call log_info ;; x <- m ;; ret (mk x))).
  { apply keeps_history_bind; [apply keeps_history_call|intros _].
    apply keeps_history_bind; [exact K|intros x].
    apply keeps_history_ret. }
  exact (K' _ _ _ E).
Qed.

Lemma chaossec_stage_history project_root ir0 prev stage
    (s s' : State Env) r :
  stage_call ChaosSecTypes chaossec project_root ir0 prev = Some stage ->
  stage s = (r, s') ->
  length prev <> 7 ->
  execution_history s' = execution_history s.
Proof.
  intros C R N. apply stage_call_shape in C.
  inversion C as [L E|L E|a L E|a A L E|a A L E|a b L E|a b c d L E|L E];
    subst stage;
    cbn [step_simulate step_scan step_reason step_inject_chaos step_monitor
         step_validate step_report step_learn chaossec] in R;
    try (eapply stage_keeps_history; [|exact R]).
  - apply keeps_history_step_simulate.
  - apply keeps_history_step_scan.
  - apply keeps_history_step_reason.
  - apply keeps_history_step_inject_chaos.
  - apply keeps_history_step_monitor.
  - apply keeps_history_step_validate.
  - apply keeps_history_step_report.
  - congruence.
Qed.

Lemma run_stages_history project_root ir0 (s : State Env) prev raised s' :
  run_stages ChaosSecTypes chaossec project_root ir0 s = (prev, raised, s') ->
  history_after (execution_history s) ir0 prev s'.
Proof.
  unfold run_stages.
  apply (run_from_inv ChaosSecTypes chaossec project_root
           (history_after (execution_history s) ir0) ir0).
  - intros prev0 stage s0 r s1 [Before _] C R.
    pose proof (stage_call_length _ _ _ _ _ _ C) as L.
    specialize (Before L).
    destruct (Nat.eq_dec (length prev0) 7) as [E7|N7].
    + split; [rewrite length_app; simpl; lia|intros _].
      apply stage_call_shape in C. rewrite E7 in C.
      inversion C as [| | | | | | |L' E]. subst stage.
      rewrite stage_run in R. cbn [step_learn chaossec] in R.
      destruct (step_learn_appends (with_steps ChaosSecTypes ir0 prev0)
                  (logged s0))
        as (lr & s2 & entry & E1 & Hh & _ & Hid & Ho & Hf).
      rewrite E1 in R. injection R as <- <-.
      exists entry. cbn [execution_history logged with_env] in Hh.
      rewrite Hh, Before. split; [reflexivity|].
      split; [exact Hid|]. split; [|exact Hf].
      rewrite Ho. cbn [steps with_steps].
      now rewrite steps_validate_snoc_learn.
    + split; [intros _|rewrite length_app; simpl; lia].
      rewrite <- Before.
      eapply chaossec_stage_history; eauto.
  - intros prev0 stage s0 e s1 [Before _] C R.
    pose proof (stage_call_length _ _ _ _ _ _ C) as L.
    split; [intros _|lia].
    rewrite <- (Before L).
    destruct (Nat.eq_dec (length prev0) 7) as [E7|N7];
      [|eapply chaossec_stage_history; eauto].
    apply stage_call_shape in C. rewrite E7 in C.
    inversion C as [| | | | | | |L' E]. subst stage.
    rewrite stage_run in R. cbn [step_learn chaossec] in R.
    destruct (step_learn_appends (with_steps ChaosSecTypes ir0 prev0)
                (logged s0)) as (lr & s2 & entry & E1 & _).
    rewrite E1 in R. discriminate.
  - split; [reflexivity|simpl; lia].
Qed.

Lemma begin_iteration_history (s s0 : State Env)
    (ir0 : IterationResult ChaosSecTypes) :
  begin_iteration ChaosSecTypes s = (ir0, s0) ->
  execution_history s0 = execution_history s /\
  config_safety_mode s0 = config_safety_mode s.
Proof.
  unfold begin_iteration.
  destruct (time_time (env s)) as [now e1].
  destruct (utcnow_isoformat e1) as [started e2].
  now intros [= <- <-].
Qed.


(** The same, counted: for the run loop. *)
Lemma iteration_history_counted (project_root : option string)
    (s : State Env) r s' :
  _run_single_iteration ChaosSecTypes chaossec project_root s = (r, s') ->
  exists ir new,
    r = Ok ir /\
    execution_history s' = (execution_history s ++ new)%list /\
    length new = count_success [ir] /\
    Forall (fun entry => he_failure_type entry = None) new.
Proof.
  rewrite run_single_iteration_trace.
  destruct (begin_iteration ChaosSecTypes s) as [ir0 s0] eqn:B.
  apply begin_iteration_history in B. destruct B as [B _].
  destruct (run_stages ChaosSecTypes chaossec project_root ir0 s0)
    as [[prev raised] s1] eqn:R.
  pose proof (run_stages_history _ _ _ _ _ _ R) as [Before After].
  rewrite B in Before, After.
  destruct (run_from_keys _ _ _ ir0 8 [] s0 prev raised s1 eq_refl R)
    as [K L].
  unfold finish. destruct raised as [e|];
    destruct (utcnow_isoformat _) as [finished e1];
    intros [= <- <-]; eexists; cbn [execution_history with_env].
  - exists []. split; [reflexivity|]. rewrite app_nil_r.
    split; [apply Before; apply L; discriminate|]. split; [reflexivity|].
    constructor.
  - destruct After as (entry & Hh & _ & _ & Hf);
      [exact (run_from_complete _ _ _ ir0 8 [] s0 prev s1 eq_refl eq_refl R)|].
    exists [entry]. split; [reflexivity|]. split; [exact Hh|].
    split; [reflexivity|]. now constructor.
Qed.

End IterationHistory.

(** ** A whole run *)

Section RunLoopTrace.
Context {Env : Type} `{Externals Env}.
Variable T : StageTypes.
Variable run_single_iteration :
  option string -> M (State Env) (IterationResult T).
Variable generate_report_summary : RunSummary T -> M Env string.
Variable max_iterations : Z.
Variable project_root : option string.

(** The run loop, step by step. *)
Lemma run_chaossec_loop_trace (s : State Env) :
  run_chaossec_loop T run_single_iteration generate_report_summary
    max_iterations project_root s =
  let r0 :=
    {| loop_started_at := fst (utcnow_isoformat (env (logged s)));
       loop_correlation_id := correlation_id s;
       iterations := [];
       loop_safety_mode := config_safety_mode s;
       loop_completed_at := None;
       loop_status := None;
       total_iterations := None;
       summary := None;
       loop_error := None |} in
  match
    run_iterations T run_single_iteration max_iterations project_root
      (range max_iterations) [] (begin_loop s)
  with
  | (done, Some e, s1) =>
      (Ok (set_loop_error T e (with_iterations r0 done)),
       with_env s1 (logger_emit "ERROR" (env s1)))
  | (done, None, s1) =>
      let (finished, e1) := utcnow_isoformat (env s1) in
      let r1 := set_loop_completed T finished (with_iterations r0 done) in
      match generate_report_summary r1 e1 with
      | (Ok text, e2) =>
          (Ok (set_loop_summary T text r1),
           with_env s1 (logger_emit "INFO" e2))
      | (Raise e, e2) =>
          (Ok (set_loop_error T e r1), with_env s1 (logger_emit "ERROR" e2))
      end
  end.
Proof.
  unfold run_chaossec_loop.
  erewrite bind_ok by (apply call_log_info).
  erewrite bind_ok by (apply call_utcnow).
  erewrite bind_ok by reflexivity.
  unfold with_local, try_except. unfold bind at 1.
  rewrite for_each_loop. cbn [iterations].
  change (with_env (logged s) (snd (utcnow_isoformat (env (logged s)))))
    with (begin_loop s).
  destruct (run_iterations T run_single_iteration max_iterations
              project_root (range max_iterations) [] (begin_loop s))
    as [[done [e|]] s1] eqn:R.
  - cbv [is_Exception bind lift call log_error log modify modify_local
         get_local fst snd].
    cbn [correlation_id config_safety_mode logged with_env]. reflexivity.
  - erewrite bind_ok; [|unfold lift; rewrite call_utcnow; reflexivity].
    cbv [bind modify_local get_local lift fst snd].
    rewrite call_run.
    destruct (utcnow_isoformat (env s1)) as [finished e1]. cbn [fst snd].
    cbn [env with_env correlation_id config_safety_mode logged].
    destruct (generate_report_summary _ e1) as [[text|e] e2]; cbn [fst snd].
    + cbv [call log_info log modify fst snd with_env]. reflexivity.
    + cbv [is_Exception call log_error log modify fst snd with_env].
      reflexivity.
Qed.

(** A property of the results so far and the state that an iteration and
    the delay keep holds when the iterations stop. *)
Lemma run_iterations_inv
    (Inv : list (IterationResult T) -> State Env -> Prop) :
  (forall acc s, Inv acc s -> Inv acc (logged s)) ->
  (forall acc s e, Inv acc s -> Inv acc (with_env s e)) ->
  (forall acc s ir s',
     Inv acc s -> run_single_iteration project_root s = (Ok ir, s') ->
     Inv (acc ++ [ir])%list s') ->
  (forall acc s e s',
     Inv acc s -> run_single_iteration project_root s = (Raise e, s') ->
     Inv acc s') ->
  forall indices acc s done raised s',
    Inv acc s ->
    run_iterations T run_single_iteration max_iterations project_root
      indices acc s = (done, raised, s') ->
    Inv done s'.
Proof.
  intros Log Env' StepOk StepRaise.
  induction indices as [|i indices IH]; intros acc s done raised s' I; simpl.
  - now intros [= <- <- <-].
  - destruct (run_single_iteration project_root (logged s))
      as [[ir|e] s1] eqn:R.
    + apply IH. destruct (i <? max_iterations - 1)%Z.
      * apply Env'. eapply StepOk; [|exact R]. now apply Log.
      * eapply StepOk; [|exact R]. now apply Log.
    + intros [= <- <- <-]. eapply StepRaise; [|exact R]. now apply Log.
Qed.

End RunLoopTrace.

Section RunLoopReturns.
Context {Env : Type} `{Externals Env}.
Variable T : StageTypes.
Variable run_single_iteration :
  option string -> M (State Env) (IterationResult T).
Variable max_iterations : Z.
Variable project_root : option string.

Lemma run_iterations_all indices acc (s : State Env) done raised s' :
  (forall s0, exists ir s1,
     run_single_iteration project_root s0 = (Ok ir, s1)) ->
  run_iterations T run_single_iteration max_iterations project_root
    indices acc s = (done, raised, s') ->
  raised = None /\ length done = length acc + length indices.
Proof.
  intros Total. revert acc s.
  induction indices as [|i indices IH]; intros acc s; simpl.
  - intros [= <- <- <-]. split; [reflexivity|lia].
  - destruct (Total (logged s)) as (ir & s1 & ->).
    intros R. destruct (IH _ _ R) as [N L]. split; [exact N|].
    rewrite L, length_app. simpl. lia.
Qed.

End RunLoopReturns.

Lemma count_success_app {T} (a b : list (IterationResult T)) :
  count_success (a ++ b) = count_success a + count_success b.
Proof. unfold count_success. now rewrite filter_app, length_app. Qed.

Lemma range_length (n : Z) : length (range n) = Z.to_nat n.
Proof. unfold range. now rewrite length_map, length_seq. Qed.

Section WholeRun.
Context {Env : Type} `{Externals Env}.
Variable generate_report_summary : RunSummary ChaosSecTypes -> M Env string.
Variable max_iterations : Z.
Variable project_root : option string.

Lemma chaossec_stage_config root ir0 prev stage (s s' : State Env) r :
  stage_call ChaosSecTypes chaossec root ir0 prev = Some stage ->
  stage s = (r, s') ->
  config_safety_mode s' = config_safety_mode s.
Proof.
  intros C R. apply stage_call_shape in C.
  assert (W : forall R0 (m : M (State Env) R0)
                (mk : R0 -> StageResult ChaosSecTypes),
             keeps_config m ->
             keeps_config (Env := Env)
               (call log_info ;; x <- m ;; ret (mk x))).
  { intros R0 m mk K.
    apply keeps_bind; [apply keeps_call|intros _].
    apply keeps_bind; [exact K|intros x]. apply keeps_ret. }
  inversion C as [L E|L E|a L E|a A L E|a A L E|a b L E|a b c d L E|L E];
    subst stage;
    cbn [step_simulate step_scan step_reason step_inject_chaos step_monitor
         step_validate step_report step_learn chaossec] in R;
    (eapply W; [|exact R]).
  - apply keeps_step_simulate.
  - apply keeps_step_scan.
  - apply keeps_step_reason.
  - apply keeps_step_inject_chaos.
  - apply keeps_step_monitor.
  - apply keeps_step_validate.
  - apply keeps_step_report.
  - apply keeps_step_learn.
Qed.

Lemma chaossec_iteration_returns root (s : State Env) :
  exists ir s',
    _run_single_iteration ChaosSecTypes chaossec root s = (Ok ir, s').
Proof.
  destruct (run_single_iteration_returns ChaosSecTypes chaossec root s)
    as (ir & s' & E & _). eauto.
Qed.

Lemma chaossec_iteration_config root (s : State Env) r s' :
  _run_single_iteration ChaosSecTypes chaossec root s = (r, s') ->
  config_safety_mode s' = config_safety_mode s.
Proof.
  rewrite run_single_iteration_trace.
  destruct (begin_iteration ChaosSecTypes s) as [ir0 s0] eqn:B.
  apply begin_iteration_history in B. destruct B as [_ B].
  destruct (run_stages ChaosSecTypes chaossec root ir0 s0)
    as [[prev raised] s1] eqn:R.
  assert (C : config_safety_mode s1 = config_safety_mode s0).
  { revert R. unfold run_stages.
    apply (run_from_inv ChaosSecTypes chaossec root
             (fun _ s2 => config_safety_mode s2 = config_safety_mode s0)
             ir0).
    - intros prev0 stage s2 r0 s3 I C R.
      rewrite <- I. eapply chaossec_stage_config; eauto.
    - intros prev0 stage s2 r0 s3 I C R.
      rewrite <- I. eapply chaossec_stage_config; eauto.
    - reflexivity. }
  unfold finish. destruct raised as [e|];
    destruct (utcnow_isoformat _) as [finished e1];
    intros [= <- <-]; cbn [config_safety_mode with_env]; congruence.
Qed.


End WholeRun.

Section SafeRun.
Context {Env : Type} `{Externals Env}.
Variable generate_report_summary : RunSummary ChaosSecTypes -> M Env string.
Variable max_iterations : Z.
Variable project_root : option string.

Lemma chaossec_iteration_safe root (s : State Env) r s' :
  config_safety_mode s = true ->
  _run_single_iteration ChaosSecTypes chaossec root s = (r, s') ->
  exists ir, r = Ok ir /\ Forall safe_result (steps ir).
Proof.
  intros S. rewrite run_single_iteration_trace.
  destruct (begin_iteration ChaosSecTypes s) as [ir0 s0] eqn:B.
  apply begin_iteration_history in B. destruct B as [_ B].
  destruct (run_stages ChaosSecTypes chaossec root ir0 s0)
    as [[prev raised] s1] eqn:R.
  assert (I : config_safety_mode s1 = true /\ Forall safe_result prev).
  { revert R. unfold run_stages.
    apply (run_from_inv ChaosSecTypes chaossec root
             (fun prev0 s2 =>
                config_safety_mode s2 = true /\ Forall safe_result prev0)
             ir0).
    - intros prev0 stage s2 r0 s3 [I F] C R.
      destruct (chaossec_stage_safe _ _ _ _ _ _ _ I C R) as [I' Q].
      split; [exact I'|]. apply Forall_app. split; [exact F|].
      now constructor.
    - intros prev0 stage s2 r0 s3 [I F] C R. split; [|exact F].
      rewrite <- I. eapply chaossec_stage_config; eauto.
    - split; [congruence|constructor]. }
  unfold finish. destruct raised as [e|];
    destruct (utcnow_isoformat _) as [finished e1];
    intros [= <- <-]; eexists; (split; [reflexivity|]); apply I.
Qed.

(** X6.  Safety mode holds for a whole run. When the flag is set, every stage
    result of every iteration of the run is a safe one: the simulate stage
    reports no [applied], the chaos stage reports [applied = False], the
    validate stage reports the simulated success. The summary says the run was
    in safety mode. *)
Theorem safety_mode_whole_run (s : State Env) :
  config_safety_mode s = true ->
  exists r s',
    run_chaossec_loop ChaosSecTypes
      (_run_single_iteration ChaosSecTypes chaossec)
      generate_report_summary max_iterations project_root s = (Ok r, s') /\
    loop_safety_mode r = true /\
    config_safety_mode s' = true /\
    forall ir step,
      In ir (iterations r) -> In step (steps ir) -> safe_result step.
Proof.
  intros S. rewrite run_chaossec_loop_trace.
  destruct (run_iterations ChaosSecTypes
              (_run_single_iteration ChaosSecTypes chaossec) max_iterations
              project_root (range max_iterations) [] (begin_loop s))
    as [[done raised] s1] eqn:R.
  assert (I : config_safety_mode s1 = true /\
              Forall (fun ir => Forall safe_result (steps ir)) done).
  { revert R.
    apply (run_iterations_inv ChaosSecTypes
             (_run_single_iteration ChaosSecTypes chaossec) max_iterations
             project_root
             (fun acc s2 =>
                config_safety_mode s2 = true /\
                Forall (fun ir => Forall safe_result (steps ir)) acc)).
    - intros acc s2 I. exact I.
    - intros acc s2 e I. exact I.
    - intros acc s2 ir s3 [I F] E.
      split; [now rewrite (chaossec_iteration_config _ _ _ _ E)|].
      destruct (chaossec_iteration_safe _ _ _ _ I E) as (ir' & Eq & Q).
      injection Eq as <-. apply Forall_app. split; [exact F|].
      now constructor.
    - intros acc s2 e s3 [I F] E. split; [|exact F].
      now rewrite (chaossec_iteration_config _ _ _ _ E).
    - split; [exact S|constructor]. }
  destruct I as [I F].
  assert (Q : forall ir step, In ir done -> In step (steps ir) ->
                safe_result step).
  { intros ir step Hi Hs. rewrite Forall_forall in F.
    specialize (F ir Hi). rewrite Forall_forall in F. now apply F. }
  destruct raised as [e|].
  - do 2 eexists. split; [reflexivity|].
    cbn [iterations set_loop_error with_iterations config_safety_mode
         loop_safety_mode with_env]. auto.
  - cbv zeta. destruct (utcnow_isoformat (env s1)) as [finished e1].
    destruct (generate_report_summary _ e1) as [[text|e] e2];
      do 2 eexists; (split; [reflexivity|]);
      cbn [iterations set_loop_summary set_loop_error set_loop_completed
           with_iterations config_safety_mode loop_safety_mode with_env];
      auto.
Qed.

End SafeRun.

(** Two iterations in safety mode. *)
Lemma safety_mode_whole_run_witness :
  let X := Sample.scripted (Sample.quiet "{}") in
  let s := Sample.initial true in
  config_safety_mode s = true /\
  exists r s',
    run_chaossec_loop (H := X) ChaosSecTypes
      (_run_single_iteration ChaosSecTypes chaossec)
      (fun _ => ret "summary") 2 None s = (Ok r, s') /\
    loop_safety_mode r = true /\
    config_safety_mode s' = true /\
    forall ir step,
      In ir (iterations r) -> In step (steps ir) -> safe_result step.
Proof.
  intros X s. split; [reflexivity|].
  exact (safety_mode_whole_run (H := X) (fun _ => ret "summary") 2 None s
           eq_refl).
Defined.

(** ** The delay between iterations *)

Section Delay.
Context {Env : Type} `{Externals Env}.
Variable T : StageTypes.
Variable run_single_iteration :
  option string -> M (State Env) (IterationResult T).
Variable generate_report_summary : RunSummary T -> M Env string.
Variable max_iterations : Z.
Variable project_root : option string.

(** An observation of the environment that counts the calls of
    [time.sleep]. *)
Variable sleeps : Env -> nat.
Hypothesis sleeps_sleep : forall d e, sleeps (time_sleep d e) = S (sleeps e).
Hypothesis sleeps_log : forall level e, sleeps (logger_emit level e) = sleeps e.
Hypothesis sleeps_clock :
  forall e, sleeps (snd (utcnow_isoformat e)) = sleeps e.
Hypothesis sleeps_iteration :
  forall s r s',
    run_single_iteration project_root s = (r, s') ->
    sleeps (env s') = sleeps (env s).
Hypothesis sleeps_summary :
  forall r e x e',
    generate_report_summary r e = (x, e') -> sleeps e' = sleeps e.

Lemma run_iterations_sleeps (first count : nat) acc (s : State Env)
    done raised s' :
  first + count = Z.to_nat max_iterations ->
  length acc = first ->
  run_iterations T run_single_iteration max_iterations project_root
    (map Z.of_nat (seq first count)) acc s = (done, raised, s') ->
  sleeps (env s') + Nat.min first (Z.to_nat max_iterations - 1) =
  sleeps (env s) + Nat.min (length done) (Z.to_nat max_iterations - 1).
Proof.
  revert first acc s. induction count as [|count IH]; intros first acc s N L.
  - simpl. intros [= <- <- <-]. now rewrite L.
  - cbn [seq map run_iterations].
    destruct (run_single_iteration project_root (logged s))
      as [[ir|e] s1] eqn:R.
    + apply sleeps_iteration in R. cbn [logged with_env env] in R.
      rewrite sleeps_log in R.
      intros E. apply IH in E; [| lia | rewrite length_app; simpl; lia].
      destruct (Z.ltb_spec (Z.of_nat first) (max_iterations - 1)) as [Lt|Ge].
      * cbn [env with_env logged] in E.
        rewrite sleeps_sleep, sleeps_log in E. lia.
      * lia.
    + intros [= <- <- <-]. apply sleeps_iteration in R.
      cbn [logged with_env env] in R. rewrite sleeps_log in R. lia.
Qed.

(** X7.  The run loop sleeps between iterations and not after the last one:
    when neither the sequencer nor the summary generator sleeps, a run has
    slept once for each iteration result it holds, except that the last of the
    [max_iterations] iterations is not followed by a delay. *)
Theorem run_chaossec_loop_delays (s : State Env) r s' :
  run_chaossec_loop T run_single_iteration generate_report_summary
    max_iterations project_root s = (Ok r, s') ->
  sleeps (env s') =
    sleeps (env s) +
    Nat.min (length (iterations r)) (Z.to_nat max_iterations - 1).
Proof.
  rewrite run_chaossec_loop_trace.
  destruct (run_iterations T run_single_iteration max_iterations
              project_root (range max_iterations) [] (begin_loop s))
    as [[done raised] s1] eqn:R.
  unfold range in R.
  apply (run_iterations_sleeps 0 (Z.to_nat max_iterations)) in R;
    [|lia|reflexivity].
  cbn [begin_loop with_env env Nat.min] in R.
  rewrite sleeps_clock, sleeps_log, Nat.add_0_r in R.
  destruct raised as [e|].
  - intros [= <- <-].
    cbn [iterations set_loop_error with_iterations env with_env].
    now rewrite sleeps_log.
  - cbv zeta. destruct (utcnow_isoformat (env s1)) as [finished e1] eqn:U.
    assert (U1 : sleeps e1 = sleeps (env s1)).
    { rewrite <- (sleeps_clock (env s1)), U. reflexivity. }
    destruct (generate_report_summary _ e1) as [[text|e] e2] eqn:G;
      apply sleeps_summary in G; intros [= <- <-];
      cbn [iterations set_loop_summary set_loop_error set_loop_completed
           with_iterations env with_env];
      rewrite sleeps_log; lia.
Qed.

End Delay.

(** Three iterations, each followed by a delay but the last. *)
Lemma run_chaossec_loop_delays_witness :
  let X := counting_sleeps in
  let s := Sample.initial true in
  let sequencer := fun _ : option string => ret Sample.one_good_iteration in
  let generator := fun _ : RunSummary ChaosSecTypes => ret "summary" in
  exists r s',
    run_chaossec_loop (H := X) ChaosSecTypes sequencer generator 3 None s
      = (Ok r, s') /\
    env s' =
      env s + Nat.min (length (iterations r)) (Z.to_nat 3 - 1).
Proof.
  intros X s sequencer generator. do 2 eexists.
  split; [vm_compute; reflexivity|].
  apply (run_chaossec_loop_delays (H := X) ChaosSecTypes sequencer generator
           3 None (fun e => e)).
  - reflexivity.
  - reflexivity.
  - reflexivity.
  - intros s0 r s1. cbv [sequencer ret]. now intros [= <- <-].
  - intros r e x e'. cbv [generator ret]. now intros [= <- <-].
  - vm_compute. reflexivity.
Defined.

(** ** The scan stage *)

Section ScanFacts.
Context {Env : Type} `{Externals Env}.


End ScanFacts.


(** ** The simulate stage *)

Section SimulateFacts.
Context {Env : Type} `{Externals Env}.

(** X9.  The simulate stage never raises. It records the identifier of the
    twin as the current one exactly when the identifier is truthy; when the
    provider call raises, the result carries [twin_id = None] and [status =
    "error"] with the error text, and the current twin is the one from before.
    History and configuration are untouched. *)
Theorem step_simulate_twin (s : State Env) :
  exists d s',
    _step_simulate s = (Ok d, s') /\
    (let twin_id := SystemInitiative.option_val (dict_get d "twin_id") in
     current_twin_id s' =
       if truthy twin_id then twin_id else current_twin_id s) /\
    execution_history s' = execution_history s /\
    config_safety_mode s' = config_safety_mode s /\
    (forall x e1,
       si_post_twins (logger_emit "INFO" (env s)) = (Raise x, e1) ->
       d = [("twin_id", VNone); ("status", VStr "error");
            ("error", VStr (exn_str x))] /\
       current_twin_id s' = current_twin_id s).
Proof.
  destruct s as [safety cid twin history e].
  cbv [_step_simulate SystemInitiative.create_digital_twin try_except bind
       call log_info log_audit log_error log modify ret lift_res
       is_Exception set_current_twin_id].
  cbn [env config_safety_mode correlation_id current_twin_id
       execution_history].
  destruct (si_post_twins _) as [[v|x] e1].
  - destruct v as [|b|z|q|t|l|d0]; cbv [AgentBrain.as_dict];
      try (do 2 eexists; split; [reflexivity|]; cbn;
           repeat split; discriminate).
    cbn [dict_get String.eqb Ascii.eqb Bool.eqb SystemInitiative.option_val].
    destruct (truthy _) eqn:Tw; do 2 eexists; (split; [reflexivity|]);
      cbn [dict_get String.eqb Ascii.eqb Bool.eqb
           SystemInitiative.option_val current_twin_id execution_history
           config_safety_mode]; rewrite ?Tw; repeat split; discriminate.
  - do 2 eexists. split; [reflexivity|]. cbn.
    split; [reflexivity|]. split; [reflexivity|]. split; [reflexivity|].
    intros x0 e2 [= <- <-]. split; reflexivity.
Qed.

End SimulateFacts.

(** ** The S3 entry point and the two stages around it *)

Section S3Facts.
Context {Env : Type} `{Externals Env}.

(** X10.  Whenever [simulate_s3_bucket_misconfiguration] returns, in either
    direction, the result names the bucket and carries [applied] as a boolean,
    and [applied] is [True] exactly when safety mode is off and both S3 calls
    of that direction returned. The action is then reported in the past tense
    ("made_public", "fixed_public"), and as the intent ("make_public",
    "fix_public") otherwise. *)
Theorem simulate_s3_applied (bucket_name : pyval)
    (make_public safety_mode : bool) (e : Env) (r : dict pyval) (e' : Env) :
  AWSHandler.simulate_s3_bucket_misconfiguration bucket_name make_public
    safety_mode e = (Ok r, e') ->
  dict_get r "bucket" = Some bucket_name /\
  (exists applied,
     dict_get r "applied" = Some (VBool applied) /\
     (applied = true <->
      safety_mode = false /\
      exists e1,
        s3_calls bucket_name make_public (logger_emit "INFO" e)
          = (Ok tt, e1)) /\
     dict_get r "action" =
       Some (VStr (if applied then
                     if make_public then "made_public" else "fixed_public"
                   else
                     if make_public then "make_public" else "fix_public"))).
Proof.
  cbv [AWSHandler.simulate_s3_bucket_misconfiguration s3_calls bind
       try_except log_info log_warning log_audit log_error log modify ret].
  destruct safety_mode.
  - intros [= <- <-]. split; [reflexivity|]. exists false.
    split; [reflexivity|]. split; [|reflexivity].
    split; [discriminate|]. now intros [? _].
  - destruct make_public.
    + destruct (s3_delete_public_access_block bucket_name _) as [[[]|x] e1].
      * destruct (s3_put_bucket_acl bucket_name _ e1) as [[[]|x] e2].
        -- intros [= <- <-]. split; [reflexivity|]. exists true.
           split; [reflexivity|]. split; [|reflexivity].
           split; [eauto|reflexivity].
        -- destruct (is_ClientError x); [|discriminate].
           intros [= <- <-]. split; [reflexivity|]. exists false.
           split; [reflexivity|]. split; [|reflexivity].
           split; [discriminate|]. now intros [_ [? ?]].
      * destruct (is_ClientError x); [|discriminate].
        intros [= <- <-]. split; [reflexivity|]. exists false.
        split; [reflexivity|]. split; [|reflexivity].
        split; [discriminate|]. now intros [_ [? ?]].
    + destruct (s3_put_public_access_block bucket_name _) as [[[]|x] e1].
      * destruct (s3_put_bucket_acl bucket_name _ e1) as [[[]|x] e2].
        -- intros [= <- <-]. split; [reflexivity|]. exists true.
           split; [reflexivity|]. split; [|reflexivity].
           split; [eauto|reflexivity].
        -- destruct (is_ClientError x); [|discriminate].
           intros [= <- <-]. split; [reflexivity|]. exists false.
           split; [reflexivity|]. split; [|reflexivity].
           split; [discriminate|]. now intros [_ [? ?]].
      * destruct (is_ClientError x); [|discriminate].
        intros [= <- <-]. split; [reflexivity|]. exists false.
        split; [reflexivity|]. split; [|reflexivity].
        split; [discriminate|]. now intros [_ [? ?]].
Qed.

End S3Facts.

(** X11.  In safety mode the chaos stage does not depend on the S3 client: two
    sets of collaborators that log alike give the same result and the same
    state, whatever their S3 clients (and anything else) do. *)
Theorem step_inject_chaos_safety_ignores_s3 {Env : Type}
    (X1 X2 : Externals Env) (reasoning_result : dict pyval)
    (s : State Env) :
  (forall level e,
     logger_emit (Externals := X1) level e =
     logger_emit (Externals := X2) level e) ->
  config_safety_mode s = true ->
  _step_inject_chaos (H := X1) reasoning_result s =
  _step_inject_chaos (H := X2) reasoning_result s.
Proof.
  intros L S.
  destruct (dict_get_default reasoning_result "chaos_type"
              (VStr "make_s3_public")) as [|b|z|q|c|l|d] eqn:C;
    try (unfold _step_inject_chaos; rewrite C; reflexivity).
  rewrite (step_inject_chaos_run (H := X1) _ _ _ C).
  rewrite (step_inject_chaos_run (H := X2) _ _ _ C).
  rewrite S, !simulate_in_safety_mode, !L. reflexivity.
Qed.

(** Two S3 clients, one that answers and one that refuses. *)
Lemma step_inject_chaos_safety_ignores_s3_witness :
  let X1 := Sample.scripted (Sample.quiet "{}") in
  let X2 := Sample.scripted (Sample.s3_raises Sample.no_endpoint) in
  let s := Sample.initial true in
  ((forall level e,
      logger_emit (Externals := X1) level e =
      logger_emit (Externals := X2) level e) /\
   config_safety_mode s = true) /\
  _step_inject_chaos (H := X1) [] s = _step_inject_chaos (H := X2) [] s.
Proof.
  intros X1 X2 s. split; [split; reflexivity|].
  apply (step_inject_chaos_safety_ignores_s3 X1 X2 [] s); reflexivity.
Defined.

Section MonitorTarget.
Context {Env : Type} `{Externals Env}.


End MonitorTarget.

(** A roll-back that both S3 calls accept. *)
Lemma simulate_s3_applied_witness :
  let X := Sample.scripted (Sample.quiet "{}") in
  exists r e',
    AWSHandler.simulate_s3_bucket_misconfiguration (H := X)
      (VStr "chaossec-test-bucket") false false 0 = (Ok r, e') /\
    dict_get r "bucket" = Some (VStr "chaossec-test-bucket") /\
    (exists applied,
       dict_get r "applied" = Some (VBool applied) /\
       (applied = true <->
        false = false /\
        exists e1,
          s3_calls (H := X) (VStr "chaossec-test-bucket") false
            (logger_emit (Externals := X) "INFO" 0) = (Ok tt, e1)) /\
       dict_get r "action" =
         Some (VStr (if applied then
                       if false then "made_public" else "fixed_public"
                     else
                       if false then "make_public" else "fix_public"))).
Proof.
  intros X. do 2 eexists. split; [reflexivity|].
  eapply (simulate_s3_applied (H := X) (VStr "chaossec-test-bucket") false
            false 0).
  reflexivity.
Defined.


(** ** The summary of the orchestrator's state *)

Section SummaryFacts.
Context {Env : Type} `{Externals Env}.

Lemma last_n_suffix {A} (n : nat) (xs : list A) :
  length (last_n n xs) = Nat.min n (length xs) /\
  exists older, xs = (older ++ last_n n xs)%list.
Proof.
  unfold last_n. split.
  - rewrite length_skipn. lia.
  - exists (firstn (length xs - n) xs). symmetry. apply firstn_skipn.
Qed.

(** [get_summary] changes nothing and reports the length of the history
    together with its last five entries (all of them when there are fewer),
    oldest first. *)
Theorem get_summary_recent (s : State Env) :
  exists v,
    get_summary s = (Ok v, s) /\
    execution_count v = length (execution_history s) /\
    summary_safety_mode v = config_safety_mode s /\
    length (recent_history v) = Nat.min 5 (execution_count v) /\
    exists older,
      execution_history s = (older ++ recent_history v)%list.
Proof.
  eexists. split; [reflexivity|]. cbn [execution_count recent_history
                                       summary_safety_mode].
  split; [reflexivity|]. split; [reflexivity|].
  destruct (execution_history s) as [|r h] eqn:E.
  - split; [reflexivity|]. now exists [].
  - apply last_n_suffix.
Qed.

End SummaryFacts.

(** ** Failure patterns *)

Section FailurePatterns.
Context {Env : Type} `{Externals Env}.
Import AgentBrain.

Lemma count_failure_untyped (c : nat) (r : HistoryEntry) :
  he_failure_type r = None ->
  count_failure (tally_unknown c) r =
    tally_unknown (c + count_outcome "failure" [r]).
Proof.
  intros U. unfold count_failure, count_outcome, failure_type_of.
  rewrite U. simpl. destruct (outcome_is "failure" r); simpl.
  - destruct c; simpl; [reflexivity|]. now rewrite Nat.add_1_r.
  - now rewrite Nat.add_0_r.
Qed.

Lemma fold_count_failure_untyped (h : list HistoryEntry) (c : nat) :
  Forall (fun r => he_failure_type r = None) h ->
  fold_left count_failure h (tally_unknown c) =
    tally_unknown (c + count_outcome "failure" h).
Proof.
  intros U. revert c. induction U as [|r h Ur Uh IH]; intros c; simpl.
  - now rewrite Nat.add_0_r.
  - rewrite count_failure_untyped by exact Ur. rewrite IH.
    f_equal. unfold count_outcome. simpl.
    destruct (outcome_is "failure" r); simpl; lia.
Qed.

(** X13.  When no entry of the history has a [failure_type] -- the learn stage
    writes none -- every failure is counted under "unknown": [common_failures]
    is empty when there is no failure and otherwise is the single pair of
    "unknown" and the number of failures. *)
Theorem analyze_history_untyped (h : list HistoryEntry) (e : Env) :
  Forall (fun r => he_failure_type r = None) h ->
  exists a e',
    analyze_history h e = (Ok a, e') /\
    common_failures a =
      map (fun f => {| fc_type := fst f; fc_count := snd f |})
        (tally_unknown (count_outcome "failure" h)).
Proof.
  intros U. destruct (analyze_history_returns h e) as (a & e' & E).
  exists a, e'. split; [exact E|].
  rewrite (common_failures_of h e a) by now rewrite E.
  change (@nil (string * nat)) with (tally_unknown 0).
  rewrite (fold_count_failure_untyped h 0 U). simpl.
  now destruct (count_outcome "failure" h).
Qed.

End FailurePatterns.

(** Two failures and a success, none with a [failure_type]. *)
Lemma analyze_history_untyped_witness :
  let X := Sample.scripted (Sample.quiet "{}") in
  let h := [Sample.entry "failure" None; Sample.entry "success" None;
            Sample.entry "failure" None] in
  Forall (fun r => he_failure_type r = None) h /\
  exists a e',
    AgentBrain.analyze_history (H := X) h 0 = (Ok a, e') /\
    common_failures a =
      map (fun f => {| fc_type := fst f; fc_count := snd f |})
        (tally_unknown (count_outcome "failure" h)).
Proof.
  intros X h.
  assert (U : Forall (fun r => he_failure_type r = None) h)
    by (repeat constructor).
  split; [exact U|].
  exact (analyze_history_untyped (H := X) h 0 U).
Defined.

Section TopThree.
Context {Env : Type} `{Externals Env}.
Import AgentBrain.

Lemma StronglySorted_app_rel {A} (R : A -> A -> Prop) (a b : list A) :
  StronglySorted R (a ++ b) ->
  forall x y, In x a -> In y b -> R x y.
Proof.
  induction a as [|z a IH]; simpl; intros S x y I J; [destruct I|].
  inversion S as [|? ? S' F]; subst.
  destruct I as [->|I]; [|now apply IH].
  rewrite Forall_forall in F. apply F. apply in_or_app. now right.
Qed.

Lemma NoDup_firstn_of {A} (n : nat) (l : list A) :
  NoDup l -> NoDup (firstn n l).
Proof.
  intros N. rewrite <- (firstn_skipn n l) in N.
  now apply NoDup_app_remove_r in N.
Qed.

Lemma In_firstn {A} (n : nat) (l : list A) (x : A) :
  In x (firstn n l) -> In x l.
Proof.
  intros I. rewrite <- (firstn_skipn n l). apply in_or_app. now left.
Qed.

Lemma dict_get_In {V} (d : dict V) k v :
  dict_get d k = Some v -> In (k, v) d.
Proof.
  induction d as [|[k' v'] d IH]; simpl; [discriminate|].
  destruct (String.eqb_spec k k') as [->|N].
  - intros [= ->]. now left.
  - intros G. right. now apply IH.
Qed.

Lemma filter_nil_find_index {A} (p : A -> bool) (l : list A) :
  filter p l = [] -> find_index p l = None.
Proof.
  induction l as [|x l IH]; simpl; [reflexivity|].
  destruct (p x); [discriminate|]. intros F. now rewrite IH.
Qed.

(** X14.  [common_failures] lists the most common failure types: its types are
    distinct, each comes with the number of failure entries of that type,
    which is at least one, and a failure type that occurs in the history but
    not in the list is no more common than any of the three that do. *)
Theorem common_failures_top_three (h : list HistoryEntry) (e : Env) :
  exists a e',
    analyze_history h e = (Ok a, e') /\
    NoDup (map fc_type (common_failures a)) /\
    (forall x, In x (common_failures a) ->
       1 <= fc_count x /\
       fc_count x = length (filter (is_failure_of (fc_type x)) h)) /\
    (forall t, 0 < length (filter (is_failure_of t) h) ->
       In t (map fc_type (common_failures a)) \/
       (length (common_failures a) = 3 /\
        forall x, In x (common_failures a) ->
          length (filter (is_failure_of t) h) <= fc_count x)).
Proof.
  destruct (analyze_history_returns h e) as (a & e' & E).
  exists a, e'. split; [exact E|].
  rewrite (common_failures_of h e a) by now rewrite E.
  set (d := fold_left count_failure h []).
  pose proof (tally_ok_fold h) as [Abs Cnt _]. fold d in Abs, Cnt.
  assert (N : NoDup (dict_keys d)) by (apply tally_NoDup; constructor).
  set (sorted := sorted_by_count_desc d).
  assert (Get : forall k c, In (k, c) sorted -> dict_get d k = Some c).
  { intros k c I. apply NoDup_keys_get; [exact N|].
    now apply sorted_by_count_desc_In. }
  rewrite map_map. cbn [fc_type].
  split; [|split].
  - rewrite <- firstn_map. apply NoDup_firstn_of.
    eapply Permutation_NoDup; [|exact N].
    symmetry. apply Permutation_map. apply sorted_by_count_desc_perm.
  - intros x I. apply in_map_iff in I. destruct I as ([k c] & <- & I).
    cbn [fc_type fc_count fst snd].
    apply In_firstn in I. apply Get in I.
    pose proof (Cnt _ _ I) as C. split; [|exact C].
    destruct (filter (is_failure_of k) h) eqn:F; [|subst c; simpl; lia].
    apply filter_nil_find_index in F. apply Abs in F. congruence.
  - intros t P.
    destruct (dict_get d t) as [c|] eqn:G.
    2:{ apply Abs in G. apply find_index_None_filter in G.
        rewrite G in P. simpl in P. lia. }
    pose proof (Cnt _ _ G) as C.
    apply dict_get_In in G. apply sorted_by_count_desc_In in G.
    fold sorted in G. rewrite <- (firstn_skipn 3 sorted) in G.
    apply in_app_or in G. destruct G as [G|G].
    + left. apply in_map_iff. exists (t, c). now split.
    + right. split.
      * rewrite length_map, length_firstn.
        assert (L : length (skipn 3 sorted) <> 0)
          by (destruct (skipn 3 sorted); [destruct G|discriminate]).
        rewrite length_skipn in L. lia.
      * intros x I. apply in_map_iff in I. destruct I as ([k c'] & <- & I).
        cbn [fc_count snd]. rewrite <- C.
        pose proof (sorted_by_count_desc_sorted d) as S. fold sorted in S.
        rewrite <- (firstn_skipn 3 sorted) in S.
        exact (StronglySorted_app_rel by_count_desc _ _ S _ _ I G).
Qed.

End TopThree.

(** ** The risk score *)

Section RiskFacts.
Import Risk.

Lemma add_factor_score (count weight : nat) (label : string)
    (acc : nat * list string) :
  fst (add_factor count weight label acc) = fst acc + count * weight.
Proof.
  unfold add_factor. destruct acc as [score factors].
  destruct count; simpl; lia.
Qed.

Lemma add_factor_factors (count weight : nat) (label : string)
    (acc : nat * list string) :
  snd (add_factor count weight label acc) = [] <->
  snd acc = [] /\ count = 0.
Proof.
  unfold add_factor. destruct acc as [score factors].
  destruct count; simpl.
  - tauto.
  - split; [|intros [_ E]; discriminate E].
    intros E. destruct factors; discriminate E.
Qed.

(** The score in closed form, and the level it gives. *)
Lemma evaluate_risk_score_closed (semgrep_findings : list (dict pyval))
    (config_compliance : list ComplianceRecord)
    (previous_failures : list HistoryEntry) :
  let r :=
    evaluate_risk_score semgrep_findings config_compliance
      previous_failures in
  let critical := length (filter is_critical semgrep_findings) in
  let non_compliant := length (filter is_non_compliant config_compliance) in
  let failures :=
    length (filter (AgentBrain.outcome_is "failure") previous_failures) in
  risk_score r =
    Nat.min (10 * critical + 5 * non_compliant + 3 * failures) 100 /\
  risk_level r =
    (if 70 <=? risk_score r then "HIGH"
     else if 40 <=? risk_score r then "MEDIUM"
     else if 20 <=? risk_score r then "LOW"
     else "MINIMAL") /\
  recommendation r = _get_risk_recommendation (risk_level r) /\
  (risk_factors r = [] <->
   critical = 0 /\ non_compliant = 0 /\ failures = 0).
Proof.
  intros r critical non_compliant failures. subst r.
  unfold evaluate_risk_score. rewrite !sum_ones_length.
  fold critical non_compliant failures.
  set (a1 := add_factor critical 10 _ (0, [])).
  set (a2 := add_factor non_compliant 5 _ a1).
  set (a3 := add_factor failures 3 _ a2).
  assert (S3 : fst a3 = 10 * critical + 5 * non_compliant + 3 * failures).
  { subst a3 a2 a1. rewrite !add_factor_score. simpl. lia. }
  assert (F3 : snd a3 = [] <->
               critical = 0 /\ non_compliant = 0 /\ failures = 0).
  { subst a3 a2 a1. rewrite !add_factor_factors. simpl. tauto. }
  destruct a3 as [score factors]. simpl in S3, F3.
  cbn [risk_score risk_level recommendation risk_factors].
  rewrite S3. split; [reflexivity|]. split; [reflexivity|].
  split; [reflexivity|]. exact F3.
Qed.

(** X15.  The score lies between 0 and 100 and is ten points for each finding
    of severity ERROR, five for each compliance record that is not COMPLIANT
    and three for each failure, capped at 100. The level is HIGH from 70,
    MEDIUM from 40, LOW from 20 and MINIMAL below; the recommendation is the
    text of that level, never the default text; and the list of risk factors
    is empty exactly when the score is 0. *)
Theorem evaluate_risk_score_range (semgrep_findings : list (dict pyval))
    (config_compliance : list ComplianceRecord)
    (previous_failures : list HistoryEntry) :
  let r :=
    evaluate_risk_score semgrep_findings config_compliance
      previous_failures in
  risk_score r <= 100 /\
  risk_score r =
    Nat.min (10 * length (filter is_critical semgrep_findings) +
             5 * length (filter is_non_compliant config_compliance) +
             3 * length (filter (AgentBrain.outcome_is "failure")
                           previous_failures)) 100 /\
  (risk_level r = "HIGH" <-> 70 <= risk_score r) /\
  (risk_level r = "MEDIUM" <-> 40 <= risk_score r < 70) /\
  (risk_level r = "LOW" <-> 20 <= risk_score r < 40) /\
  (risk_level r = "MINIMAL" <-> risk_score r < 20) /\
  dict_get recommendations (risk_level r) = Some (recommendation r) /\
  recommendation r <> "Review findings and continue testing." /\
  (risk_factors r = [] <-> risk_score r = 0).
Proof.
  intros r.
  destruct (evaluate_risk_score_closed semgrep_findings config_compliance
              previous_failures) as (S & L & R & F).
  fold r in S, L, R, F.
  split; [rewrite S; apply Nat.le_min_r|]. split; [exact S|].
  assert (Lv : (risk_level r = "HIGH" /\ 70 <= risk_score r) \/
               (risk_level r = "MEDIUM" /\ 40 <= risk_score r < 70) \/
               (risk_level r = "LOW" /\ 20 <= risk_score r < 40) \/
               (risk_level r = "MINIMAL" /\ risk_score r < 20)).
  { rewrite L.
    destruct (Nat.leb_spec 70 (risk_score r)); [left; split; [reflexivity|lia]|].
    destruct (Nat.leb_spec 40 (risk_score r));
      [right; left; split; [reflexivity|lia]|].
    destruct (Nat.leb_spec 20 (risk_score r));
      [right; right; left; split; [reflexivity|lia]|].
    right; right; right. split; [reflexivity|lia]. }
  assert (Rk : dict_get recommendations (risk_level r) =
               Some (recommendation r) /\
               recommendation r <> "Review findings and continue testing.").
  { rewrite R.
    destruct Lv as [[E B]|[[E B]|[[E B]|[E B]]]]; rewrite E;
      (split; [reflexivity|discriminate]). }
  destruct Rk as [Rk1 Rk2].
  assert (Z0 : risk_factors r = [] <-> risk_score r = 0)
    by (rewrite F, S; lia).
  destruct Lv as [[E B]|[[E B]|[[E B]|[E B]]]]; rewrite E in *;
    repeat match goal with
           | |- _ /\ _ => split
           | |- _ = _ <-> _ =>
               split; intros Q;
               [first [discriminate Q | lia] | first [reflexivity | lia]]
           end; assumption.
Qed.

Lemma level_rank_score (score : nat) :
  level_rank (if 70 <=? score then "HIGH"
              else if 40 <=? score then "MEDIUM"
              else if 20 <=? score then "LOW"
              else "MINIMAL") =
  if 70 <=? score then 3
  else if 40 <=? score then 2
  else if 20 <=? score then 1
  else 0.
Proof.
  destruct (70 <=? score); [reflexivity|].
  destruct (40 <=? score); [reflexivity|].
  destruct (20 <=? score); reflexivity.
Qed.

(** X16.  More to worry about never lowers the assessment: with further
    findings, compliance records and failures added to the input, the score
    and the level do not go down. *)
Theorem evaluate_risk_score_monotone
    (semgrep_findings more_findings : list (dict pyval))
    (config_compliance more_compliance : list ComplianceRecord)
    (previous_failures more_failures : list HistoryEntry) :
  let r :=
    evaluate_risk_score semgrep_findings config_compliance
      previous_failures in
  let r' :=
    evaluate_risk_score (semgrep_findings ++ more_findings)
      (config_compliance ++ more_compliance)
      (previous_failures ++ more_failures) in
  risk_score r <= risk_score r' /\
  level_rank (risk_level r) <= level_rank (risk_level r').
Proof.
  intros r r'.
  destruct (evaluate_risk_score_closed semgrep_findings config_compliance
              previous_failures) as (S & L & _).
  destruct (evaluate_risk_score_closed (semgrep_findings ++ more_findings)
              (config_compliance ++ more_compliance)
              (previous_failures ++ more_failures)) as (S' & L' & _).
  fold r in S, L. fold r' in S', L'.
  rewrite !filter_app, !length_app in S'.
  assert (Le : risk_score r <= risk_score r') by (rewrite S, S'; lia).
  split; [exact Le|].
  rewrite L, L', !level_rank_score.
  destruct (Nat.leb_spec 70 (risk_score r));
    destruct (Nat.leb_spec 70 (risk_score r')); try lia;
    destruct (Nat.leb_spec 40 (risk_score r));
    destruct (Nat.leb_spec 40 (risk_score r')); try lia;
    destruct (Nat.leb_spec 20 (risk_score r));
    destruct (Nat.leb_spec 20 (risk_score r')); lia.
Qed.

End RiskFacts.

(** ** The report summary *)

Section StripFacts.

Lemma rstrip_cons (c : ascii) (s : string) :
  rstrip (String c s) =
  match rstrip s with
  | EmptyString => if is_space c then EmptyString else String c EmptyString
  | r => String c r
  end.
Proof. reflexivity. Qed.

Lemma rstrip_idempotent (s : string) : rstrip (rstrip s) = rstrip s.
Proof.
  induction s as [|c s IH]; [reflexivity|].
  rewrite rstrip_cons.
  destruct (rstrip s) as [|c' r] eqn:R.
  - destruct (is_space c) eqn:Sp; [reflexivity|].
    rewrite rstrip_cons. simpl. now rewrite Sp.
  - rewrite rstrip_cons, IH. reflexivity.
Qed.

Lemma lstrip_head (s : string) :
  lstrip s = EmptyString \/
  exists c r, lstrip s = String c r /\ is_space c = false.
Proof.
  induction s as [|c s IH]; simpl; [now left|].
  destruct (is_space c) eqn:Sp; [exact IH|]. right. eauto.
Qed.

Lemma lstrip_rstrip_lstrip (s : string) :
  lstrip (rstrip (lstrip s)) = rstrip (lstrip s).
Proof.
  destruct (lstrip_head s) as [->|(c & r & -> & Sp)]; [reflexivity|].
  rewrite rstrip_cons.
  destruct (rstrip r); rewrite ?Sp; simpl; now rewrite Sp.
Qed.

(** Stripping twice is stripping once. *)
Lemma strip_idempotent (s : string) : strip (strip s) = strip s.
Proof.
  unfold strip. now rewrite lstrip_rstrip_lstrip, rstrip_idempotent.
Qed.

End StripFacts.

Section ReportFacts.
Context {Env : Type} `{Externals Env}.
Import Report.
Variable json_dumps : dict pyval -> res string.
Variable call_bedrock_tokens : Z -> string -> M Env string.
Variable py_repr : pyval -> string.

Lemma generate_report_summary_run (results : dict pyval) (e : Env)
    (dumped : string) :
  json_dumps results = Ok dumped ->
  generate_report_summary json_dumps call_bedrock_tokens py_repr results
    true e =
  match
    call_bedrock_tokens 500 (summary_prompt dumped) (logger_emit "INFO" e)
  with
  | (Ok response, e1) => (Ok (strip response), logger_emit "INFO" e1)
  | (Raise x, e1) =>
      (Ok (fallback_summary py_repr results), logger_emit "ERROR" e1)
  end.
Proof.
  intros D.
  cbv [generate_report_summary bind try_except lift_res log_info log_audit
       log_error log modify ret is_Exception negb].
  rewrite D.
  now destruct (call_bedrock_tokens 500 _ _) as [[response|x] e1].
Qed.

Lemma generate_report_summary_raise (results : dict pyval)
    (for_humans : bool) (e : Env) (x : exn) :
  json_dumps results = Raise x ->
  generate_report_summary json_dumps call_bedrock_tokens py_repr results
    for_humans e = (Raise x, logger_emit "INFO" e).
Proof.
  intros D.
  cbv [generate_report_summary bind lift_res log_info log modify].
  rewrite D. now destruct for_humans.
Qed.


Lemma dict_get_app {V} (a b : dict V) (k : string) :
  dict_get (a ++ b)%list k =
  match dict_get a k with Some v => Some v | None => dict_get b k end.
Proof.
  induction a as [|[k' v'] a IH]; simpl; [reflexivity|].
  now destruct (String.eqb k k').
Qed.

Lemma loop_results_other (T : StageTypes)
    (encode_iteration : IterationResult T -> pyval) (r : RunSummary T)
    (k : string) :
  ~ In k ["started_at"; "correlation_id"; "iterations"; "safety_mode";
          "completed_at"; "status"; "total_iterations"; "summary"; "error"] ->
  dict_get (loop_results T encode_iteration r) k = None.
Proof.
  intros N. unfold loop_results, optional.
  repeat rewrite dict_get_app.
  assert (E : forall k', In k' ["started_at"; "correlation_id"; "iterations";
                                "safety_mode"; "completed_at"; "status";
                                "total_iterations"; "summary"; "error"] ->
                         String.eqb k k' = false).
  { intros k' I. apply String.eqb_neq. intros ->. now apply N. }
  cbn [dict_get].
  rewrite !E by (simpl; tauto).
  destruct (loop_completed_at r), (loop_status r), (total_iterations r),
    (summary r), (loop_error r);
    cbn [option_map dict_get]; rewrite ?E by (simpl; tauto); reflexivity.
Qed.

(** The fallback summary of a run says nothing about the run: the
    dictionary of the run loop has none of the keys the text looks up,
    so the text is the one for an empty dictionary. *)
Lemma fallback_summary_of_run (T : StageTypes)
    (encode_iteration : IterationResult T -> pyval) (r : RunSummary T) :
  fallback_summary py_repr (loop_results T encode_iteration r) =
  fallback_summary py_repr [].
Proof.
  unfold fallback_summary, dict_get_default.
  rewrite !loop_results_other; [reflexivity|..];
    simpl; intuition discriminate.
Qed.



End ReportFacts.

(** ** The scanner *)

Section BreakdownFacts.
Import Semgrep.

Lemma dict_get_default_set {V} (d : dict V) (k k' : string) (v default : V) :
  dict_get_default (dict_set d k v) k' default =
  if String.eqb k k' then v else dict_get_default d k' default.
Proof.
  unfold dict_get_default. destruct (String.eqb_spec k k') as [->|N].
  - now rewrite dict_get_set_same.
  - now rewrite dict_get_set_other by congruence.
Qed.

Lemma add_count_get (b : dict nat) (k k' : string) (c : nat) :
  dict_get_default (add_count b k c) k' 0 =
  dict_get_default b k' 0 + (if String.eqb k k' then c else 0).
Proof.
  unfold add_count. rewrite dict_get_default_set.
  destruct (String.eqb_spec k k') as [->|N]; lia.
Qed.

Lemma add_count_total (b : dict nat) (k : string) (c : nat) :
  total (add_count b k c) = total b + c.
Proof.
  unfold add_count, total, dict_get_default.
  induction b as [|[k' v'] b IH]; simpl; [lia|].
  destruct (String.eqb k k') eqn:E; simpl; [lia|].
  destruct (dict_get b k); simpl in *; lia.
Qed.

Lemma add_count_keys (b : dict nat) (k k' : string) (c : nat) :
  In k' (dict_keys b) -> In k' (dict_keys (add_count b k c)).
Proof.
  unfold add_count. rewrite dict_keys_set.
  destruct (dict_has b k); [auto|]. intros I. apply in_or_app. now left.
Qed.

Lemma add_count_NoDup (b : dict nat) (k : string) (c : nat) :
  NoDup (dict_keys b) -> NoDup (dict_keys (add_count b k c)).
Proof. apply dict_set_NoDup. Qed.

End BreakdownFacts.

Section ParseFacts.
Context {Env : Type} `{Externals Env}.
Import Semgrep.

Lemma count_severity_app (s : string) (a b : list Finding) :
  count_severity s (a ++ b) = count_severity s a + count_severity s b.
Proof. unfold count_severity. now rewrite filter_app, length_app. Qed.

Lemma tallies_empty : tallies empty_breakdown [].
Proof.
  split; [|split; [|split]].
  - repeat constructor; simpl; intuition discriminate.
  - intros s. unfold dict_get_default, empty_breakdown. simpl.
    repeat destruct (String.eqb s _); reflexivity.
  - reflexivity.
  - intros s I. exact I.
Qed.

Lemma tallies_add (b : dict nat) (findings : list Finding) (f : Finding) :
  tallies b findings ->
  tallies (add_count b (severity f) 1) (findings ++ [f]).
Proof.
  intros (N & G & T & K). split; [|split; [|split]].
  - now apply add_count_NoDup.
  - intros s. rewrite add_count_get, G, count_severity_app.
    unfold count_severity at 3. simpl.
    now destruct (String.eqb (severity f) s).
  - rewrite add_count_total, T, length_app. reflexivity.
  - intros s I. apply add_count_keys. now apply K.
Qed.

Lemma upper_ascii_idempotent (c : ascii) :
  upper_ascii (upper_ascii c) = upper_ascii c.
Proof. destruct c as [[] [] [] [] [] [] [] []]; reflexivity. Qed.

Lemma upper_idempotent (s : string) : upper (upper s) = upper s.
Proof.
  induction s as [|c s IH]; simpl; [reflexivity|].
  now rewrite upper_ascii_idempotent, IH.
Qed.

Lemma py_upper_upper (v : pyval) (s : string) :
  py_upper v = Ok s -> upper s = s.
Proof.
  destruct v; simpl; try discriminate. intros [= <-].
  apply upper_idempotent.
Qed.

Lemma as_dict_raise (v : pyval) (x : exn) :
  AgentBrain.as_dict v = Raise x -> is_JSONDecodeError x = false.
Proof. destruct v; simpl; try discriminate; now intros [= <-]. Qed.

Lemma get_in_raise (result : dict pyval) (outer inner : string)
    (default : pyval) (x : exn) :
  get_in result outer inner default = Raise x ->
  is_JSONDecodeError x = false.
Proof.
  unfold get_in, and_then.
  destruct (AgentBrain.as_dict _) eqn:A; [discriminate|].
  intros [= <-]. eapply as_dict_raise; eauto.
Qed.

Lemma py_upper_raise (v : pyval) (x : exn) :
  py_upper v = Raise x -> is_JSONDecodeError x = false.
Proof. destruct v; simpl; try discriminate; now intros [= <-]. Qed.

Lemma py_iter_raise (v : pyval) (x : exn) :
  py_iter v = Raise x -> is_JSONDecodeError x = false.
Proof. destruct v; simpl; try discriminate; now intros [= <-]. Qed.

(** One result of the scanner gives one finding, counted under its
    severity, which is in upper case; what is malformed raises. *)
Lemma parse_result_cases (result : pyval) (findings : list Finding)
    (b : dict nat) :
  (exists f,
     parse_result result (findings, b) =
       Ok ((findings ++ [f])%list, add_count b (severity f) 1) /\
     upper (severity f) = severity f) \/
  (exists x,
     parse_result result (findings, b) = Raise x /\
     is_JSONDecodeError x = false).
Proof.
  unfold parse_result.
  destruct (AgentBrain.as_dict result) as [d|x] eqn:A;
    [|right; exists x; split; [reflexivity|eapply as_dict_raise; eauto]].
  cbn [and_then].
  destruct (get_in d "extra" "severity" _) as [value|x] eqn:G1;
    [|right; exists x; split; [reflexivity|eapply get_in_raise; eauto]].
  cbn [and_then].
  destruct (py_upper value) as [sev|x] eqn:U;
    [|right; exists x; split; [reflexivity|eapply py_upper_raise; eauto]].
  cbn [and_then].
  destruct (get_in d "extra" "message" _) as [v2|x] eqn:G2;
    [|right; exists x; split; [reflexivity|eapply get_in_raise; eauto]].
  cbn [and_then].
  destruct (get_in d "start" "line" _) as [v3|x] eqn:G3;
    [|right; exists x; split; [reflexivity|eapply get_in_raise; eauto]].
  cbn [and_then].
  destruct (get_in d "extra" "lines" _) as [v4|x] eqn:G4;
    [|right; exists x; split; [reflexivity|eapply get_in_raise; eauto]].
  cbn [and_then].
  destruct (get_in d "extra" "fix" _) as [v5|x] eqn:G5;
    [|right; exists x; split; [reflexivity|eapply get_in_raise; eauto]].
  cbn [and_then].
  destruct (get_in d "extra" "metadata" _) as [v6|x] eqn:G6;
    [|right; exists x; split; [reflexivity|eapply get_in_raise; eauto]].
  cbn [and_then].
  left.
  match goal with
  | |- context [Ok ((findings ++ [?f])%list, _)] => exists f
  end.
  split; [reflexivity|]. cbn [severity].
  eapply py_upper_upper; eauto.
Qed.

Lemma parse_results_cases (results : list pyval) (findings : list Finding)
    (b : dict nat) :
  tallies b findings ->
  Forall (fun f => upper (severity f) = severity f) findings ->
  (exists findings' b',
     parse_results results (findings, b) = Ok (findings', b') /\
     tallies b' findings' /\
     Forall (fun f => upper (severity f) = severity f) findings' /\
     length findings' = length findings + length results) \/
  (exists x,
     parse_results results (findings, b) = Raise x /\
     is_JSONDecodeError x = false).
Proof.
  revert findings b. induction results as [|result results IH];
    intros findings b T U; cbn [parse_results].
  - left. exists findings, b.
    split; [reflexivity|]. split; [exact T|]. split; [exact U|].
    simpl. lia.
  - destruct (parse_result_cases result findings b)
      as [(f & -> & Uf)|(x & -> & J)]; cbn [and_then].
    + destruct (IH (findings ++ [f])%list (add_count b (severity f) 1))
        as [(findings' & b' & E & T' & U' & L)|(x & E & J)].
      * now apply tallies_add.
      * apply Forall_app. split; [exact U|]. now constructor.
      * left. exists findings', b'. split; [exact E|].
        split; [exact T'|]. split; [exact U'|].
        rewrite L, length_app. simpl. lia.
      * right. eauto.
    + right. eauto.
Qed.

(** What [parse_semgrep_json] does with an output. *)
Lemma parse_semgrep_json_cases (json_output : string) (e : Env) :
  (exists r data,
     json_loads json_output = Ok data /\
     parse_semgrep_json json_output e = (Ok r, e) /\
     sr_status r = "success" /\ consistent r /\
     Forall (fun f => upper (severity f) = severity f) (sr_findings r) /\
     sr_scanned_path r = None) \/
  (exists x,
     json_loads json_output = Raise x /\ is_JSONDecodeError x = true /\
     parse_semgrep_json json_output e =
       (Ok (failed_report "parse_error" (exn_str x)),
        logger_emit "ERROR" e)) \/
  (exists x,
     parse_semgrep_json json_output e = (Raise x, e) /\
     is_JSONDecodeError x = false /\
     (json_loads json_output = Raise x \/
      exists data, json_loads json_output = Ok data)).
Proof.
  unfold parse_semgrep_json, try_except, bind, lift_res.
  destruct (json_loads json_output) as [data|x] eqn:J.
  - destruct (AgentBrain.as_dict data) as [d|x] eqn:A.
    + destruct (py_iter _) as [results|x] eqn:I.
      * destruct (parse_results_cases results [] empty_breakdown
                    tallies_empty (Forall_nil _))
          as [(findings & b & -> & T & U & L)|(x & -> & Jx)].
        -- left. eexists. exists data. split; [reflexivity|].
           split; [reflexivity|].
           split; [reflexivity|]. split; [|split; [exact U|reflexivity]].
           left. split; [reflexivity|]. split; [reflexivity|].
           exists b. split; [reflexivity|exact T].
        -- right; right. exists x. rewrite Jx. eauto.
      * right; right. exists x. rewrite (py_iter_raise _ _ I). eauto.
    + right; right. exists x. rewrite (as_dict_raise _ _ A). eauto.
  - destruct (is_JSONDecodeError x) eqn:Jx.
    + right; left. exists x. split; [reflexivity|].
      split; [exact Jx|reflexivity].
    + right; right. exists x. split; [reflexivity|]. split; [exact Jx|].
      now left.
Qed.

Lemma failed_report_consistent (status text : string) :
  status <> "success" -> consistent (failed_report status text).
Proof.
  intros N. right. split; [exact N|]. repeat split. discriminate.
Qed.

(** X19.  The parser of the scanner's output. When it returns a success, the
    finding count is the number of findings, each severity -- in upper case --
    is counted once in the breakdown with the number of findings that have it,
    the counts add up to the number of findings, and ERROR, WARNING and INFO
    are always listed. It returns the status "parse_error", without findings,
    exactly when the output is not JSON; JSON of another shape than the
    scanner's makes it raise. *)
Theorem parse_semgrep_json_counts (json_output : string) (e : Env) :
  match parse_semgrep_json json_output e with
  | (Ok r, _) =>
      consistent r /\
      Forall (fun f => upper (severity f) = severity f) (sr_findings r) /\
      (sr_status r = "success" \/ sr_status r = "parse_error") /\
      (sr_status r = "parse_error" <->
       exists x, json_loads json_output = Raise x /\
                 is_JSONDecodeError x = true)
  | (Raise x, _) =>
      is_JSONDecodeError x = false /\
      (json_loads json_output = Raise x \/
       exists data, json_loads json_output = Ok data)
  end.
Proof.
  destruct (parse_semgrep_json_cases json_output e)
    as [(r & data & J & -> & S & C & U & _)|
        [(x & J & Jx & ->)|(x & -> & Jx & J)]].
  - split; [exact C|]. split; [exact U|]. split; [now left|].
    rewrite S. split; [discriminate|].
    intros (x & J' & _). congruence.
  - split; [now apply failed_report_consistent|].
    split; [constructor|]. split; [now right|].
    split; [eauto|reflexivity].
  - split; assumption.
Qed.

End ParseFacts.

Section ScanRepositoryFacts.
Context {Env : Type} `{Externals Env}.
Import Semgrep.
Variable subprocess_run : list string -> M Env CompletedProcess.

Lemma consistent_breakdown (r : ScanReport) :
  consistent r -> sr_status r = "success" ->
  exists b, breakdown_of r = Ok b /\ tallies b (sr_findings r).
Proof.
  intros [(_ & _ & b & B & T)|(N & _)] S; [|contradiction].
  exists b. unfold breakdown_of. rewrite B. auto.
Qed.

(** What [scan_repository] returns, by what the scanner process and the
    parser did. *)
Lemma scan_repository_cases (repo_path : string)
    (rules : option (list string)) (config : option string) (e : Env) :
  exists r e',
    scan_repository subprocess_run repo_path rules config e = (Ok r, e') /\
    match
      subprocess_run (command repo_path rules config) (logger_emit "INFO" e)
    with
    | (Raise x, _) =>
        r = if is_TimeoutExpired x
            then failed_report "timeout" "Scan timed out after 300 seconds"
            else failed_report "error" (exn_str x)
    | (Ok p, e1) =>
        if negb (returncode p =? 0)%Z && negb (returncode p =? 1)%Z
        then r = failed_report "error" (stderr p)
        else
          match parse_semgrep_json (stdout p) e1 with
          | (Ok parsed, _) =>
              if String.eqb (sr_status parsed) "success"
              then r = parsed /\ consistent r /\
                   Forall (fun f => upper (severity f) = severity f)
                     (sr_findings r)
              else r = failed_report "error" "'severity_breakdown'"
          | (Raise x, _) =>
              r = if is_TimeoutExpired x
                  then failed_report "timeout"
                         "Scan timed out after 300 seconds"
                  else failed_report "error" (exn_str x)
          end
    end.
Proof.
  unfold scan_repository.
  erewrite bind_ok by reflexivity.
  unfold try_except, is_Exception. unfold bind at 1.
  destruct (subprocess_run _ _) as [[p|x] e1].
  - destruct (negb (returncode p =? 0)%Z && negb (returncode p =? 1)%Z).
    + cbv [bind log_error log modify ret]. do 2 eexists. split; reflexivity.
    + unfold bind at 1.
      destruct (parse_semgrep_json_cases (stdout p) e1)
        as [(r & data & J & -> & S & C & U & _)|
            [(x & J & Jx & ->)|(x & -> & Jx & J)]].
      * rewrite S. simpl String.eqb.
        destruct (consistent_breakdown r C S) as (b & B & _).
        cbv [bind lift_res log_audit log modify ret]. rewrite B.
        do 2 eexists. split; [reflexivity|]. auto.
      * cbv [bind lift_res log_error log modify ret failed_report
             breakdown_of sr_severity_breakdown is_TimeoutExpired exn_cls
             sr_status String.eqb Ascii.eqb Bool.eqb].
        do 2 eexists. split; reflexivity.
      * destruct (is_TimeoutExpired x);
          cbv [bind log_error log modify ret];
          do 2 eexists; split; reflexivity.
  - destruct (is_TimeoutExpired x);
      cbv [bind log_error log modify ret];
      do 2 eexists; split; reflexivity.
Qed.

Lemma scan_repository_returns (repo_path : string)
    (rules : option (list string)) (config : option string) (e : Env) :
  exists r e',
    scan_repository subprocess_run repo_path rules config e = (Ok r, e') /\
    consistent r /\
    Forall (fun f => upper (severity f) = severity f) (sr_findings r).
Proof.
  destruct (scan_repository_cases repo_path rules config e)
    as (r & e' & E & C).
  exists r, e'. split; [exact E|].
  destruct (subprocess_run _ _) as [[p|x] e1].
  - destruct (negb (returncode p =? 0)%Z && negb (returncode p =? 1)%Z).
    + subst r. split; [now apply failed_report_consistent|constructor].
    + destruct (parse_semgrep_json (stdout p) e1) as [[parsed|x] e2].
      * destruct (String.eqb (sr_status parsed) "success");
          [tauto|subst r].
        split; [now apply failed_report_consistent|constructor].
      * destruct (is_TimeoutExpired x); subst r;
          (split; [now apply failed_report_consistent|constructor]).
  - destruct (is_TimeoutExpired x); subst r;
      (split; [now apply failed_report_consistent|constructor]).
Qed.

(** X20.  [scan_repository] never raises. Its report has the status "success",
    "error" or "timeout" -- never "parse_error": an output that is not JSON
    ends as an "error" whose text is the name of the missing key,
    ['severity_breakdown'], and an exit code other than 0 and 1 as an "error"
    with the text of the error stream, the output unread. A success has its
    findings counted by severity; every other report has no findings and an
    error text. *)
Theorem scan_repository_total (repo_path : string)
    (rules : option (list string)) (config : option string) (e : Env) :
  exists r e',
    scan_repository subprocess_run repo_path rules config e = (Ok r, e') /\
    In (sr_status r) ["success"; "error"; "timeout"] /\
    consistent r /\
    (forall p e1,
       subprocess_run (command repo_path rules config) (logger_emit "INFO" e)
         = (Ok p, e1) ->
       (returncode p <> 0%Z /\ returncode p <> 1%Z ->
        r = failed_report "error" (stderr p)) /\
       (forall x,
          returncode p = 0%Z \/ returncode p = 1%Z ->
          json_loads (stdout p) = Raise x ->
          is_JSONDecodeError x = true ->
          r = failed_report "error" "'severity_breakdown'")).
Proof.
  destruct (scan_repository_cases repo_path rules config e)
    as (r & e' & E & C).
  exists r, e'. split; [exact E|].
  destruct (subprocess_run _ _) as [[p|x] e1].
  - destruct (negb (returncode p =? 0)%Z && negb (returncode p =? 1)%Z)
      eqn:RC.
    + subst r. split; [simpl; auto|].
      split; [now apply failed_report_consistent|].
      intros p' e1' [= <- <-]. split; [reflexivity|].
      intros x [Z|Z] _ _; rewrite Z in RC; discriminate RC.
    + assert (RC' : returncode p = 0%Z \/ returncode p = 1%Z).
      { apply andb_false_iff in RC.
        destruct RC as [RC|RC]; apply negb_false_iff, Z.eqb_eq in RC; auto. }
      destruct (parse_semgrep_json_cases (stdout p) e1)
        as [(parsed & data & J & P & S & _)|
            [(x & J & Jx & P)|(x & P & Jx & J)]]; rewrite P in C.
      * rewrite S in C. simpl in C. destruct C as (-> & C & _).
        split; [rewrite S; simpl; auto|]. split; [exact C|].
        intros p' e1' [= <- <-]. split; [intros [N0 N1]; tauto|].
        intros x _ J' _. congruence.
      * simpl in C. subst r. split; [simpl; auto|].
        split; [now apply failed_report_consistent|].
        intros p' e1' [= <- <-]. split; [intros [N0 N1]; tauto|].
        reflexivity.
      * assert (S : In (sr_status r) ["success"; "error"; "timeout"] /\
                    consistent r).
        { destruct (is_TimeoutExpired x); subst r;
            (split; [simpl; auto|now apply failed_report_consistent]). }
        destruct S as [S C']. split; [exact S|]. split; [exact C'|].
        intros p' e1' [= <- <-]. split; [intros [N0 N1]; tauto|].
        intros x' _ J' Jx'. destruct J as [J|(data & J)]; congruence.
  - assert (S : In (sr_status r) ["success"; "error"; "timeout"] /\
                consistent r).
    { destruct (is_TimeoutExpired x); subst r;
        (split; [simpl; auto|now apply failed_report_consistent]). }
    destruct S as [S C']. split; [exact S|]. split; [exact C'|].
    intros p' e1' Q. discriminate Q.
Qed.

End ScanRepositoryFacts.

Section MergeFacts.
Import Semgrep.

Lemma dict_get_default_cons {V} (k s : string) (v default : V)
    (l : dict V) :
  dict_get_default ((k, v) :: l) s default =
  if String.eqb s k then v else dict_get_default l s default.
Proof.
  unfold dict_get_default. simpl. now destruct (String.eqb s k).
Qed.

Lemma dict_get_default_absent {V} (s : string) (default : V) (l : dict V) :
  ~ In s (dict_keys l) -> dict_get_default l s default = default.
Proof.
  intros N. apply dict_get_None_iff in N.
  unfold dict_get_default. now rewrite N.
Qed.

(** Merging adds, for each severity, the count of the other breakdown. *)
Lemma merge_breakdown_get (a l : dict nat) (s : string) :
  NoDup (dict_keys l) ->
  dict_get_default (merge_breakdown a l) s 0 =
  dict_get_default a s 0 + dict_get_default l s 0.
Proof.
  unfold merge_breakdown. revert a.
  induction l as [|[k v] l IH]; intros a N; simpl.
  - unfold dict_get_default at 3. simpl. lia.
  - inversion N as [|? ? Nk Nl]; subst.
    rewrite IH by exact Nl. cbn [fst snd].
    rewrite add_count_get, dict_get_default_cons.
    rewrite (String.eqb_sym s k).
    destruct (String.eqb_spec k s) as [->|Ne]; [|lia].
    rewrite (dict_get_default_absent s 0 l Nk). lia.
Qed.

Lemma merge_breakdown_total (a l : dict nat) :
  total (merge_breakdown a l) = total a + total l.
Proof.
  unfold merge_breakdown. revert a.
  induction l as [|[k v] l IH]; intros a; simpl.
  - unfold total at 3. simpl. lia.
  - rewrite IH, add_count_total. unfold total at 4. simpl.
    fold (total l). lia.
Qed.

Lemma merge_breakdown_keys (a l : dict nat) (s : string) :
  In s (dict_keys a) -> In s (dict_keys (merge_breakdown a l)).
Proof.
  unfold merge_breakdown. revert a.
  induction l as [|[k v] l IH]; intros a I; simpl; [exact I|].
  apply IH. now apply add_count_keys.
Qed.

Lemma merge_breakdown_NoDup (a l : dict nat) :
  NoDup (dict_keys a) -> NoDup (dict_keys (merge_breakdown a l)).
Proof.
  unfold merge_breakdown. revert a.
  induction l as [|[k v] l IH]; intros a N; simpl; [exact N|].
  apply IH. now apply add_count_NoDup.
Qed.

Lemma tallies_merge (a l : dict nat) (fa fl : list Finding) :
  tallies a fa -> tallies l fl ->
  tallies (merge_breakdown a l) (fa ++ fl).
Proof.
  intros (Na & Ga & Ta & Ka) (Nl & Gl & Tl & Kl).
  split; [|split; [|split]].
  - now apply merge_breakdown_NoDup.
  - intros s. rewrite merge_breakdown_get, Ga, Gl, count_severity_app by
      exact Nl. reflexivity.
  - rewrite merge_breakdown_total, Ta, Tl, length_app. reflexivity.
  - intros s I. apply merge_breakdown_keys. now apply Ka.
Qed.

Lemma tallies_recount (b : dict nat) (findings new : list Finding) :
  tallies b findings ->
  tallies
    (fold_left (fun acc finding => add_count acc (severity finding) 1) new b)
    (findings ++ new).
Proof.
  revert b findings. induction new as [|f new IH]; intros b findings T.
  - simpl. now rewrite app_nil_r.
  - simpl.
    replace (findings ++ f :: new)%list
      with ((findings ++ [f]) ++ new)%list
      by (rewrite <- app_assoc; reflexivity).
    apply IH. now apply tallies_add.
Qed.

End MergeFacts.

Section ScanDirectoryFacts.
Context {Env : Type} `{Externals Env}.
Import Semgrep.
Variable subprocess_run : list string -> M Env CompletedProcess.
Variable path_join : string -> string -> string.

(** One rule set: a scan that succeeded adds its findings and counts,
    any other leaves what was gathered as it is. *)
Lemma scan_config_run (iac_path config : string) (e : Env)
    (findings : list Finding) (b : dict nat) :
  tallies b findings ->
  Forall (fun f => upper (severity f) = severity f) findings ->
  exists e' findings' b',
    scan_config subprocess_run iac_path config (e, (findings, b)) =
      (Ok tt, (e', (findings', b'))) /\
    tallies b' findings' /\
    Forall (fun f => upper (severity f) = severity f) findings' /\
    ((forall cmd e0, exists x e1, subprocess_run cmd e0 = (Raise x, e1)) ->
     findings' = findings /\ b' = b).
Proof.
  intros T U. unfold scan_config. unfold bind at 1. unfold lift.
  cbn [fst snd].
  destruct (scan_repository_cases subprocess_run iac_path None (Some config)
              e) as (r & e' & E & Cases).
  destruct (scan_repository_returns subprocess_run iac_path None
              (Some config) e) as (r' & e'' & E' & C & Ur).
  rewrite E in E'. injection E' as <- <-. rewrite E.
  destruct (String.eqb_spec (sr_status r) "success") as [S|N].
  - destruct (consistent_breakdown r C S) as (br & B & Tr).
    cbv [bind modify_local lift_res ret fst snd]. rewrite B.
    do 3 eexists. split; [reflexivity|].
    split; [now apply tallies_merge|].
    split; [apply Forall_app; now split|].
    intros Fail.
    destruct (Fail (command iac_path None (Some config))
                (logger_emit "INFO" e)) as (x & e1 & R).
    rewrite R in Cases.
    destruct (is_TimeoutExpired x); subst r; discriminate S.
  - cbv [ret]. do 3 eexists. split; [reflexivity|]. auto.
Qed.

Lemma scan_configs_run (iac_path : string) (configs : list string) (e : Env)
    (findings : list Finding) (b : dict nat) :
  tallies b findings ->
  Forall (fun f => upper (severity f) = severity f) findings ->
  exists e' findings' b',
    for_each configs (scan_config subprocess_run iac_path)
      (e, (findings, b)) = (Ok tt, (e', (findings', b'))) /\
    tallies b' findings' /\
    Forall (fun f => upper (severity f) = severity f) findings' /\
    ((forall cmd e0, exists x e1, subprocess_run cmd e0 = (Raise x, e1)) ->
     findings' = findings /\ b' = b).
Proof.
  revert e findings b. induction configs as [|config configs IH];
    intros e findings b T U; cbn [for_each].
  - cbv [ret]. do 3 eexists. split; [reflexivity|]. auto.
  - unfold bind.
    destruct (scan_config_run iac_path config e findings b T U)
      as (e1 & f1 & b1 & -> & T1 & U1 & Same1).
    destruct (IH e1 f1 b1 T1 U1) as (e2 & f2 & b2 & -> & T2 & U2 & Same2).
    do 3 eexists. split; [reflexivity|]. split; [exact T2|].
    split; [exact U2|]. intros Fail.
    destruct (Same1 Fail) as [<- <-]. now apply Same2.
Qed.


Lemma scan_iac_directory_returns (iac_path : string) (e : Env) :
  exists r e',
    scan_iac_directory subprocess_run iac_path true true true e
      = (Ok r, e') /\
    Forall (fun f => upper (severity f) = severity f) (sr_findings r).
Proof.
  unfold scan_iac_directory.
  erewrite bind_ok by reflexivity.
  unfold with_local. unfold bind at 1.
  match goal with
  | |- context [for_each ?configs _ (?e0, _)] =>
      destruct (scan_configs_run iac_path configs e0 [] empty_breakdown
                  tallies_empty (Forall_nil _))
        as (e1 & findings & b & -> & T & U & Same)
  end.
  cbv [bind get_local ret fst snd].
  do 2 eexists. split; [reflexivity|exact U].
Qed.


End ScanDirectoryFacts.

Section FilterFacts.
Import Semgrep.

Lemma severity_level_range (s : string) :
  1 <= severity_level s <= 3.
Proof.
  unfold severity_level, dict_get_default. simpl.
  repeat destruct (String.eqb s _); lia.
Qed.

Lemma severity_level_error (s : string) :
  (3 <=? severity_level s) = String.eqb s "ERROR".
Proof.
  unfold severity_level, dict_get_default. simpl.
  destruct (String.eqb s "ERROR"); [reflexivity|].
  repeat destruct (String.eqb s _); reflexivity.
Qed.

Lemma keep_if_all {A} (p : A -> res bool) (xs : list A) :
  (forall x, In x xs -> p x = Ok true \/ exists e, p x = Raise e) ->
  forall kept, keep_if p xs = Ok kept -> kept = xs.
Proof.
  induction xs as [|x xs IH]; intros All kept; simpl.
  - now intros [= <-].
  - destruct (All x (or_introl eq_refl)) as [E|(e & E)]; rewrite E;
      [|discriminate].
    cbn [and_then].
    destruct (keep_if p xs) as [rest|e] eqn:K; [|discriminate].
    cbn [and_then]. intros [= <-]. f_equal. apply IH; [|reflexivity].
    intros y I. apply All. now right.
Qed.

Lemma keep_if_filter {A} (p : A -> res bool) (xs kept : list A) :
  keep_if p xs = Ok kept ->
  kept = filter (fun x => match p x with Ok b => b | Raise _ => false end) xs
  /\ forall x, In x xs -> exists b, p x = Ok b.
Proof.
  revert kept. induction xs as [|x xs IH]; intros kept; simpl.
  - intros [= <-]. split; [reflexivity|]. intros x [].
  - destruct (p x) as [b|e] eqn:P; [|discriminate]. cbn [and_then].
    destruct (keep_if p xs) as [rest|e] eqn:K; [|discriminate].
    cbn [and_then]. intros [= <-].
    destruct (IH rest eq_refl) as [-> All]. split.
    + now destruct b.
    + intros y [<-|I]; [eauto|now apply All].
Qed.

Lemma keep_if_raise {A} (p : A -> res bool) (xs : list A) (e : exn) :
  keep_if p xs = Raise e -> exists x, In x xs /\ p x = Raise e.
Proof.
  induction xs as [|x xs IH]; simpl; [discriminate|].
  destruct (p x) as [b|e'] eqn:P; cbn [and_then].
  - destruct (keep_if p xs) as [rest|e'] eqn:K; cbn [and_then];
      [discriminate|].
    intros [= <-]. destruct (IH eq_refl) as (y & I & Py). eauto.
  - intros [= <-]. eauto.
Qed.


(** X24.  [get_high_risk_findings] never raises on a report of the scanner and
    returns, in their order, exactly the findings whose severity is "ERROR",
    whatever its case. *)
Theorem get_high_risk_findings_spec (scan_results : ScanReport) :
  get_high_risk_findings scan_results =
    Ok (map finding_dict
          (filter (fun f => String.eqb (upper (severity f)) "ERROR")
             (sr_findings scan_results))).
Proof.
  unfold get_high_risk_findings, filter_findings_by_severity.
  change (severity_level (upper "ERROR")) with 3.
  induction (sr_findings scan_results) as [|f fs IH]; [reflexivity|].
  cbn [map keep_if filter]. rewrite IH.
  unfold at_least at 1.
  change (dict_get_default (finding_dict f) "severity" (VStr "INFO"))
    with (VStr (severity f)).
  cbn [py_upper and_then]. rewrite severity_level_error.
  now destruct (String.eqb (upper (severity f)) "ERROR").
Qed.

End FilterFacts.

(** ** The configuration *)

Section ConfigRun.
Import Config.

(** What [load_config] gives, by what the environment holds. *)
Lemma load_config_run (environ : dict string)
    (load_secret_from_secrets_manager : string -> string -> res pyval) :
  let account := getenv environ "AWS_ACCOUNT_ID" EmptyString in
  let key := getenv environ "SYSTEM_INITIATIVE_API_KEY" EmptyString in
  let region := getenv environ "AWS_REGION" "us-east-1" in
  let stored :=
    match
      Semgrep.and_then
        (load_secret_from_secrets_manager "chaossec/system-initiative" region)
        AgentBrain.as_dict
    with
    | Ok secrets => dict_get_default secrets "api_key" (VStr EmptyString)
    | Raise _ => VStr key
    end in
  let found := if is_empty key then stored else VStr key in
  load_config environ load_secret_from_secrets_manager =
  if is_empty account then
    Raise (ValueError "AWS_ACCOUNT_ID environment variable is required")
  else if negb (truthy found) then
    Raise (ValueError
             "System Initiative API key not found in environment or Secrets Manager")
  else
    Ok {| aws :=
            {| region := region; account_id := account;
               bedrock_api_key := "bedrock-uses-aws-credentials" |};
          system_initiative :=
            {| api_url :=
                 getenv environ "SYSTEM_INITIATIVE_API_URL"
                   "https://api.systeminit.com";
               api_key := found;
               workspace_id :=
                 dict_get environ "SYSTEM_INITIATIVE_WORKSPACE_ID" |};
          vanta :=
            {| client_id := getenv environ "VANTA_CLIENT_ID" "mock-client-id";
               client_secret :=
                 getenv environ "VANTA_CLIENT_SECRET" "mock-client-secret";
               vanta_api_url :=
                 getenv environ "VANTA_API_URL" "https://api.vanta.com";
               oauth_token_url :=
                 getenv environ "VANTA_OAUTH_TOKEN_URL"
                   "https://api.vanta.com/oauth/token" |};
          safety_mode :=
            String.eqb
              (lower (getenv environ "CHAOSSEC_SAFETY_MODE" "true")) "true";
          log_level :=
            Semgrep.upper (getenv environ "CHAOSSEC_LOG_LEVEL" "INFO") |}.
Proof.
  intros account key region0 stored found. unfold load_config.
  fold account key region0.
  destruct (is_empty account); [reflexivity|].
  assert (F : (if negb (truthy (VStr key)) then stored else VStr key) = found).
  { subst found. unfold is_empty. simpl. now rewrite negb_involutive. }
  fold stored. rewrite F. reflexivity.
Qed.

End ConfigRun.

Section ConfigFacts.
Import Config.
Variable environ : dict string.
Variable load_secret_from_secrets_manager : string -> string -> res pyval.

(** X25.  Safety mode is on unless [CHAOSSEC_SAFETY_MODE] is set to something
    other than "true", written in any case: "1", "yes" and the empty string
    all turn it off. The Bedrock key of a loaded configuration is a fixed
    text, whatever [BEDROCK_API_KEY] holds, and the log level is in upper
    case. *)
Theorem load_config_safety_mode (config : ChaosSecConfig) :
  load_config environ load_secret_from_secrets_manager = Ok config ->
  (safety_mode config = false <->
   exists value,
     dict_get environ "CHAOSSEC_SAFETY_MODE" = Some value /\
     lower value <> "true") /\
  bedrock_api_key (aws config) = "bedrock-uses-aws-credentials" /\
  Semgrep.upper (log_level config) = log_level config.
Proof.
  rewrite load_config_run.
  destruct (is_empty _); [discriminate|].
  destruct (negb (truthy _)); [discriminate|].
  intros [= <-]. cbn [safety_mode aws bedrock_api_key log_level].
  split; [|split; [reflexivity|apply upper_idempotent]].
  unfold getenv, dict_get_default.
  destruct (dict_get environ "CHAOSSEC_SAFETY_MODE") as [value|].
  - rewrite String.eqb_neq. split.
    + intros N. exists value. now split.
    + now intros (v & [= <-] & N).
  - split; [discriminate|]. now intros (v & Q & _).
Qed.

(** X26.  A configuration that [load_config] returns passes [validate_config]
    unless [AWS_REGION] is set to the empty string. *)
Theorem load_config_then_validate (config : ChaosSecConfig) :
  load_config environ load_secret_from_secrets_manager = Ok config ->
  match validate_config config with
  | Ok valid =>
      valid = true /\ dict_get environ "AWS_REGION" <> Some EmptyString
  | Raise x =>
      x = ValueError "AWS region is required" /\
      dict_get environ "AWS_REGION" = Some EmptyString
  end.
Proof.
  rewrite load_config_run.
  destruct (is_empty (getenv environ "AWS_ACCOUNT_ID" EmptyString)) eqn:A;
    [discriminate|].
  destruct (negb (truthy _)) eqn:K; [discriminate|].
  intros [= <-]. unfold validate_config.
  cbn [aws region account_id bedrock_api_key system_initiative api_key].
  rewrite A, K. unfold getenv, dict_get_default, is_empty.
  destruct (dict_get environ "AWS_REGION") as [value|]; simpl.
  - destruct (String.eqb_spec value EmptyString) as [->|N].
    + split; reflexivity.
    + split; [reflexivity|]. intros [= Q]. contradiction.
  - split; [reflexivity|discriminate].
Qed.


End ConfigFacts.

(** An environment with an account, a key and [CHAOSSEC_SAFETY_MODE=1]. *)
Lemma load_config_safety_mode_witness :
  let environ :=
    [("AWS_ACCOUNT_ID", "123456789012");
     ("SYSTEM_INITIATIVE_API_KEY", "si-key");
     ("CHAOSSEC_SAFETY_MODE", "1")] in
  let no_store := fun _ _ : string =>
    Raise (mk_exn RuntimeError "Failed to load secret") in
  exists config,
    Config.load_config environ no_store = Ok config /\
    (Config.safety_mode config = false <->
     exists value,
       dict_get environ "CHAOSSEC_SAFETY_MODE" = Some value /\
       lower value <> "true") /\
    Config.bedrock_api_key (Config.aws config)
      = "bedrock-uses-aws-credentials" /\
    Semgrep.upper (Config.log_level config) = Config.log_level config.
Proof.
  intros environ no_store. eexists. split; [reflexivity|].
  apply (load_config_safety_mode environ no_store). reflexivity.
Defined.

(** The same environment with [AWS_REGION] set to the empty string. *)
Lemma load_config_then_validate_witness :
  let environ :=
    [("AWS_ACCOUNT_ID", "123456789012");
     ("SYSTEM_INITIATIVE_API_KEY", "si-key");
     ("AWS_REGION", EmptyString)] in
  let no_store := fun _ _ : string =>
    Raise (mk_exn RuntimeError "Failed to load secret") in
  exists config,
    Config.load_config environ no_store = Ok config /\
    match Config.validate_config config with
    | Ok valid =>
        valid = true /\ dict_get environ "AWS_REGION" <> Some EmptyString
    | Raise x =>
        x = Config.ValueError "AWS region is required" /\
        dict_get environ "AWS_REGION" = Some EmptyString
    end.
Proof.
  intros environ no_store. eexists. split; [reflexivity|].
  apply (load_config_then_validate environ no_store). reflexivity.
Defined.

(** ** The evidence sink *)

Section VantaFacts.
Context {Env : Type} `{Externals Env}.
Import Vanta.
Variable correlation_id : string.
Variable mock_mode : bool.
Variable utcnow_timestamp : Env -> (string * Z) * Env.
Variable write_evidence_file : Evidence -> M Env string.
Variable post_evidence : Evidence -> M Env pyval.

(** The package by its items. *)
Lemma create_evidence_package_run (chaos_experiment_id : string)
    (semgrep_results : dict pyval) (aws_metrics : list pyval)
    (outcome : string) (e : Env) :
  exists pkg e',
    create_evidence_package correlation_id chaos_experiment_id
      semgrep_results aws_metrics outcome e = (Ok pkg, e') /\
    pkg_package_id pkg = "pkg-" ++ correlation_id /\
    pkg_outcome pkg = outcome /\
    map (fun item => (item_control_id item, item_test_type item,
                      item_result item))
      (evidence_items pkg) =
    ([("CC7.2", "chaos_engineering", outcome);
      ("CC9.1", "chaos_engineering", outcome)] ++
     (match semgrep_results with
      | [] => []
      | _ :: _ =>
          let result :=
            if eq_zero (dict_get_default semgrep_results "finding_count"
                          (VInt 0))
            then "pass" else "findings_detected" in
          [("CC8.1", "static_analysis", result);
           ("CC7.2", "static_analysis", result)]
      end) ++
     [("CC7.2", "continuous_monitoring", "operational");
      ("CC7.3", "continuous_monitoring", "operational")])%list /\
    Forall
      (fun item =>
         item_framework item = "soc2" /\
         (item_test_type item = "static_analysis" ->
          dict_get (item_details item) "findings" =
            Some (dict_get_default semgrep_results "finding_count"
                    (VInt 0))))
      (evidence_items pkg).
Proof.
  unfold create_evidence_package, map_chaos_to_control, utcnow.
  destruct semgrep_results as [|item rest];
    cbv [bind ret log_debug log_info log modify];
    destruct (utcnow_isoformat e) as [now e1];
    do 2 eexists; (split; [reflexivity|]);
    (split; [reflexivity|]); (split; [reflexivity|]);
    (split; [reflexivity|]);
    repeat constructor; discriminate.
Qed.

(** X28.  The evidence the report stage files for the static analysis says
    "pass", whatever the scan stage found: the package is built from the
    dictionary of the scan stage, which has no [finding_count]. The package
    always has six items, for the controls CC7.2, CC9.1, CC8.1, CC7.2, CC7.2
    and CC7.3; the two for chaos engineering carry the outcome of the
    validation, the two for the static analysis report 0 findings. *)
Theorem report_package_always_pass (scan_result : ScanResults)
    (aws_metrics : list pyval) (outcome : string) (e : Env) :
  exists pkg e',
    report_package correlation_id scan_result aws_metrics outcome e
      = (Ok pkg, e') /\
    map (fun item => (item_control_id item, item_test_type item,
                      item_result item))
      (evidence_items pkg) =
    [("CC7.2", "chaos_engineering", outcome);
     ("CC9.1", "chaos_engineering", outcome);
     ("CC8.1", "static_analysis", "pass");
     ("CC7.2", "static_analysis", "pass");
     ("CC7.2", "continuous_monitoring", "operational");
     ("CC7.3", "continuous_monitoring", "operational")] /\
    forall item,
      In item (evidence_items pkg) ->
      item_test_type item = "static_analysis" ->
      dict_get (item_details item) "findings" = Some (VInt 0).
Proof.
  unfold report_package.
  destruct (create_evidence_package_run correlation_id
              (scan_result_dict scan_result) aws_metrics outcome e)
    as (pkg & e' & E & _ & _ & Items & Details).
  exists pkg, e'. split; [exact E|]. split.
  - rewrite Items. reflexivity.
  - intros item I S. rewrite Forall_forall in Details.
    destruct (Details item I) as [_ D]. now rewrite (D S).
Qed.

Lemma save_evidence_locally_returns (evidence : Evidence) (e : Env) :
  exists result e',
    _save_evidence_locally write_evidence_file evidence e = (Ok result, e').
Proof.
  unfold _save_evidence_locally. apply try_except_total.
  intros x s1. cbv [bind log_error log modify ret]. eauto.
Qed.

(** One upload: it returns, and its result says what became of the
    evidence. *)
Lemma upload_evidence_returns (control_id test_result : string)
    (details : dict pyval) (timestamp : option (string * Z))
    (framework : string) (e : Env) :
  exists r e',
    upload_evidence correlation_id mock_mode utcnow_timestamp
      write_evidence_file post_evidence control_id test_result details
      timestamp framework e = (Ok r, e') /\
    if mock_mode then
      up_status r = "uploaded_mock" /\
      up_control_id r = Some control_id /\
      up_framework r = Some framework /\
      up_stored_locally r = Some true
    else
      (up_status r = "uploaded" /\
       up_control_id r = Some control_id /\
       up_framework r = Some framework) \/
      (up_status r = "error_saved_locally" /\
       up_evidence_id r = VNone /\
       up_error r <> None).
Proof.
  unfold upload_evidence.
  assert (Clock : exists now e1,
            (match timestamp with
             | Some given => ret given
             | None =>
                 fun e0 : Env =>
                   let (now, e') := utcnow_timestamp e0 in (Ok now, e')
             end) e = (Ok now, e1)).
  { destruct timestamp as [given|]; cbv [ret]; [eauto|].
    destruct (utcnow_timestamp e) as [now e1]. eauto. }
  destruct Clock as (now & e1 & Clock).
  erewrite bind_ok by exact Clock.
  erewrite bind_ok by reflexivity.
  destruct mock_mode.
  - match goal with
    | |- context [_save_evidence_locally _ ?ev] =>
        destruct (save_evidence_locally_returns ev (logger_emit "INFO" e1))
          as (result & e2 & S)
    end.
    erewrite bind_ok by exact S.
    cbv [bind log_audit log modify ret].
    do 2 eexists. split; [reflexivity|]. repeat split.
  - unfold try_except.
    match goal with
    | |- context [match ?body (logger_emit "INFO" e1) with _ => _ end] =>
        destruct (body (logger_emit "INFO" e1)) as [[r|x] e2] eqn:B
    end.
    + do 2 eexists. split; [reflexivity|]. left.
      revert B. cbv [bind lift_res].
      destruct (post_evidence _ _) as [[response|x] e3]; [|discriminate].
      destruct (AgentBrain.as_dict response) as [d|x]; [|discriminate].
      cbv [log_audit log modify ret]. intros [= <- <-]. repeat split.
    + cbv [is_Exception bind log_error log modify].
      match goal with
      | |- context [_save_evidence_locally _ ?ev ?e0] =>
          destruct (save_evidence_locally_returns ev e0)
            as (result & e3 & S)
      end.
      rewrite S. cbv [ret].
      do 2 eexists. split; [reflexivity|]. right.
      repeat split. discriminate.
Qed.

Lemma upload_items_run (items : list EvidenceItem) (e : Env)
    (done : list UploadResult) :
  exists results e',
    for_each items
      (upload_item correlation_id mock_mode utcnow_timestamp
         write_evidence_file post_evidence) (e, done) =
      (Ok tt, (e', (done ++ results)%list)) /\
    Forall2
      (fun item r =>
         if mock_mode then
           up_status r = "uploaded_mock" /\
           up_control_id r = Some (item_control_id item) /\
           up_framework r = Some (item_framework item) /\
           up_stored_locally r = Some true
         else
           (up_status r = "uploaded" /\
            up_control_id r = Some (item_control_id item) /\
            up_framework r = Some (item_framework item)) \/
           (up_status r = "error_saved_locally" /\
            up_evidence_id r = VNone /\
            up_error r <> None))
      items results.
Proof.
  revert e done. induction items as [|item items IH]; intros e done.
  - exists [], e. rewrite app_nil_r. split; [reflexivity|constructor].
  - cbn [for_each]. unfold bind at 1. unfold upload_item at 1.
    unfold bind at 1. unfold lift. cbn [fst snd].
    destruct (upload_evidence_returns (item_control_id item)
                (item_result item) (item_details item) None
                (item_framework item) e) as (r & e1 & -> & P).
    cbv [modify_local fst snd].
    destruct (IH e1 (done ++ [r])%list) as (results & e2 & -> & F).
    exists (r :: results), e2. split.
    + now rewrite <- app_assoc.
    + now constructor.
Qed.

(** X29.  [upload_evidence_package] never raises -- a failed upload or a
    failed write of the local copy ends in the result, not in an exception --
    and returns one result for each item of the package, in their order. In
    mock mode every result has the status "uploaded_mock" and says
    [stored_locally = True], whether or not the local file could be written;
    otherwise a result is "uploaded" or "error_saved_locally" with the error
    text. *)
Theorem upload_evidence_package_results (package : Package) (e : Env) :
  exists results e',
    upload_evidence_package correlation_id mock_mode utcnow_timestamp
      write_evidence_file post_evidence package e = (Ok results, e') /\
    length results = length (evidence_items package) /\
    Forall2
      (fun item r =>
         if mock_mode then
           up_status r = "uploaded_mock" /\
           up_control_id r = Some (item_control_id item) /\
           up_framework r = Some (item_framework item) /\
           up_stored_locally r = Some true
         else
           (up_status r = "uploaded" /\
            up_control_id r = Some (item_control_id item) /\
            up_framework r = Some (item_framework item)) \/
           (up_status r = "error_saved_locally" /\
            up_evidence_id r = VNone /\
            up_error r <> None))
      (evidence_items package) results.
Proof.
  unfold upload_evidence_package, with_local. unfold bind at 1.
  destruct (upload_items_run (evidence_items package) e [])
    as (results & e1 & -> & F).
  cbv [bind lift log_audit log modify get_local fst snd].
  exists results. eexists. split; [reflexivity|].
  split; [|exact F]. symmetry. eapply Forall2_length; eauto.
Qed.

End VantaFacts.

(** ** The scan stage over the scanner of the repository *)

Section StableScanner.
Context {Env : Type} `{Externals Env}.
Import Semgrep.
Variable subprocess_run : list string -> M Env CompletedProcess.

(** The scanner process answers a command line the same way whatever the
    environment it is started in. *)
Hypothesis stable :
  forall cmd e e', fst (subprocess_run cmd e) = fst (subprocess_run cmd e').

Lemma parse_semgrep_json_stable (json_output : string) (e e' : Env) :
  fst (parse_semgrep_json json_output e) =
  fst (parse_semgrep_json json_output e').
Proof.
  unfold parse_semgrep_json, try_except, bind, lift_res.
  destruct (json_loads json_output) as [data|x].
  - destruct (AgentBrain.as_dict data) as [d|x].
    + destruct (py_iter _) as [results|x].
      * destruct (parse_results results ([], empty_breakdown))
          as [[findings b]|x]; [reflexivity|].
        now destruct (is_JSONDecodeError x).
      * now destruct (is_JSONDecodeError x).
    + now destruct (is_JSONDecodeError x).
  - now destruct (is_JSONDecodeError x).
Qed.

Lemma scan_repository_stable (repo_path : string)
    (rules : option (list string)) (config : option string) (e e' : Env) :
  fst (scan_repository subprocess_run repo_path rules config e) =
  fst (scan_repository subprocess_run repo_path rules config e').
Proof.
  destruct (scan_repository_cases subprocess_run repo_path rules config e)
    as (r & e1 & -> & C).
  destruct (scan_repository_cases subprocess_run repo_path rules config e')
    as (r' & e1' & -> & C').
  cbn [fst]. f_equal.
  pose proof (stable (command repo_path rules config) (logger_emit "INFO" e)
                (logger_emit "INFO" e')) as S.
  destruct (subprocess_run _ (logger_emit "INFO" e)) as [[p|x] a];
    destruct (subprocess_run _ (logger_emit "INFO" e')) as [[p'|x'] a'];
    cbn [fst] in S; try discriminate S.
  - injection S as <-.
    destruct (negb (returncode p =? 0)%Z && negb (returncode p =? 1)%Z);
      [congruence|].
    pose proof (parse_semgrep_json_stable (stdout p) a a') as P.
    destruct (parse_semgrep_json (stdout p) a) as [[parsed|x] b];
      destruct (parse_semgrep_json (stdout p) a') as [[parsed'|x'] b'];
      cbn [fst] in P; try discriminate P.
    + injection P as <-.
      destruct (String.eqb (sr_status parsed) "success");
        [destruct C as [-> _]; destruct C' as [-> _]; reflexivity
        |congruence].
    + injection P as <-. congruence.
  - injection S as <-. congruence.
Qed.

Lemma scan_config_stable (iac_path config : string) (e e' : Env)
    (acc : list Finding * dict nat) :
  exists r acc' e1 e1',
    scan_config subprocess_run iac_path config (e, acc) = (r, (e1, acc')) /\
    scan_config subprocess_run iac_path config (e', acc) = (r, (e1', acc')).
Proof.
  unfold scan_config, bind, lift, modify_local, lift_res, ret.
  cbn [fst snd].
  pose proof (scan_repository_stable iac_path None (Some config) e e') as S.
  destruct (scan_repository subprocess_run iac_path None (Some config) e)
    as [[r|x] a];
    destruct (scan_repository subprocess_run iac_path None (Some config) e')
      as [[r'|x'] a'];
    cbn [fst] in S; try discriminate S; injection S as <-.
  - destruct (String.eqb (sr_status r) "success").
    + destruct (breakdown_of r); do 4 eexists; split; reflexivity.
    + do 4 eexists; split; reflexivity.
  - do 4 eexists; split; reflexivity.
Qed.

Lemma scan_configs_stable (iac_path : string) (configs : list string)
    (e e' : Env) (acc : list Finding * dict nat) :
  exists r acc' e1 e1',
    for_each configs (scan_config subprocess_run iac_path) (e, acc) =
      (r, (e1, acc')) /\
    for_each configs (scan_config subprocess_run iac_path) (e', acc) =
      (r, (e1', acc')).
Proof.
  revert e e' acc. induction configs as [|config configs IH];
    intros e e' acc; cbn [for_each].
  - do 4 eexists; split; reflexivity.
  - unfold bind.
    destruct (scan_config_stable iac_path config e e' acc)
      as ([[]|x] & acc1 & e1 & e1' & -> & ->).
    + apply IH.
    + do 4 eexists; split; reflexivity.
Qed.

Lemma scan_iac_directory_stable (iac_path : string)
    (include_terraform include_cloudformation include_kubernetes : bool)
    (e e' : Env) :
  fst (scan_iac_directory subprocess_run iac_path include_terraform
         include_cloudformation include_kubernetes e) =
  fst (scan_iac_directory subprocess_run iac_path include_terraform
         include_cloudformation include_kubernetes e').
Proof.
  unfold scan_iac_directory.
  unfold bind at 1 4. cbv [log_info log modify].
  unfold with_local. unfold bind at 1 3.
  match goal with
  | |- context [for_each ?configs _ (?a, ?acc)] =>
      match goal with
      | |- context [for_each configs _ (?a', acc)] =>
          lazymatch a' with
          | a => fail
          | _ =>
              destruct (scan_configs_stable iac_path configs a a' acc)
                as ([[]|x] & acc1 & e1 & e1' & -> & ->)
          end
      end
  end; reflexivity.
Qed.

(** What [scan_self] gathers: the findings of the scan of the code base
    and, when there is an infrastructure directory after that scan, those
    of a scan of it. *)
Lemma scan_self_parts (project_root : string) (e : Env) :
  exists code e1 inner e2,
    scan_repository subprocess_run project_root None (Some "p/python")
      (logger_emit "INFO" e) = (Ok code, e1) /\
    (if iac_path_exists (ScanStage.path_join project_root "infrastructure") e1
     then exists iac,
            scan_iac_directory subprocess_run
              (ScanStage.path_join project_root "infrastructure")
              true true true e1 = (Ok iac, e2) /\
            inner = sr_findings iac
     else inner = [] /\ e2 = e1) /\
    exists self e3,
      Semgrep.scan_self subprocess_run ScanStage.path_join project_root e =
        (Ok self, e3) /\
      self_findings self = (sr_findings code ++ inner)%list.
Proof.
  unfold Semgrep.scan_self.
  erewrite bind_ok by reflexivity.
  destruct (scan_repository_returns subprocess_run project_root None
              (Some "p/python") (logger_emit "INFO" e))
    as (py & e1 & E1 & _).
  erewrite bind_ok by exact E1.
  erewrite bind_ok by reflexivity.
  exists py, e1.
  destruct (iac_path_exists _ e1).
  - destruct (scan_iac_directory_returns subprocess_run
                (ScanStage.path_join project_root "infrastructure") e1)
      as (iac & e2 & E2 & _).
    unfold bind at 1. unfold bind at 1. rewrite E2.
    cbv [bind ret log_audit log modify].
    exists (sr_findings iac), e2. split; [exact E1|].
    split; [exists iac; now split|].
    do 2 eexists. split; reflexivity.
  - cbv [bind ret log_audit log modify].
    exists [], e1. split; [exact E1|]. split; [now split|].
    do 2 eexists. split; reflexivity.
Qed.

End StableScanner.

Section ScanTwice.
Context {Env : Type} `{Externals Env}.
Variable subprocess_run : list string -> M Env Semgrep.CompletedProcess.

(** The scanner process answers a command line the same way whatever the
    environment it is started in, and so does the test for a directory. *)
Hypothesis stable :
  forall cmd e e', fst (subprocess_run cmd e) = fst (subprocess_run cmd e').
Hypothesis root_stable :
  forall p e e', iac_path_exists p e = iac_path_exists p e'.


End ScanTwice.

